(** * Back-office API: authentication, token lifecycle and role gating

    A shallow embedding of the Go services of the repository:

    - [strings]   : the functions of Go's [strings] package the code calls;
    - [domain]    : [internal/domain/auth] (errors, roles, [User]);
    - [postgres]  : [UserRepository] over the [users] table;
    - [bcrypt], [jwt] : the interfaces of the two third-party libraries;
    - [token]     : [JWTManager.Generate] and [JWTManager.Validate];
    - [auth]      : [Service.Register], [Login], [VerifyToken];
    - [user]      : the administration service ([List], [Get], [Create],
                    [Update], [Delete], [ensureRole]);
    - [httpserver]: [extractBearerToken], [authMiddleware], [requireAdmin],
                    [handleUserRole], [handleAdminUsers],
                    [handleAdminUserByID], [handleAdminUserRole];
    - [mem]       : [sanitizeUser] at the level of pointers;
    - [sample]    : an implementation of the library interfaces and sample
                    data, on which the services run;
    - [cors]      : the middleware [withCORS] and [isOriginAllowed];
    - [config]    : [internal/config] ([Load], [loadDotEnv], [splitCSV],
                    [resolveDatabaseURL], [coerceDatabaseURL]).

    Go strings are byte strings; they are Rocq [string]s.  Instants are
    integers (nanoseconds since the epoch), durations are integers
    (nanoseconds), as in Go's [time] package. *)

From Stdlib Require Import Ascii String BinaryString ZArith Sorted.
From stdpp Require Import base decidable option list strings countable gmap
  pretty.

Local Open Scope string_scope.
Local Open Scope Z_scope.

(** ** Package [strings] *)

Module strings.

(** The functions below are those of the package on ASCII strings, the
    strings [isASCII] accepts: on these [ToLower] changes the bytes [A] to
    [Z] only, [TrimSpace] removes the six bytes of [asciiSpace] only, and
    [EqualFold] compares bytes up to the case of these letters.  On a
    string with a byte of value 128 or more Go decodes UTF-8: it also
    lowers the other letters of Unicode, trims its other spaces (U+0085,
    U+00A0, ...) and folds by Unicode's simple case folding; there the
    functions below leave such bytes as they are.  A property that would
    not hold of the package on such a string is stated for ASCII input. *)

Definition isASCII (s : string) : bool :=
  forallb (fun c => (Ascii.nat_of_ascii c <? 128)%nat)
          (list_ascii_of_string s).

Definition isUpper (c : ascii) : bool :=
  ((65 <=? Ascii.nat_of_ascii c) && (Ascii.nat_of_ascii c <=? 90))%nat.

Definition lowerByte (c : ascii) : ascii :=
  if isUpper c then Ascii.ascii_of_nat (Ascii.nat_of_ascii c + 32) else c.

Fixpoint ToLower (s : string) : string :=
  match s with
  | EmptyString => EmptyString
  | String c r => String (lowerByte c) (ToLower r)
  end.

(** [asciiSpace]: tab, line feed, vertical tab, form feed, carriage
    return and space. *)
Definition asciiSpace (c : ascii) : bool :=
  let n := Ascii.nat_of_ascii c in
  ((9 <=? n) && (n <=? 13) || (n =? 32))%nat.

Definition isEmpty (s : string) : bool :=
  match s with EmptyString => true | String _ _ => false end.

Fixpoint TrimLeftSpace (s : string) : string :=
  match s with
  | EmptyString => EmptyString
  | String c r => if asciiSpace c then TrimLeftSpace r else s
  end.

Fixpoint TrimRightSpace (s : string) : string :=
  match s with
  | EmptyString => EmptyString
  | String c r =>
      let r' := TrimRightSpace r in
      if asciiSpace c && isEmpty r' then EmptyString else String c r'
  end.

Definition TrimSpace (s : string) : string :=
  TrimRightSpace (TrimLeftSpace s).

(** Whether the first byte of [s] is a space. *)
Definition leadingSpace (s : string) : bool :=
  match s with
  | EmptyString => false
  | String c _ => asciiSpace c
  end.

(** [HasPrefix s p]: [p] is a prefix of [s]. *)
Definition HasPrefix (s p : string) : bool := String.prefix p s.

(** [sliceFrom n s] is [s[n:]] when [n <= len(s)] (Go panics otherwise;
    the one use of it is guarded, see [httpserver.bearer_in_range]). *)
Fixpoint sliceFrom (n : nat) (s : string) : string :=
  match n, s with
  | O, _ => s
  | S n', String _ r => sliceFrom n' r
  | S _, EmptyString => EmptyString
  end.

(** [TrimPrefix s prefix] *)
Definition TrimPrefix (s prefix : string) : string :=
  if HasPrefix s prefix then sliceFrom (String.length prefix) s else s.

(** [Trim s cutset], for a cutset of ASCII bytes. *)
Definition inCutset (cutset : string) (c : ascii) : bool :=
  existsb (Ascii.eqb c) (list_ascii_of_string cutset).

Fixpoint TrimLeft (s cutset : string) : string :=
  match s with
  | EmptyString => EmptyString
  | String c r => if inCutset cutset c then TrimLeft r cutset else s
  end.

Fixpoint TrimRight (s cutset : string) : string :=
  match s with
  | EmptyString => EmptyString
  | String c r =>
      let r' := TrimRight r cutset in
      if inCutset cutset c && isEmpty r' then EmptyString else String c r'
  end.

Definition Trim (s cutset : string) : string :=
  TrimRight (TrimLeft s cutset) cutset.

(** [Split s sep] for a separator [sep] of one byte: the pieces of [s]
    between the separators, one piece more than there are separators. *)
Fixpoint Split (s : string) (sep : ascii) : list string :=
  match s with
  | EmptyString => [EmptyString]
  | String c r =>
      if Ascii.eqb c sep then EmptyString :: Split r sep
      else
        match Split r sep with
        | piece :: pieces => String c piece :: pieces
        | [] => [String c EmptyString]
        end
  end.

(** [Cut s sep] for a separator of one byte: what is before and after its
    first occurrence, and whether there is one. *)
Fixpoint Cut (s : string) (sep : ascii) : string * string * bool :=
  match s with
  | EmptyString => (EmptyString, EmptyString, false)
  | String c r =>
      if Ascii.eqb c sep then (EmptyString, r, true)
      else
        let '(before, after, found) := Cut r sep in
        if found then (String c before, after, true)
        else (s, EmptyString, false)
  end.

(** [EqualFold s t], on ASCII letters. *)
Definition EqualFold (s t : string) : bool :=
  bool_decide (ToLower s = ToLower t).

End strings.

(** ** Package [internal/domain/auth] *)

Module domain.

(** Go's [error] values.  The sentinel errors of the package are
    constructors; every other error ([errors.New] in place, and the errors
    of pgx, bcrypt and jwt) carries its message. *)
Inductive error : Type :=
| ErrInvalidCredentials
| ErrEmailExists
| ErrTokenInvalid
| ErrUserNotFound
| ErrInvalidRole
| ErrPasswordMismatch
| ErrPasswordUnchanged
| errorsNew (msg : string).

#[global] Instance error_eq_dec : EqDecision error.
Proof. solve_decision. Defined.

(** [errors.Is(err, target)] for the sentinel errors, none of which is
    ever wrapped. *)
Definition errorsIs (err target : error) : bool := bool_decide (err = target).

(** [err.Error()] *)
Definition errorString (err : error) : string :=
  match err with
  | ErrInvalidCredentials => "invalid credentials"
  | ErrEmailExists => "email already registered"
  | ErrTokenInvalid => "token invalid or expired"
  | ErrUserNotFound => "user not found"
  | ErrInvalidRole => "invalid role"
  | ErrPasswordMismatch => "current password does not match"
  | ErrPasswordUnchanged => "new password must be different from current password"
  | errorsNew msg => msg
  end.

(** [type UserRole string] *)
Definition UserRole := string.
Definition RoleUser : UserRole := "user".
Definition RoleAdmin : UserRole := "admin".

Record User : Type := mkUser {
  ID : string;
  Email : string;
  Name : string;
  Role : UserRole;
  PasswordHash : string;
  CreatedAt : Z;
  UpdatedAt : Z
}.

#[global] Instance User_eq_dec : EqDecision User.
Proof. solve_decision. Defined.

Record Credentials : Type := mkCredentials {
  cred_Email : string;
  cred_Password : string
}.

Record UserFilter : Type := mkUserFilter { filter_Role : UserRole }.

(** A Go result [(T, error)]. *)
Inductive result (A : Type) : Type :=
| Ok (a : A)
| Err (e : error).
Arguments Ok {A} a.
Arguments Err {A} e.

End domain.
Export domain.

(** ** Package [internal/infrastructure/postgres]: the [users] table *)

Module postgres.

(** A pgx error: [pgx.ErrNoRows], a violation of a uniqueness constraint
    (SQLSTATE 23505), or any other failure (lost connection, cancelled
    context, ...). *)
Inductive pgError : Type :=
| ErrNoRows
| UniqueViolation
| Failure (msg : string).

Inductive pgResult (A : Type) : Type :=
| PgOk (a : A)
| PgErr (e : pgError).
Arguments PgOk {A} a.
Arguments PgErr {A} e.

(** The Go [error] a pgx error is when it is returned as it is. *)
Definition asError (e : pgError) : error :=
  match e with
  | ErrNoRows => errorsNew "no rows in result set"
  | UniqueViolation => errorsNew "duplicate key value violates unique constraint"
  | Failure msg => errorsNew msg
  end.

(** Modelled from the spec: [isUniqueViolation] is called by the
    repositories and defined in none of the source files.  The Store
    surfaces a uniqueness violation; this helper recognises it. *)
Definition isUniqueViolation (e : pgError) : bool :=
  match e with
  | UniqueViolation => true
  | _ => false
  end.

(** What happens on the connection pool before a statement of this request
    runs: the call fails ([Down]), or other requests have committed in between
    and the table is now [t] ([Concurrent]). *)
Inductive PgEvent : Type :=
| Down (msg : string)
| Concurrent (t : list User).

(** The pool: the rows of table [users], values held as they were written,
    and the events to come, one consumed by each statement.  An empty
    script is a quiet store. *)
Record Pool : Type := mkPool {
  users : list User;
  script : list PgEvent
}.

Definition begin (p : Pool) : option string * Pool :=
  match script p with
  | [] => (None, p)
  | Down msg :: s => (Some msg, mkPool (users p) s)
  | Concurrent t :: s => (None, mkPool t s)
  end.

Definition sameID (id : string) (r : User) : bool := bool_decide (ID r = id).
Definition sameEmail (email : string) (r : User) : bool :=
  bool_decide (Email r = email).

(** [INSERT INTO users (...) VALUES (...)].
    Modelled from the spec: the schema ([migrations/schema.sql]) is not
    among the source files.  The Store enforces the uniqueness of [email];
    [id] identifies the account and is the key of the table. *)
Definition ExecInsert (u : User) (p : Pool) : pgResult nat * Pool :=
  let '(fault, p) := begin p in
  match fault with
  | Some msg => (PgErr (Failure msg), p)
  | None =>
      if existsb (fun r => sameID (ID u) r || sameEmail (Email u) r) (users p)
      then (PgErr UniqueViolation, p)
      else (PgOk 1%nat, mkPool (users p ++ [u]) (script p))
  end.

(** [SELECT ... FROM users WHERE email = $1] and [... WHERE id = $1],
    followed by [scanUser]. *)
Definition QueryRow (sel : User -> bool) (p : Pool) : pgResult User * Pool :=
  let '(fault, p) := begin p in
  match fault with
  | Some msg => (PgErr (Failure msg), p)
  | None =>
      match find sel (users p) with
      | Some r => (PgOk r, p)
      | None => (PgErr ErrNoRows, p)
      end
  end.

(** [UPDATE users SET email = $2, name = $3, role = $4, updated_at = $5
    WHERE id = $1] *)
Definition setRow (u r : User) : User :=
  if sameID (ID u) r
  then mkUser (ID r) (Email u) (Name u) (Role u) (PasswordHash r)
              (CreatedAt r) (UpdatedAt u)
  else r.

Definition ExecUpdate (u : User) (p : Pool) : pgResult nat * Pool :=
  let '(fault, p) := begin p in
  match fault with
  | Some msg => (PgErr (Failure msg), p)
  | None =>
      match List.filter (sameID (ID u)) (users p) with
      | [] => (PgOk 0%nat, p)
      | hit :: hits =>
          if existsb (fun r => negb (sameID (ID u) r) && sameEmail (Email u) r)
                     (users p)
          then (PgErr UniqueViolation, p)
          else (PgOk (length (hit :: hits)),
                mkPool (map (setRow u) (users p)) (script p))
      end
  end.

(** [DELETE FROM users WHERE id = $1] *)
Definition ExecDelete (id : string) (p : Pool) : pgResult nat * Pool :=
  let '(fault, p) := begin p in
  match fault with
  | Some msg => (PgErr (Failure msg), p)
  | None =>
      (PgOk (length (List.filter (sameID id) (users p))),
       mkPool (List.filter (fun r => negb (sameID id r)) (users p)) (script p))
  end.

(** [SELECT ... FROM users [WHERE role = $1] ORDER BY created_at DESC],
    every row scanned.  Rows created at the same instant keep the order of
    the table. *)
Fixpoint insertDesc (u : User) (l : list User) : list User :=
  match l with
  | [] => [u]
  | r :: l' =>
      if CreatedAt r <? CreatedAt u then u :: l else r :: insertDesc u l'
  end.

Definition orderByCreatedAtDesc (l : list User) : list User :=
  fold_right insertDesc [] l.

Definition Query (role : UserRole) (p : Pool) : pgResult (list User) * Pool :=
  let '(fault, p) := begin p in
  match fault with
  | Some msg => (PgErr (Failure msg), p)
  | None =>
      let rows :=
        if strings.isEmpty role then users p
        else List.filter (fun r => bool_decide (Role r = role)) (users p) in
      (PgOk (orderByCreatedAtDesc rows), p)
  end.

(** The constraints of the table: [id] is the primary key, [email] is
    unique. *)
Definition consistent (t : list User) : Prop :=
  NoDup (map ID t) /\ NoDup (map Email t).

(** A script with no concurrent commit (calls may still fail). *)
Definition undisturbed (s : list PgEvent) : Prop :=
  forall t, ~ In (Concurrent t) s.

(** *** [UserRepository] *)

Definition Create (user : User) (p : Pool) : result unit * Pool :=
  match ExecInsert user p with
  | (PgErr err, p) =>
      if isUniqueViolation err then (Err ErrEmailExists, p)
      else (Err (asError err), p)
  | (PgOk _, p) => (Ok tt, p)
  end.

(** The end of [GetByEmail] and of [GetByID]: [pgx.ErrNoRows] becomes
    [ErrUserNotFound], any other error of [scanUser] is returned as it is. *)
Definition scanOne (r : pgResult User * Pool) : result User * Pool :=
  match r with
  | (PgErr ErrNoRows, p) => (Err ErrUserNotFound, p)
  | (PgErr err, p) => (Err (asError err), p)
  | (PgOk user, p) => (Ok user, p)
  end.

Definition GetByEmail (email : string) (p : Pool) : result User * Pool :=
  scanOne (QueryRow (sameEmail email) p).

Definition GetByID (id : string) (p : Pool) : result User * Pool :=
  scanOne (QueryRow (sameID id) p).

Definition List (filter : UserFilter) (p : Pool) : result (list User) * Pool :=
  match Query (filter_Role filter) p with
  | (PgErr err, p) => (Err (asError err), p)
  | (PgOk users, p) => (Ok users, p)
  end.

Definition Update (user : User) (p : Pool) : result unit * Pool :=
  match ExecUpdate user p with
  | (PgErr err, p) =>
      if isUniqueViolation err then (Err ErrEmailExists, p)
      else (Err (asError err), p)
  | (PgOk O, p) => (Err ErrUserNotFound, p)
  | (PgOk _, p) => (Ok tt, p)
  end.

Definition Delete (id : string) (p : Pool) : result unit * Pool :=
  match ExecDelete id p with
  | (PgErr err, p) => (Err (asError err), p)
  | (PgOk O, p) => (Err ErrUserNotFound, p)
  | (PgOk _, p) => (Ok tt, p)
  end.

(** [UPDATE users SET password_hash = $2, updated_at = $3 WHERE id = $1] *)
Definition setPassword (id passwordHash : string) (updatedAt : Z) (r : User)
  : User :=
  if sameID id r
  then mkUser (ID r) (Email r) (Name r) (Role r) passwordHash
              (CreatedAt r) updatedAt
  else r.

Definition ExecUpdatePassword (id passwordHash : string) (updatedAt : Z)
    (p : Pool) : pgResult nat * Pool :=
  let '(fault, p) := begin p in
  match fault with
  | Some msg => (PgErr (Failure msg), p)
  | None =>
      (PgOk (length (List.filter (sameID id) (users p))),
       mkPool (map (setPassword id passwordHash updatedAt) (users p))
              (script p))
  end.

Definition UpdatePassword (id passwordHash : string) (updatedAt : Z)
    (p : Pool) : result unit * Pool :=
  match ExecUpdatePassword id passwordHash updatedAt p with
  | (PgErr err, p) => (Err (asError err), p)
  | (PgOk O, p) => (Err ErrUserNotFound, p)
  | (PgOk _, p) => (Ok tt, p)
  end.

End postgres.

(** ** Third-party libraries, by their interfaces *)

Module bcrypt.

(** [golang.org/x/crypto/bcrypt].  [GenerateFromPassword salt password] is
    the digest computed at the default cost with the salt the library draws
    (an error for a password it refuses or when no salt can be drawn);
    [CompareHashAndPassword] answers [true] for a [nil] error.  The salt is
    part of the digest, so a digest verifies against the password it was
    made from. *)
Class Hasher : Type := {
  GenerateFromPassword : string -> string -> result string;
  CompareHashAndPassword : string -> string -> bool;
  compare_generated : forall salt password hashed,
    GenerateFromPassword salt password = Ok hashed ->
    CompareHashAndPassword hashed password = true
}.

End bcrypt.

Module jwt.

(** [github.com/golang-jwt/jwt/v5] *)

Inductive SigningMethod : Type :=
| SigningMethodHMAC (name : string)
| SigningMethodRSA (name : string)
| SigningMethodRSAPSS (name : string)
| SigningMethodECDSA (name : string)
| SigningMethodEd25519
| signingMethodNone.

(** The registered methods, by the [alg] of the token header. *)
Definition GetSigningMethod (alg : string) : option SigningMethod :=
  if bool_decide (alg ∈ ["HS256"; "HS384"; "HS512"])
  then Some (SigningMethodHMAC alg)
  else if bool_decide (alg ∈ ["RS256"; "RS384"; "RS512"])
  then Some (SigningMethodRSA alg)
  else if bool_decide (alg ∈ ["PS256"; "PS384"; "PS512"])
  then Some (SigningMethodRSAPSS alg)
  else if bool_decide (alg ∈ ["ES256"; "ES384"; "ES512"])
  then Some (SigningMethodECDSA alg)
  else if bool_decide (alg = "EdDSA") then Some SigningMethodEd25519
  else if bool_decide (alg = "none") then Some signingMethodNone
  else None.

(** [token.Claims]: the [uid] claim and the registered claims.  A numeric
    date is an instant; [None] is an absent claim. *)
Record Claims : Type := mkClaims {
  UserID : string;
  Issuer : string;
  Subject : string;
  Audience : list string;
  ExpiresAt : option Z;
  NotBefore : option Z;
  IssuedAt : option Z;
  JwtID : string
}.

(** A decoded token: header [alg], claims, signature. *)
Record Token : Type := mkToken {
  alg : string;
  claims : Claims;
  signature : string
}.

(** The library's compact serialization and its keyed hash.  [decode]
    answers [None] for a string that is not three base64url segments of
    well-formed JSON with an [alg] in its header, and [decodeError] is the
    message of the error the parser then returns ([token is malformed: ...]
    with the segment at fault, or [token is unverifiable: signing method
    (alg) is unspecified]); [hmac name key alg claims] is the MAC of the
    signing input (the first two segments) under [key]. *)
Class Library : Type := {
  encode : Token -> string;
  decode : string -> option Token;
  decodeError : string -> string;
  hmac : string -> string -> string -> Claims -> string;
  decode_encode : forall t, decode (encode t) = Some t
}.

(** [NewNumericDate]: the instant truncated to [TimePrecision], a second. *)
Definition second : Z := 1000000000.
Definition NewNumericDate (t : Z) : Z := t / second * second.

(** [Method.Verify] with a key of type [[]byte]: only an HMAC method takes
    such a key. *)
Definition Verify `{Library} (m : SigningMethod) (t : Token) (key : string)
  : bool :=
  match m with
  | SigningMethodHMAC name =>
      bool_decide (signature t = hmac name key (alg t) (claims t))
  | _ => false
  end.

(** [Validator.Validate] with the parser's default options: [exp] and [nbf]
    are checked when present, against the clock. *)
Definition expired (now : Z) (c : Claims) : bool :=
  match ExpiresAt c with
  | Some exp => negb (now <? exp)
  | None => false
  end.

Definition notValidYet (now : Z) (c : Claims) : bool :=
  match NotBefore c with
  | Some nbf => now <? nbf
  | None => false
  end.

(** The validator collects the errors of the checks that fail and joins
    their messages with a comma. *)
Definition validate (now : Z) (c : Claims) : result unit :=
  match expired now c, notValidYet now c with
  | false, false => Ok tt
  | true, false => Err (errorsNew "token is expired")
  | false, true => Err (errorsNew "token is not valid yet")
  | true, true => Err (errorsNew "token is expired, token is not valid yet")
  end.

(** The token [ParseWithClaims] returns: the claims and the [Valid] flag. *)
Record Parsed : Type := mkParsed {
  Method : SigningMethod;
  parsedClaims : Claims;
  Valid : bool
}.

(** [ParseWithClaims].  Each error is the sentinel of its kind wrapping
    its cause, so its message is that of the sentinel, a colon, and that of
    the cause. *)
Definition ParseWithClaims `{Library} (now : Z) (tokenString : string)
    (keyFunc : SigningMethod -> result string) : result Parsed :=
  match decode tokenString with
  | None => Err (errorsNew (decodeError tokenString))
  | Some t =>
      match GetSigningMethod (alg t) with
      | None => Err (errorsNew "token is unverifiable: signing method (alg) is unavailable")
      | Some m =>
          match keyFunc m with
          | Err e =>
              Err (errorsNew
                     ("token is unverifiable: error while executing keyfunc: "
                      ++ errorString e))
          | Ok key =>
              if Verify m t key then
                match validate now (claims t) with
                | Err e =>
                    Err (errorsNew
                           ("token has invalid claims: " ++ errorString e))
                | Ok _ => Ok (mkParsed m (claims t) true)
                end
              else
                Err (errorsNew
                       "token signature is invalid: signature is invalid")
          end
      end
  end.

(** [NewWithClaims(method, claims).SignedString(key)] for an HMAC method and
    a [[]byte] key, which cannot fail. *)
Definition SignedString `{Library} (name : string) (c : Claims) (key : string)
  : result string :=
  Ok (encode (mkToken name c (hmac name key name c))).

End jwt.

(** ** Package [internal/infrastructure/token] *)

Module token.
Import jwt.

Record JWTManager : Type := NewJWTManager {
  secret : string;
  expiration : Z;
  issuer : string
}.

(** [Generate], at clock reading [now]. *)
Definition Generate `{Library} (m : JWTManager) (now : Z) (userID : string)
  : result string :=
  let claims :=
    {| UserID := userID;
       Issuer := issuer m;
       Subject := "";
       Audience := [];
       ExpiresAt := Some (NewNumericDate (now + expiration m));
       NotBefore := None;
       IssuedAt := Some (NewNumericDate now);
       JwtID := "" |} in
  SignedString "HS256" claims (secret m).

(** [Validate], at clock reading [now]. *)
Definition Validate `{Library} (m : JWTManager) (now : Z) (tokenString : string)
  : result string :=
  match
    ParseWithClaims now tokenString
      (fun method =>
         match method with
         | SigningMethodHMAC _ => Ok (secret m)
         | _ => Err (errorsNew "unexpected signing method")
         end)
  with
  | Err err => Err err
  | Ok token =>
      if negb (Valid token) then Err (errorsNew "invalid token claims")
      else Ok (UserID (parsedClaims token))
  end.

End token.

(** ** Package [internal/usecase/auth] *)

Module auth.
Import strings postgres.

(** [sanitizeUser] on a record: the copy with the password hash cleared.
    (Its pointer-level form, with the [nil] case, is [mem.sanitizeUser].) *)
Definition sanitizeUser (u : User) : User :=
  mkUser (ID u) (Email u) (Name u) (Role u) "" (CreatedAt u) (UpdatedAt u).

Section Service.
Context `{bcrypt.Hasher} `{jwt.Library}.

(** The service holds the repository (the pool, threaded as state) and the
    token manager [tokens].  The clock reading [now], the identifier
    [uuid] drawn by [uuid.NewString] and the [salt] drawn by bcrypt are
    inputs of a call. *)
Variable tokens : token.JWTManager.

Definition Register (now : Z) (uuid salt : string)
    (email password name : string) (p : Pool) : result User * Pool :=
  let email := TrimSpace (ToLower email) in
  let password := TrimSpace password in
  if isEmpty email then (Err (errorsNew "email is required"), p)
  else if isEmpty password then (Err (errorsNew "password is required"), p)
  else
    match GetByEmail email p with
    | (Ok _, p) => (Err ErrEmailExists, p)
    | (Err err, p) =>
        if negb (errorsIs err ErrUserNotFound) then (Err err, p)
        else
          match bcrypt.GenerateFromPassword salt password with
          | Err err => (Err err, p)
          | Ok hashed =>
              let user :=
                {| ID := uuid;
                   Email := email;
                   Name := TrimSpace name;
                   Role := "";  (* the literal sets no Role: the zero value *)
                   PasswordHash := hashed;
                   CreatedAt := now;
                   UpdatedAt := now |} in
              match Create user p with
              | (Err err, p) => (Err err, p)
              | (Ok _, p) => (Ok (sanitizeUser user), p)
              end
          end
    end.

Definition Login (now : Z) (creds : Credentials) (p : Pool)
  : result (string * User) * Pool :=
  let email := TrimSpace (ToLower (cred_Email creds)) in
  let password := TrimSpace (cred_Password creds) in
  if isEmpty email || isEmpty password then (Err ErrInvalidCredentials, p)
  else
    match GetByEmail email p with
    | (Err err, p) =>
        if errorsIs err ErrUserNotFound then (Err ErrInvalidCredentials, p)
        else (Err err, p)
    | (Ok user, p) =>
        if negb (bcrypt.CompareHashAndPassword (PasswordHash user) password)
        then (Err ErrInvalidCredentials, p)
        else
          match token.Generate tokens now (ID user) with
          | Err err => (Err err, p)
          | Ok token => (Ok (token, sanitizeUser user), p)
          end
    end.

Definition VerifyToken (now : Z) (token : string) (p : Pool)
  : result User * Pool :=
  match token.Validate tokens now token with
  | Err _ => (Err ErrTokenInvalid, p)
  | Ok userID =>
      match GetByID userID p with
      | (Err err, p) =>
          if errorsIs err ErrUserNotFound then (Err ErrTokenInvalid, p)
          else (Err err, p)
      | (Ok user, p) => (Ok (sanitizeUser user), p)
      end
  end.

End Service.

(** The record [Register] builds and hands to the repository. *)
Definition registered (now : Z) (uuid hashed email name : string) : User :=
  {| ID := uuid;
     Email := TrimSpace (ToLower email);
     Name := TrimSpace name;
     Role := "";
     PasswordHash := hashed;
     CreatedAt := now;
     UpdatedAt := now |}.

End auth.

(** ** Package [internal/usecase/user]: the administration service *)

Module user.
Import strings postgres.

Record Filter : Type := mkFilter { Filter_Role : string }.

Record CreateInput : Type := mkCreateInput {
  Create_Email : string;
  Create_Name : string;
  Create_Password : string;
  Create_Role : string
}.

(** Pointer fields: [None] is [nil]. *)
Record UpdateInput : Type := mkUpdateInput {
  Update_Email : option string;
  Update_Name : option string;
  Update_Role : option string
}.

Definition ensureRole (raw : string) (defaultToUser : bool) : result UserRole :=
  let role := TrimSpace (ToLower raw) in
  if isEmpty role then
    if defaultToUser then Ok RoleUser else Ok ""
  else if bool_decide (role = RoleUser) || bool_decide (role = RoleAdmin)
  then Ok role
  else Err ErrInvalidRole.

Definition sanitizeUser (u : User) : User :=
  mkUser (ID u) (Email u) (Name u) (Role u) "" (CreatedAt u) (UpdatedAt u).

Definition sanitizeUsers (items : list User) : list User :=
  fold_left (fun out item => (out ++ [sanitizeUser item])%list) items [].

Section Service.
Context `{bcrypt.Hasher}.

Definition List (filter : Filter) (p : Pool) : result (list User) * Pool :=
  let trimmed := TrimSpace (ToLower (Filter_Role filter)) in
  match
    (if negb (isEmpty trimmed) then
       match ensureRole trimmed false with
       | Err err => Err err
       | Ok role => Ok (mkUserFilter role)
       end
     else Ok (mkUserFilter ""))
  with
  | Err err => (Err err, p)
  | Ok domainFilter =>
      match postgres.List domainFilter p with
      | (Err err, p) => (Err err, p)
      | (Ok users, p) => (Ok (sanitizeUsers users), p)
      end
  end.

Definition Get (id : string) (p : Pool) : result User * Pool :=
  let id := TrimSpace id in
  if isEmpty id then (Err (errorsNew "user id is required"), p)
  else
    match GetByID id p with
    | (Err err, p) => (Err err, p)
    | (Ok user, p) => (Ok (sanitizeUser user), p)
    end.

Definition Create (now : Z) (uuid salt : string) (input : CreateInput)
    (p : Pool) : result User * Pool :=
  let email := TrimSpace (ToLower (Create_Email input)) in
  let name := TrimSpace (Create_Name input) in
  let password := TrimSpace (Create_Password input) in
  if isEmpty email then (Err (errorsNew "email is required"), p)
  else if isEmpty password then (Err (errorsNew "password is required"), p)
  else
    match ensureRole (Create_Role input) true with
    | Err err => (Err err, p)
    | Ok role =>
        match GetByEmail email p with
        | (Ok _, p) => (Err ErrEmailExists, p)
        | (Err err, p) =>
            if negb (errorsIs err ErrUserNotFound) then (Err err, p)
            else
              match bcrypt.GenerateFromPassword salt password with
              | Err err => (Err err, p)
              | Ok hashed =>
                  let user :=
                    {| ID := uuid;
                       Email := email;
                       Name := name;
                       Role := role;
                       PasswordHash := hashed;
                       CreatedAt := now;
                       UpdatedAt := now |} in
                  match postgres.Create user p with
                  | (Err err, p) => (Err err, p)
                  | (Ok _, p) => (Ok (sanitizeUser user), p)
                  end
              end
        end
    end.

(** The three conditional assignments of [Update], each on the record
    fetched from the repository. *)
Definition setEmail (input : UpdateInput) (user : User) : result User :=
  match Update_Email input with
  | None => Ok user
  | Some e =>
      let email := TrimSpace (ToLower e) in
      if isEmpty email then Err (errorsNew "email is required")
      else Ok (mkUser (ID user) email (Name user) (Role user)
                      (PasswordHash user) (CreatedAt user) (UpdatedAt user))
  end.

Definition setName (input : UpdateInput) (user : User) : User :=
  match Update_Name input with
  | None => user
  | Some n =>
      mkUser (ID user) (Email user) (TrimSpace n) (Role user)
             (PasswordHash user) (CreatedAt user) (UpdatedAt user)
  end.

Definition setRole (input : UpdateInput) (user : User) : result User :=
  match Update_Role input with
  | None => Ok user
  | Some r =>
      match ensureRole r true with
      | Err err => Err err
      | Ok role =>
          Ok (mkUser (ID user) (Email user) (Name user) role
                     (PasswordHash user) (CreatedAt user) (UpdatedAt user))
      end
  end.

Definition Update (now : Z) (id : string) (input : UpdateInput) (p : Pool)
  : result User * Pool :=
  let id := TrimSpace id in
  if isEmpty id then (Err (errorsNew "user id is required"), p)
  else
    match GetByID id p with
    | (Err err, p) => (Err err, p)
    | (Ok user, p) =>
        match setEmail input user with
        | Err err => (Err err, p)
        | Ok user =>
            match setRole input (setName input user) with
            | Err err => (Err err, p)
            | Ok user =>
                let user :=
                  mkUser (ID user) (Email user) (Name user) (Role user)
                         (PasswordHash user) (CreatedAt user) now in
                match postgres.Update user p with
                | (Err err, p) => (Err err, p)
                | (Ok _, p) => (Ok (sanitizeUser user), p)
                end
            end
        end
    end.

Definition Delete (id : string) (p : Pool) : result unit * Pool :=
  let id := TrimSpace id in
  if isEmpty id then (Err (errorsNew "user id is required"), p)
  else postgres.Delete id p.

End Service.

End user.

(** ** Package [internal/httpserver] *)

Module httpserver.
Import strings postgres.

Definition StatusOK : Z := 200.
Definition StatusBadRequest : Z := 400.
Definition StatusUnauthorized : Z := 401.
Definition StatusForbidden : Z := 403.
Definition StatusNotFound : Z := 404.
Definition StatusMethodNotAllowed : Z := 405.

(** What [json.NewDecoder(r.Body).Decode(&payload)] gives for the payload
    [struct { Role string }]: [io.EOF] on an empty body, another error on
    ill-formed JSON, or the payload. *)
Inductive Decoded : Type :=
| DecodeEOF
| DecodeError
| Payload (Role : string).

(** The parts of a request the handlers read: the method, the
    [Authorization] header (empty when absent, as [Header.Get] gives it),
    the body, and the user stored in the context under [ctxKeyUser]. *)
Record Request : Type := mkRequest {
  Method : string;
  Authorization : string;
  Body : Decoded;
  ctxUser : option User
}.

Inductive Json : Type :=
| errorResponse (Error : string)
| userEnvelope (user : User)
| userValue (user : User).

(** What a handler has written to the [ResponseWriter]. *)
Record Response : Type := mkResponse {
  status : Z;
  Allow : option (list string);
  payload : Json
}.

Definition writeJSON (status : Z) (payload : Json) : Response :=
  mkResponse status None payload.

Definition writeError (status : Z) (message : string) : Response :=
  writeJSON status (errorResponse message).

Definition writeMethodNotAllowed (allowed : list string) : Response :=
  mkResponse StatusMethodNotAllowed (Some allowed)
             (errorResponse "method not allowed").

(** [err.Error()] *)
Definition Error (err : error) : string :=
  match err with
  | ErrInvalidCredentials => "invalid credentials"
  | ErrEmailExists => "email already registered"
  | ErrTokenInvalid => "token invalid or expired"
  | ErrUserNotFound => "user not found"
  | ErrInvalidRole => "invalid role"
  | ErrPasswordMismatch => "current password does not match"
  | ErrPasswordUnchanged => "new password must be different from current password"
  | errorsNew msg => msg
  end.

Definition Handler : Type := Request -> Pool -> Response * Pool.

Definition extractBearerToken (header : string) : string :=
  if isEmpty header then ""
  else if negb (HasPrefix (ToLower header) "bearer ") then ""
  else TrimSpace (sliceFrom 7 header).

Definition withUser (r : Request) (user : User) : Request :=
  mkRequest (Method r) (Authorization r) (Body r) (Some user).

(** [authMiddleware].  [VerifyToken] is the method value
    [s.authService.VerifyToken] at the clock reading of the request. *)
Definition authMiddleware
    (VerifyToken : string -> Pool -> result User * Pool)
    (next : Handler) : Handler :=
  fun r p =>
    let token := extractBearerToken (Authorization r) in
    if isEmpty token
    then (writeError StatusUnauthorized "authorization token required", p)
    else
      match VerifyToken token p with
      | (Err _, p) =>
          (writeError StatusUnauthorized "invalid or expired token", p)
      | (Ok user, p) => next (withUser r user) p
      end.

Definition currentUserFromContext (r : Request) : option User := ctxUser r.

(** [requireAdmin]: [None] when it returns [true]; otherwise the response
    it wrote before returning [false]. *)
Definition requireAdmin (r : Request) : option Response :=
  match currentUserFromContext r with
  | None => Some (writeError StatusUnauthorized "authentication required")
  | Some user =>
      if negb (bool_decide (Role user = RoleAdmin))
      then Some (writeError StatusForbidden "admin privileges required")
      else None
  end.

Definition isMethod (r : Request) (methods : list string) : bool :=
  bool_decide (Method r ∈ methods).

(** [handleUserRole], route [/users/me/role]; [now] is the clock reading of
    the user service. *)
Definition handleUserRole (now : Z) : Handler :=
  fun r p =>
    match currentUserFromContext r with
    | None => (writeError StatusUnauthorized "authentication required", p)
    | Some user =>
        if isMethod r ["GET"] then (writeJSON StatusOK (userEnvelope user), p)
        else if isMethod r ["PUT"; "PATCH"] then
          match Body r with
          | DecodeEOF => (writeError StatusBadRequest "role is required", p)
          | DecodeError => (writeError StatusBadRequest "invalid JSON payload", p)
          | Payload payloadRole =>
              let role := TrimSpace payloadRole in
              if isEmpty role
              then (writeError StatusBadRequest "role is required", p)
              else
                let normalized := ToLower role in
                if bool_decide (normalized = RoleAdmin)
                   && negb (bool_decide (Role user = RoleAdmin))
                then (writeError StatusForbidden
                        "insufficient privileges to assign admin role", p)
                else
                  match
                    user.Update now (ID user)
                      (user.mkUpdateInput None None (Some role)) p
                  with
                  | (Err err, p) =>
                      if errorsIs err ErrInvalidRole
                      then (writeError StatusBadRequest (Error err), p)
                      else if errorsIs err ErrUserNotFound
                      then (writeError StatusNotFound (Error err), p)
                      else (writeError StatusBadRequest (Error err), p)
                  | (Ok user, p) => (writeJSON StatusOK (userEnvelope user), p)
                  end
          end
        else (writeMethodNotAllowed ["GET"; "PUT"; "PATCH"], p)
    end.

(** [handleAdminUserRole], route [/admin/users/{id}/role]. *)
Definition handleAdminUserRole (now : Z) (userID : string) : Handler :=
  fun r p =>
    if isMethod r ["GET"] then
      match requireAdmin r with
      | Some denied => (denied, p)
      | None =>
          match user.Get userID p with
          | (Err err, p) =>
              if errorsIs err ErrUserNotFound
              then (writeError StatusNotFound (Error err), p)
              else (writeError StatusBadRequest (Error err), p)
          | (Ok user, p) => (writeJSON StatusOK (userEnvelope user), p)
          end
      end
    else if isMethod r ["PUT"; "PATCH"] then
      match requireAdmin r with
      | Some denied => (denied, p)
      | None =>
          match Body r with
          | DecodeEOF => (writeError StatusBadRequest "role is required", p)
          | DecodeError => (writeError StatusBadRequest "invalid JSON payload", p)
          | Payload payloadRole =>
              let role := TrimSpace payloadRole in
              if isEmpty role
              then (writeError StatusBadRequest "role is required", p)
              else
                match
                  user.Update now userID
                    (user.mkUpdateInput None None (Some role)) p
                with
                | (Err err, p) =>
                    if errorsIs err ErrUserNotFound
                    then (writeError StatusNotFound (Error err), p)
                    else if errorsIs err ErrInvalidRole
                    then (writeError StatusBadRequest (Error err), p)
                    else (writeError StatusBadRequest (Error err), p)
                | (Ok user, p) => (writeJSON StatusOK (userValue user), p)
                end
          end
      end
    else if isMethod r ["DELETE"] then
      match requireAdmin r with
      | Some denied => (denied, p)
      | None =>
          let defaultRole := RoleUser in
          match
            user.Update now userID
              (user.mkUpdateInput None None (Some defaultRole)) p
          with
          | (Err err, p) =>
              if errorsIs err ErrUserNotFound
              then (writeError StatusNotFound (Error err), p)
              else (writeError StatusBadRequest (Error err), p)
          | (Ok user, p) => (writeJSON StatusOK (userValue user), p)
          end
      end
    else (writeMethodNotAllowed ["GET"; "PUT"; "PATCH"; "DELETE"], p).

(** *** The administration routes *)

Definition StatusCreated : Z := 201.
Definition StatusNoContent : Z := 204.
Definition StatusConflict : Z := 409.

(** What [Decode] gives for a payload of type [A]. *)
Inductive Decoding (A : Type) : Type :=
| BodyEOF
| BodyInvalid
| BodyValue (a : A).
Arguments BodyEOF {A}.
Arguments BodyInvalid {A}.
Arguments BodyValue {A} a.

(** A request to an administration route: the parts [Request] has, the
    path of the URL, the [role] parameter of the query (empty when absent),
    and what the body decodes to as each of the two payloads of these
    routes. *)
Record AdminRequest : Type := mkAdminRequest {
  base : Request;
  Path : string;
  QueryRole : string;
  BodyCreate : Decoding user.CreateInput;
  BodyUpdate : Decoding user.UpdateInput
}.

Inductive Content : Type :=
| json (payload : Json)
| usersEnvelope (users : list User)
| noContent.

Record Reply : Type := mkReply {
  code : Z;
  allowHeader : option (list string);
  content : Content
}.

Definition replyOf (w : Response) : Reply :=
  mkReply (status w) (Allow w) (json (payload w)).

Section AdminRoutes.
Context `{bcrypt.Hasher}.

(** [handleAdminUsers], route [/admin/users]. *)
Definition handleAdminUsers (now : Z) (uuid salt : string)
    (r : AdminRequest) (p : Pool) : Reply * Pool :=
  if isMethod (base r) ["GET"] then
    match requireAdmin (base r) with
    | Some denied => (replyOf denied, p)
    | None =>
        match user.List (user.mkFilter (QueryRole r)) p with
        | (Err err, p) =>
            if errorsIs err ErrInvalidRole
            then (replyOf (writeError StatusBadRequest (Error err)), p)
            else (replyOf (writeError StatusBadRequest (Error err)), p)
        | (Ok users, p) => (mkReply StatusOK None (usersEnvelope users), p)
        end
    end
  else if isMethod (base r) ["POST"] then
    match requireAdmin (base r) with
    | Some denied => (replyOf denied, p)
    | None =>
        match BodyCreate r with
        | BodyEOF =>
            (replyOf (writeError StatusBadRequest
                        "email, password, and role are required"), p)
        | BodyInvalid =>
            (replyOf (writeError StatusBadRequest "invalid JSON payload"), p)
        | BodyValue payload =>
            match user.Create now uuid salt payload p with
            | (Err err, p) =>
                if errorsIs err ErrEmailExists
                then (replyOf (writeError StatusConflict (Error err)), p)
                else if errorsIs err ErrInvalidRole
                then (replyOf (writeError StatusBadRequest (Error err)), p)
                else (replyOf (writeError StatusBadRequest (Error err)), p)
            | (Ok user, p) =>
                (replyOf (writeJSON StatusCreated (userEnvelope user)), p)
            end
        end
    end
  else (replyOf (writeMethodNotAllowed ["GET"; "POST"]), p).

(** [handleAdminUserByID], route [/admin/users/]. *)
Definition handleAdminUserByID (now : Z) (r : AdminRequest) (p : Pool)
  : Reply * Pool :=
  let remainder := TrimPrefix (Path r) "/admin/users/" in
  let remainder := TrimSpace remainder in
  let remainder := Trim remainder "/" in
  if isEmpty remainder
  then (replyOf (writeError StatusBadRequest "user id required"), p)
  else
    let segments := Split remainder "/"%char in
    let id := TrimSpace (hd EmptyString segments) in
    if isEmpty id
    then (replyOf (writeError StatusBadRequest "user id required"), p)
    else
      match tl segments with
      | segment :: _ =>
          if bool_decide (TrimSpace segment = "role")
          then
            let '(w, p) := handleAdminUserRole now id (base r) p in
            (replyOf w, p)
          else (replyOf (writeError StatusNotFound "resource not found"), p)
      | [] =>
          if isMethod (base r) ["GET"] then
            match requireAdmin (base r) with
            | Some denied => (replyOf denied, p)
            | None =>
                match user.Get id p with
                | (Err err, p) =>
                    if errorsIs err ErrUserNotFound
                    then (replyOf (writeError StatusNotFound (Error err)), p)
                    else (replyOf (writeError StatusBadRequest (Error err)), p)
                | (Ok user, p) =>
                    (replyOf (writeJSON StatusOK (userValue user)), p)
                end
            end
          else if isMethod (base r) ["PUT"; "PATCH"] then
            match requireAdmin (base r) with
            | Some denied => (replyOf denied, p)
            | None =>
                match BodyUpdate r with
                | BodyEOF =>
                    (replyOf (writeError StatusBadRequest
                                "update payload required"), p)
                | BodyInvalid =>
                    (replyOf (writeError StatusBadRequest
                                "invalid JSON payload"), p)
                | BodyValue payload =>
                    match user.Update now id payload p with
                    | (Err err, p) =>
                        if errorsIs err ErrUserNotFound
                        then (replyOf (writeError StatusNotFound
                                         (Error err)), p)
                        else if errorsIs err ErrEmailExists
                        then (replyOf (writeError StatusConflict
                                         (Error err)), p)
                        else if errorsIs err ErrInvalidRole
                        then (replyOf (writeError StatusBadRequest
                                         (Error err)), p)
                        else (replyOf (writeError StatusBadRequest
                                         (Error err)), p)
                    | (Ok user, p) =>
                        (replyOf (writeJSON StatusOK (userValue user)), p)
                    end
                end
            end
          else if isMethod (base r) ["DELETE"] then
            match requireAdmin (base r) with
            | Some denied => (replyOf denied, p)
            | None =>
                match user.Delete id p with
                | (Err err, p) =>
                    if errorsIs err ErrUserNotFound
                    then (replyOf (writeError StatusNotFound (Error err)), p)
                    else (replyOf (writeError StatusBadRequest (Error err)), p)
                | (Ok _, p) => (mkReply StatusNoContent None noContent, p)
                end
            end
          else
            (replyOf (writeMethodNotAllowed
                        ["GET"; "PUT"; "PATCH"; "DELETE"]), p)
      end.

End AdminRoutes.

End httpserver.

(** ** [sanitizeUser] on pointers *)

Module mem.

(** A [*domain.User] is [None] for [nil] or the address of a [User] in the
    heap.  [copy := *u] is a new variable; it escapes through [&copy], so
    it is a new heap cell.  Reading through an address that is not allocated
    does not happen in Go: the model stops with [None]. *)
Definition sanitizeUser (u : option positive) (h : gmap positive User)
  : option (option positive * gmap positive User) :=
  match u with
  | None => Some (None, h)
  | Some l =>
      match h !! l with
      | None => None
      | Some v =>
          let copy := fresh (dom h) in
          let h := <[copy := v]> h in
          let h :=
            alter (fun c => mkUser (ID c) (Email c) (Name c) (Role c) ""
                                   (CreatedAt c) (UpdatedAt c)) copy h in
          Some (Some copy, h)
      end
  end.

End mem.

(** ** An implementation of the two library interfaces, to run the services *)

Module sample.
Import jwt.

Fixpoint endsWith (suffix s : string) : bool :=
  bool_decide (s = suffix) ||
  match s with
  | EmptyString => false
  | String _ r => endsWith suffix r
  end.

(** A digest is the salt followed by the password; passwords longer than
    72 bytes are refused, as bcrypt refuses them. *)
#[export] Instance hasher : bcrypt.Hasher.
Proof.
  refine {|
    bcrypt.GenerateFromPassword salt password :=
      if (72 <? String.length password)%nat
      then Err (errorsNew "bcrypt: password length exceeds 72 bytes")
      else Ok (salt ++ password);
    bcrypt.CompareHashAndPassword hashed password := endsWith password hashed
  |}.
  intros salt password hashed.
  destruct (72 <? String.length password)%nat; [discriminate|].
  intros [= <-]. induction salt as [|c salt IH].
  - change ("" ++ password) with password.
    destruct password; cbn [endsWith]; rewrite bool_decide_eq_true_2; auto.
  - change (String c salt ++ password) with (String c (salt ++ password)).
    cbn [endsWith]. rewrite IH. apply orb_true_r.
Defined.

#[export] Instance Claims_eq_dec : EqDecision Claims.
Proof. solve_decision. Defined.

#[export] Instance Token_eq_dec : EqDecision Token.
Proof. solve_decision. Defined.

(** The fields of a token, flat: its strings and its dates. *)
Definition fields (t : Token) : list string * list (option Z) :=
  let c := claims t in
  (alg t :: signature t :: UserID c :: Issuer c :: Subject c :: JwtID c
     :: Audience c,
   [ExpiresAt c; NotBefore c; IssuedAt c]).

Definition ofFields (f : list string * list (option Z)) : option Token :=
  match f with
  | (a :: s :: uid :: iss :: sub :: jti :: aud, [exp; nbf; iat]) =>
      Some (mkToken a (mkClaims uid iss sub aud exp nbf iat jti) s)
  | _ => None
  end.

#[export] Instance Token_countable : Countable Token.
Proof.
  refine (inj_countable fields ofFields _).
  intros [a [] s]; reflexivity.
Defined.

(** A token is serialized as the binary numeral of its code; the keyed
    hash is a tagged concatenation. *)
#[export] Instance library : Library.
Proof.
  refine {|
    encode t := BinaryString.of_pos (countable.encode t);
    decode s := countable.decode (BinaryString.to_pos s);
    decodeError _ :=
      "token is malformed: token contains an invalid number of segments";
    hmac name key alg c := name ++ "." ++ key ++ "." ++ alg ++ "." ++ UserID c
  |}.
  intros t. rewrite BinaryString.to_pos_of_pos. apply countable.decode_encode.
Defined.

(** Sample data: a manager with a lifetime of twelve hours, an account as
    [Register] stores it, and the instants of three calls. *)
Definition hour : Z := 3600 * jwt.second.

Definition tokens : token.JWTManager :=
  token.NewJWTManager "signing-secret" (12 * hour) "backoffice".

Definition t0 : Z := 1700000000 * jwt.second.
Definition t1 : Z := t0 + 250000000.
Definition t2 : Z := t1 + hour.

Definition ann : User :=
  {| ID := "id-1";
     Email := "a@example.com";
     Name := "Ann";
     Role := "";
     PasswordHash := "saltsecret1";
     CreatedAt := t0;
     UpdatedAt := t0 |}.

Definition root : User :=
  {| ID := "id-0";
     Email := "root@example.com";
     Name := "Root";
     Role := domain.RoleAdmin;
     PasswordHash := "salttoor";
     CreatedAt := t0;
     UpdatedAt := t0 |}.

(** The token [Login] issues for [ann] at [t1]. *)
Definition annToken : string :=
  match token.Generate tokens t1 "id-1" with
  | Ok tok => tok
  | Err _ => ""
  end.

End sample.

(** ** Package [internal/httpserver]: the CORS middleware *)

Module cors.
Import strings.

Fixpoint isOriginAllowed (origin : string) (allowed : list string) : bool :=
  match allowed with
  | [] => false
  | candidate :: rest =>
      if bool_decide (candidate = "*") then true
      else if EqualFold candidate origin then true
      else isOriginAllowed origin rest
  end.

(** What the middleware has done with a request: written a status itself,
    or served it through the next handler.  Either way [headers] are the
    response headers it has set. *)
Inductive Outcome (A : Type) : Type :=
| wrote (status : Z) (headers : gmap string string)
| served (a : A).
Arguments wrote {A} status headers.
Arguments served {A} a.

(** [withCORS].  [origin] is the [Origin] header of the request (empty when
    absent), [headers] the response headers so far; the next handler is
    given the headers as the middleware leaves them. *)
Definition withCORS {A : Type} (next : gmap string string -> A)
    (allowedOrigins : list string) (origin method : string)
    (headers : gmap string string) : Outcome A :=
  let headers :=
    if negb (isEmpty origin) && isOriginAllowed origin allowedOrigins then
      <["Vary" := "Origin"]>
        (<["Access-Control-Allow-Origin" := origin]> headers)
    else if bool_decide (allowedOrigins = ["*"]) then
      <["Access-Control-Allow-Origin" := "*"]> headers
    else headers in
  let headers :=
    <["Access-Control-Allow-Methods" := "GET,POST,PUT,PATCH,DELETE,OPTIONS"]>
      headers in
  let headers :=
    <["Access-Control-Allow-Headers" := "Content-Type, Authorization"]>
      headers in
  if bool_decide (method = "OPTIONS") then wrote 204 headers
  else served (next headers).

End cors.

(** ** Package [internal/config] *)

Module config.
Import strings.

Record Config : Type := mkConfig {
  HTTPPort : string;
  DatabaseURL : string;
  JWTSecret : string;
  JWTIssuer : string;
  JWTExpiry : Z;
  AllowedOrigins : list string;
  ReadTimeoutSec : Z;
  WriteTimeoutSec : Z;
  IdleTimeoutSec : Z
}.

(** The environment of the process: [os.LookupEnv key] is [env !! key],
    [os.Getenv key] is the value or the empty string. *)
Definition Getenv (env : gmap string string) (key : string) : string :=
  default "" (env !! key).

Definition getEnv (env : gmap string string) (key fallback : string) : string :=
  match env !! key with
  | Some val => if negb (isEmpty val) then val else fallback
  | None => fallback
  end.

Definition splitCSV (value : string) : list string :=
  let parts :=
    fold_left
      (fun parts part =>
         let trimmed := TrimSpace part in
         if negb (isEmpty trimmed) then (parts ++ [trimmed])%list else parts)
      (Split value ","%char) [] in
  match parts with
  | [] => ["*"]
  | _ :: _ => parts
  end.

Definition normalisePostgresScheme (url : string) : string :=
  if HasPrefix url "postgresql://"
  then "postgres://" ++ TrimPrefix url "postgresql://"
  else url.

Definition coerceDatabaseURL (raw : string) : string :=
  let raw := TrimSpace raw in
  if isEmpty raw then ""
  else if HasPrefix raw "postgres://" || HasPrefix raw "postgresql://"
  then normalisePostgresScheme raw
  else "".

Fixpoint firstNonEmpty (values : list string) : string :=
  match values with
  | [] => ""
  | v :: rest => if negb (isEmpty v) then v else firstNonEmpty rest
  end.

(** [os.Setenv]: refused for an empty key, a key with [=] or a NUL byte in
    it, and a value with a NUL byte in it. *)
Definition hasByte (c : ascii) (s : string) : bool :=
  existsb (Ascii.eqb c) (list_ascii_of_string s).

Definition Setenv (key value : string) (env : gmap string string)
  : option (gmap string string) :=
  if isEmpty key || hasByte "="%char key || hasByte "000"%char key
     || hasByte "000"%char value
  then None
  else Some (<[key := value]> env).

(** The last byte of a string that is not empty. *)
Fixpoint lastByte (c : ascii) (s : string) : ascii :=
  match s with
  | EmptyString => c
  | String c' r => lastByte c' r
  end.

(** [s[:len(s)-1]] *)
Fixpoint dropLast (s : string) : string :=
  match s with
  | EmptyString => EmptyString
  | String c EmptyString => EmptyString
  | String c r => String c (dropLast r)
  end.

(** The quotes around a value, double or single, are taken off. *)
Definition unquote (value : string) : string :=
  match value with
  | String first (String c r) =>
      let last := lastByte c r in
      if (Ascii.eqb first "034"%char && Ascii.eqb last "034"%char)
         || (Ascii.eqb first "'"%char && Ascii.eqb last "'"%char)
      then dropLast (String c r)
      else value
  | _ => value
  end.

(** What opening and scanning the file gives: no such file, another error
    of [os.Open], or the lines and the error of the scanner, if any. *)
Inductive DotEnv : Type :=
| NotExist
| OpenError (msg : string)
| Lines (lines : list string) (scanErr : option string).

(** The body of the loop of [loadDotEnv], for the line of number
    [lineNum]: an error, or the environment after the line. *)
Definition loadLine (lineNum : nat) (text : string) (env : gmap string string)
  : error + gmap string string :=
  let line := TrimSpace text in
  if isEmpty line || HasPrefix line "#" then inr env
  else
    let line :=
      if HasPrefix line "export "
      then TrimSpace (TrimPrefix line "export ")
      else line in
    let '(key, value, ok) := Cut line "="%char in
    if negb ok
    then inl (errorsNew (".env line " ++ pretty lineNum ++ ": missing '='"))
    else
      let key := TrimSpace key in
      let value := TrimSpace value in
      if isEmpty key
      then inl (errorsNew (".env line " ++ pretty lineNum ++ ": empty key"))
      else
        match Setenv key (unquote value) env with
        | None =>
            inl (errorsNew (".env line " ++ pretty lineNum
                            ++ ": setenv: invalid argument"))
        | Some env => inr env
        end.

Fixpoint loadLines (lineNum : nat) (lines : list string)
    (env : gmap string string) : option error * gmap string string :=
  match lines with
  | [] => (None, env)
  | text :: rest =>
      match loadLine (S lineNum) text env with
      | inl err => (Some err, env)
      | inr env => loadLines (S lineNum) rest env
      end
  end.

Definition loadDotEnv (file : DotEnv) (env : gmap string string)
  : option error * gmap string string :=
  match file with
  | NotExist => (None, env)
  | OpenError msg => (Some (errorsNew msg), env)
  | Lines lines scanErr =>
      match loadLines 0 lines env with
      | (Some err, env) => (Some err, env)
      | (None, env) =>
          match scanErr with
          | Some msg => (Some (errorsNew msg), env)
          | None => (None, env)
          end
      end
  end.

Section Load.

(** The library functions [Load] relies on: [time.ParseDuration],
    [strconv.Atoi], [os.ReadFile] ([None] for an error), and the string of
    the [url.URL] that [resolveDatabaseURL] assembles from host, port, user,
    password (empty for none), database and [sslmode]. *)
Variable ParseDuration : string -> option Z.
Variable Atoi : string -> option Z.
Variable ReadFile : string -> option string.
Variable dsnString : string -> string -> string -> string -> string -> string
                     -> string.

Definition getDurationEnv (env : gmap string string) (key : string)
    (fallback : Z) : Z :=
  match env !! key with
  | Some val =>
      if negb (isEmpty val) then
        match ParseDuration val with
        | Some d => d
        | None => fallback
        end
      else fallback
  | None => fallback
  end.

Definition getIntEnv (env : gmap string string) (key : string) (fallback : Z)
  : Z :=
  match env !! key with
  | Some val =>
      if negb (isEmpty val) then
        match Atoi val with
        | Some n => n
        | None => fallback
        end
      else fallback
  | None => fallback
  end.

Definition readEnvFile (env : gmap string string) (key : string) : string :=
  let path := Getenv env key in
  if isEmpty path then ""
  else
    match ReadFile path with
    | None => ""
    | Some data => TrimSpace data
    end.

(** The two loops of [resolveDatabaseURL]: the first value, of the keys in
    order, that [coerceDatabaseURL] accepts. *)
Fixpoint firstCoerced (values : list string) : option string :=
  match values with
  | [] => None
  | url :: rest =>
      if negb (isEmpty url) then
        let coerced := coerceDatabaseURL url in
        if negb (isEmpty coerced) then Some coerced else firstCoerced rest
      else firstCoerced rest
  end.

Definition urlKeys : list string :=
  ["DATABASE_URL"; "DATABASE_PUBLIC_URL"; "DATABASE_INTERNAL_URL";
   "DATABASE_EXTERNAL_URL"; "DATABASE_URL_NO_SSL"; "DATABASE_DIRECT_URL";
   "POSTGRES_URL"; "PGURL"; "RAILWAY_DATABASE_URL"; "RAILWAY_PUBLIC_URL"].

Definition resolveDatabaseURL (env : gmap string string) : string :=
  match firstCoerced (map (Getenv env) urlKeys) with
  | Some coerced => coerced
  | None =>
      match firstCoerced
              (map (readEnvFile env) ["DATABASE_URL_FILE"; "PGURL_FILE"])
      with
      | Some coerced => coerced
      | None =>
          let host :=
            firstNonEmpty
              (map (Getenv env)
                 ["PGHOST"; "POSTGRES_HOST"; "POSTGRESQL_ADDON_HOST";
                  "DATABASE_HOST"; "RAILWAY_TCP_PROXY_DOMAIN";
                  "RAILWAY_PRIVATE_DOMAIN"]) in
          let user :=
            firstNonEmpty
              (map (Getenv env)
                 ["PGUSER"; "POSTGRES_USER"; "POSTGRESQL_ADDON_USER";
                  "DATABASE_USERNAME"; "DATABASE_USER"]) in
          let user :=
            if isEmpty user then
              if negb (isEmpty (Getenv env "DATABASE_USER"))
              then Getenv env "DATABASE_USER" else user
            else user in
          let password :=
            firstNonEmpty
              (map (Getenv env)
                 ["PGPASSWORD"; "POSTGRES_PASSWORD";
                  "POSTGRESQL_ADDON_PASSWORD"; "DATABASE_PASSWORD"]) in
          let password :=
            if isEmpty password then Getenv env "DATABASE_PASSWORD"
            else password in
          let database :=
            firstNonEmpty
              (map (Getenv env)
                 ["PGDATABASE"; "POSTGRES_DB"; "POSTGRES_DATABASE";
                  "POSTGRESQL_ADDON_DB"; "DATABASE_NAME"]) in
          let port :=
            firstNonEmpty
              (map (Getenv env)
                 ["PGPORT"; "POSTGRES_PORT"; "POSTGRESQL_ADDON_PORT";
                  "DATABASE_PORT"; "RAILWAY_TCP_PROXY_PORT"]) in
          let port := if isEmpty port then "5432" else port in
          let sslMode :=
            firstNonEmpty
              (map (Getenv env)
                 ["PGSSLMODE"; "PGSSL_MODE"; "PGSSL"; "POSTGRES_SSL_MODE"]
               ++ ["require"])%list in
          let database :=
            if isEmpty database then firstNonEmpty [user; "postgres"]
            else database in
          if isEmpty host then ""
          else if isEmpty user then ""
          else
            normalisePostgresScheme
              (dsnString host port user password database sslMode)
      end
  end.

Definition hour : Z := 3600 * 1000000000.

(** [Load]: the configuration or the error, and the environment as the
    [.env] file has left it. *)
Definition Load (file : DotEnv) (env : gmap string string)
  : result Config * gmap string string :=
  match loadDotEnv file env with
  | (Some err, env) =>
      (Err (errorsNew ("loading .env: " ++ httpserver.Error err)), env)
  | (None, env) =>
      let httpPort := getEnv env "HTTP_PORT" "" in
      let httpPort :=
        if isEmpty httpPort then getEnv env "PORT" "8080" else httpPort in
      let cfg :=
        {| HTTPPort := httpPort;
           DatabaseURL := resolveDatabaseURL env;
           JWTSecret := getEnv env "JWT_SECRET" "";
           JWTIssuer := getEnv env "JWT_ISSUER" "backoffice";
           JWTExpiry := getDurationEnv env "JWT_EXPIRY" (12 * hour);
           AllowedOrigins := splitCSV (getEnv env "CORS_ALLOWED_ORIGINS" "*");
           ReadTimeoutSec := getIntEnv env "HTTP_READ_TIMEOUT" 15;
           WriteTimeoutSec := getIntEnv env "HTTP_WRITE_TIMEOUT" 15;
           IdleTimeoutSec := getIntEnv env "HTTP_IDLE_TIMEOUT" 60 |} in
      if isEmpty (DatabaseURL cfg)
      then (Err (errorsNew "database configuration missing: provide DATABASE_URL or PG* env vars"), env)
      else if isEmpty (JWTSecret cfg)
      then (Err (errorsNew "JWT_SECRET is required"), env)
      else (Ok cfg, env)
  end.

End Load.

End config.

(** * Properties *)

Import strings postgres.

(** ** The repository on a quiet store *)

Lemma begin_quiet (p : Pool) : script p = [] -> begin p = (None, p).
Proof. unfold begin. intros ->. reflexivity. Qed.

Lemma QueryRow_quiet (sel : User -> bool) (p : Pool) :
  script p = [] ->
  QueryRow sel p =
    (match find sel (users p) with
     | Some r => PgOk r
     | None => PgErr ErrNoRows
     end, p).
Proof.
  intros Hq. unfold QueryRow. rewrite (begin_quiet p Hq).
  destruct (find sel (users p)); reflexivity.
Qed.

Lemma find_absent (sel : User -> bool) (t : list User) :
  (forall r, In r t -> sel r = false) -> find sel t = None.
Proof.
  induction t as [|r t IH]; intros Hall; [reflexivity|]. simpl.
  rewrite (Hall r (or_introl eq_refl)). apply IH.
  intros r' Hin. apply Hall. right. exact Hin.
Qed.

Lemma find_appended (sel : User -> bool) (t : list User) (u : User) :
  (forall r, In r t -> sel r = false) -> sel u = true ->
  find sel (t ++ [u]) = Some u.
Proof.
  induction t as [|r t IH]; intros Hall Hu; simpl.
  - rewrite Hu. reflexivity.
  - rewrite (Hall r (or_introl eq_refl)). apply IH; [|exact Hu].
    intros r' Hin. apply Hall. right. exact Hin.
Qed.

Lemma existsb_absent (sel : User -> bool) (t : list User) :
  (forall r, In r t -> sel r = false) -> existsb sel t = false.
Proof.
  induction t as [|r t IH]; intros Hall; [reflexivity|]. simpl.
  rewrite (Hall r (or_introl eq_refl)). apply IH.
  intros r' Hin. apply Hall. right. exact Hin.
Qed.

Lemma sameID_false (id : string) (r : User) : ID r <> id -> sameID id r = false.
Proof. intros Hne. unfold sameID. apply bool_decide_eq_false_2. exact Hne. Qed.

Lemma sameEmail_false (email : string) (r : User) :
  Email r <> email -> sameEmail email r = false.
Proof. intros Hne. unfold sameEmail. apply bool_decide_eq_false_2. exact Hne. Qed.


Lemma GetByID_missing (id : string) (p : Pool) :
  script p = [] -> (forall r, In r (users p) -> ID r <> id) ->
  GetByID id p = (Err ErrUserNotFound, p).
Proof.
  intros Hq Hno. unfold GetByID. rewrite (QueryRow_quiet _ p Hq).
  rewrite find_absent; [reflexivity|].
  intros r Hin. apply sameID_false. apply Hno. exact Hin.
Qed.


Lemma isEmpty_false (s : string) : s <> "" -> isEmpty s = false.
Proof. destruct s; [intros Hne; contradiction Hne; reflexivity|reflexivity]. Qed.

Lemma isEmpty_true (s : string) : isEmpty s = true <-> s = "".
Proof. destruct s; simpl; split; intros Heq; try reflexivity; discriminate. Qed.

(** ** Trimming and lower-casing *)

Lemma asciiSpace_lowerByte (c : ascii) :
  asciiSpace (lowerByte c) = asciiSpace c.
Proof. destruct c as [[] [] [] [] [] [] [] []]; reflexivity. Qed.

Lemma isEmpty_ToLower (s : string) : isEmpty (ToLower s) = isEmpty s.
Proof. destruct s; reflexivity. Qed.

Lemma TrimLeftSpace_ToLower (s : string) :
  TrimLeftSpace (ToLower s) = ToLower (TrimLeftSpace s).
Proof.
  induction s as [|c s IH]; [reflexivity|]. cbn [ToLower TrimLeftSpace].
  rewrite asciiSpace_lowerByte. destruct (asciiSpace c); [exact IH|reflexivity].
Qed.

Lemma TrimRightSpace_ToLower (s : string) :
  TrimRightSpace (ToLower s) = ToLower (TrimRightSpace s).
Proof.
  induction s as [|c s IH]; [reflexivity|]. cbn [ToLower TrimRightSpace].
  rewrite IH, asciiSpace_lowerByte, isEmpty_ToLower.
  destruct (asciiSpace c && isEmpty (TrimRightSpace s)); reflexivity.
Qed.

Lemma TrimSpace_ToLower (s : string) :
  TrimSpace (ToLower s) = ToLower (TrimSpace s).
Proof.
  unfold TrimSpace. rewrite TrimLeftSpace_ToLower. apply TrimRightSpace_ToLower.
Qed.

Lemma TrimLeftSpace_leading (s : string) :
  leadingSpace (TrimLeftSpace s) = false.
Proof.
  induction s as [|c s IH]; [reflexivity|]. cbn [TrimLeftSpace].
  destruct (asciiSpace c) eqn:Hc; [exact IH|exact Hc].
Qed.

Lemma TrimLeftSpace_fixed (s : string) :
  leadingSpace s = false -> TrimLeftSpace s = s.
Proof. destruct s as [|c s]; [reflexivity|]. simpl. intros ->. reflexivity. Qed.

Lemma TrimRightSpace_leading (s : string) :
  leadingSpace s = false -> leadingSpace (TrimRightSpace s) = false.
Proof.
  destruct s as [|c s]; [reflexivity|]. cbn [leadingSpace TrimRightSpace].
  intros Hc. rewrite Hc. exact Hc.
Qed.

Lemma TrimRightSpace_idempotent (s : string) :
  TrimRightSpace (TrimRightSpace s) = TrimRightSpace s.
Proof.
  induction s as [|c s IH]; [reflexivity|]. cbn [TrimRightSpace].
  destruct (asciiSpace c && isEmpty (TrimRightSpace s)) eqn:Hdrop;
    [reflexivity|].
  cbn [TrimRightSpace]. rewrite IH, Hdrop. reflexivity.
Qed.

Lemma TrimSpace_idempotent (s : string) : TrimSpace (TrimSpace s) = TrimSpace s.
Proof.
  unfold TrimSpace.
  rewrite (TrimLeftSpace_fixed (TrimRightSpace (TrimLeftSpace s))).
  - apply TrimRightSpace_idempotent.
  - apply TrimRightSpace_leading, TrimLeftSpace_leading.
Qed.

(** [ensureRole] normalizes a trimmed role as the handlers do. *)
Lemma ensureRole_trimmed (role : string) :
  TrimSpace (ToLower (TrimSpace role)) = ToLower (TrimSpace role).
Proof. rewrite TrimSpace_ToLower, TrimSpace_idempotent. reflexivity. Qed.

(** ** The token codec *)

Section Codec.
Context `{jwt.Library}.
Variable tokens : token.JWTManager.

Lemma HS256_registered :
  jwt.GetSigningMethod "HS256" = Some (jwt.SigningMethodHMAC "HS256").
Proof. reflexivity. Qed.



End Codec.

(** ** Register, Login, VerifyToken *)

Section Authentication.
Context `{bcrypt.Hasher} `{jwt.Library}.
Variable tokens : token.JWTManager.


End Authentication.

Section Verification.
Context `{jwt.Library}.
Variable tokens : token.JWTManager.

Lemma ExecDelete_removed (id : string) (p0 p : Pool) (n : nat) :
  ExecDelete id p0 = (PgOk n, p) ->
  forall r, In r (users p) -> ID r <> id.
Proof.
  unfold ExecDelete. destruct (begin p0) as [[msg|] p']; [discriminate|].
  intros [= _ <-] r Hin. cbn [users] in Hin.
  apply filter_In in Hin as [_ Hne]. unfold sameID in Hne.
  apply negb_true_iff, bool_decide_eq_false in Hne. exact Hne.
Qed.

Lemma Delete_removed (accountID : string) (p0 p : Pool) :
  user.Delete accountID p0 = (Ok tt, p) ->
  forall r, In r (users p) -> ID r <> TrimSpace accountID.
Proof.
  unfold user.Delete, Delete.
  destruct (isEmpty (TrimSpace accountID)); [discriminate|].
  destruct (ExecDelete (TrimSpace accountID) p0) as [[n|err] p'] eqn:Hexec.
  - destruct n; intros [= <-]. exact (ExecDelete_removed _ _ _ _ Hexec).
  - discriminate.
Qed.

(** C2.  [VerifyToken] answers [ErrTokenInvalid] when the codec rejects the
    token, and when the codec accepts it but no account of the store has
    its subject as identifier; in particular once [Delete] has removed the
    account, for any token of that account, expired or not. *)
Theorem verify_token_invalid (now : Z) (tok : string) (p : Pool) :
  (exists e, token.Validate tokens now tok = Err e) \/
  (exists id, token.Validate tokens now tok = Ok id /\
     script p = [] /\ forall r, In r (users p) -> ID r <> id) \/
  (exists accountID p0,
     token.Validate tokens now tok = Ok (TrimSpace accountID) /\
     user.Delete accountID p0 = (Ok tt, p) /\ script p = []) ->
  auth.VerifyToken tokens now tok p = (Err ErrTokenInvalid, p).
Proof.
  assert (Hgone : forall id, token.Validate tokens now tok = Ok id ->
            script p = [] -> (forall r, In r (users p) -> ID r <> id) ->
            auth.VerifyToken tokens now tok p = (Err ErrTokenInvalid, p)).
  { intros id Hid Hq Hno. unfold auth.VerifyToken. rewrite Hid.
    rewrite (GetByID_missing id p Hq Hno). reflexivity. }
  intros [[e He] | [(id & Hid & Hq & Hno) | (accountID & p0 & Hid & Hdel & Hq)]].
  - unfold auth.VerifyToken. rewrite He. reflexivity.
  - exact (Hgone id Hid Hq Hno).
  - apply (Hgone _ Hid Hq). exact (Delete_removed _ _ _ Hdel).
Qed.

(** C5.  [Validate] returns an error for a string the library cannot
    decode, for a token whose [alg] is not one of the HMAC methods, for a
    token whose signature is not the MAC of its content under the secret of
    the manager, and for a token whose [exp] the clock has reached, whatever
    its signature. *)
Theorem validate_rejects (now : Z) (tok : string) :
  jwt.decode tok = None \/
  (exists t, jwt.decode tok = Some t /\
     (~ In (jwt.alg t) ["HS256"; "HS384"; "HS512"] \/
      jwt.signature t
        <> jwt.hmac (jwt.alg t) (token.secret tokens) (jwt.alg t) (jwt.claims t) \/
      exists exp, jwt.ExpiresAt (jwt.claims t) = Some exp /\ exp <= now)) ->
  exists err, token.Validate tokens now tok = Err err.
Proof.
  unfold token.Validate, jwt.ParseWithClaims.
  intros [-> | (t & -> & Hbad)]; [eexists; reflexivity|].
  destruct (jwt.GetSigningMethod (jwt.alg t)) as [m|] eqn:Hm;
    [|eexists; reflexivity].
  assert (Hname : forall name, m = jwt.SigningMethodHMAC name ->
            name = jwt.alg t /\ In (jwt.alg t) ["HS256"; "HS384"; "HS512"]).
  { intros name ->. unfold jwt.GetSigningMethod in Hm.
    destruct (bool_decide (jwt.alg t ∈ ["HS256"; "HS384"; "HS512"])) eqn:Hin.
    - injection Hm as <-. split; [reflexivity|].
      apply bool_decide_eq_true in Hin. apply list_elem_of_In. exact Hin.
    - repeat (destruct (bool_decide _) in Hm; [discriminate|]). discriminate. }
  destruct m as [name|name|name|name| |]; try (eexists; reflexivity).
  destruct (Hname name eq_refl) as [-> Hhmac].
  unfold jwt.Verify.
  destruct (bool_decide (jwt.signature t = _)) eqn:Hsig; [|eexists; reflexivity].
  apply bool_decide_eq_true in Hsig.
  destruct Hbad as [Halg | [Hforged | (exp & Hexp & Hpast)]].
  - contradiction.
  - contradiction.
  - unfold jwt.validate, jwt.expired. rewrite Hexp.
    assert (Hnot : (now <? exp) = false) by (apply Z.ltb_ge; exact Hpast).
    rewrite Hnot. cbn [negb].
    destruct (jwt.notValidYet now (jwt.claims t)); eexists; reflexivity.
Qed.

End Verification.

Section Credentials.
Context `{bcrypt.Hasher} `{jwt.Library}.
Variable tokens : token.JWTManager.

Lemma GetByEmail_found (email : string) (p : Pool) (user : User) :
  script p = [] -> find (sameEmail email) (users p) = Some user ->
  GetByEmail email p = (Ok user, p).
Proof.
  intros Hq Hfind. unfold GetByEmail. rewrite (QueryRow_quiet _ p Hq).
  rewrite Hfind. reflexivity.
Qed.



End Credentials.

(** ** Sanitization *)

Lemma sanitizeUsers_map (items : list User) :
  user.sanitizeUsers items = map user.sanitizeUser items.
Proof.
  unfold user.sanitizeUsers.
  assert (Hgen : forall acc,
            fold_left (fun out item => (out ++ [user.sanitizeUser item])%list)
                      items acc
            = (acc ++ map user.sanitizeUser items)%list).
  { induction items as [|item items IH]; intros acc; simpl.
    - rewrite app_nil_r. reflexivity.
    - rewrite IH, <- app_assoc. reflexivity. }
  exact (Hgen []).
Qed.

Ltac returned H :=
  repeat (case_match; try discriminate);
  cbn [fst] in H; simplify_eq; try reflexivity.

Section Sanitized.
Context `{bcrypt.Hasher} `{jwt.Library}.
Variable tokens : token.JWTManager.

(** C7.  The account every operation returns has an empty password hash:
    [Register], [Login] and [VerifyToken] of the authentication service,
    [List] (each account of the list), [Get], [Create] and [Update] of the
    administration service. *)
Theorem outward_accounts_sanitized :
  (forall now uuid salt email password name p u,
     fst (auth.Register now uuid salt email password name p) = Ok u ->
     PasswordHash u = "") /\
  (forall now creds p tok u,
     fst (auth.Login tokens now creds p) = Ok (tok, u) ->
     PasswordHash u = "") /\
  (forall now tok p u,
     fst (auth.VerifyToken tokens now tok p) = Ok u -> PasswordHash u = "") /\
  (forall filter p us,
     fst (user.List filter p) = Ok us ->
     Forall (fun u => PasswordHash u = "") us) /\
  (forall id p u, fst (user.Get id p) = Ok u -> PasswordHash u = "") /\
  (forall now uuid salt input p u,
     fst (user.Create now uuid salt input p) = Ok u -> PasswordHash u = "") /\
  (forall now id input p u,
     fst (user.Update now id input p) = Ok u -> PasswordHash u = "").
Proof.
  repeat split.
  - intros now uuid salt email password name p u Hret.
    unfold auth.Register in Hret. returned Hret.
  - intros now creds p tok u Hret.
    unfold auth.Login in Hret. returned Hret.
  - intros now tok p u Hret.
    unfold auth.VerifyToken in Hret. returned Hret.
  - intros filter p us Hret.
    unfold user.List in Hret. returned Hret;
      rewrite sanitizeUsers_map; apply Forall_map, Forall_forall;
      intros u _; reflexivity.
  - intros id p u Hret. unfold user.Get in Hret. returned Hret.
  - intros now uuid salt input p u Hret.
    unfold user.Create in Hret. returned Hret.
  - intros now id input p u Hret.
    unfold user.Update in Hret. returned Hret.
Qed.

End Sanitized.

(** ** The authorization gate *)

Import httpserver.

Lemma prefix_length (p s : string) :
  String.prefix p s = true -> (String.length p <= String.length s)%nat.
Proof.
  revert s. induction p as [|a p IH]; intros [|b s] Hp; simpl in *; try lia.
  destruct (ascii_dec a b); [|discriminate Hp]. apply IH in Hp. lia.
Qed.

Lemma ToLower_length (s : string) :
  String.length (ToLower s) = String.length s.
Proof. induction s as [|c s IH]; simpl; [reflexivity|rewrite IH; reflexivity]. Qed.

(** The slice [header[7:]] of [extractBearerToken] is in range. *)
Lemma bearer_in_range (header : string) :
  HasPrefix (ToLower header) "bearer " = true ->
  (7 <= String.length header)%nat.
Proof.
  unfold HasPrefix. intros Hp. apply prefix_length in Hp.
  rewrite ToLower_length in Hp. exact Hp.
Qed.

(** C8.  When the [Authorization] header is absent, or does not start with
    [Bearer ] in any letter case, or has only spaces after that prefix, the
    middleware answers 401 and leaves the pool as it is, whatever
    [VerifyToken] and the next handler are: neither is called. *)
Theorem middleware_rejects_without_bearer
    (VerifyToken : string -> Pool -> result User * Pool) (next : Handler)
    (r : Request) (p : Pool) :
  Authorization r = "" \/
  HasPrefix (ToLower (Authorization r)) "bearer " = false \/
  TrimSpace (sliceFrom 7 (Authorization r)) = "" ->
  authMiddleware VerifyToken next r p
    = (writeError StatusUnauthorized "authorization token required", p).
Proof.
  intros Hcases. unfold authMiddleware.
  assert (Hnone : extractBearerToken (Authorization r) = "").
  { unfold extractBearerToken.
    destruct (isEmpty (Authorization r)) eqn:Hempty; [reflexivity|].
    destruct (HasPrefix (ToLower (Authorization r)) "bearer ") eqn:Hpre;
      cbn [negb]; [|reflexivity].
    destruct Hcases as [Habsent | [Hother | Hblank]].
    - rewrite Habsent in Hempty. discriminate Hempty.
    - congruence.
    - exact Hblank. }
  rewrite Hnone. reflexivity.
Qed.

(** ** Sanitization leaves the stored account alone *)

Lemma begin_frame (p : Pool) :
  undisturbed (script p) -> users (snd (begin p)) = users p.
Proof.
  unfold begin, undisturbed. intros Hund.
  destruct (script p) as [|[msg|t] s]; try reflexivity.
  exfalso. apply (Hund t). left. reflexivity.
Qed.

Lemma QueryRow_frame (sel : User -> bool) (p : Pool) :
  undisturbed (script p) -> users (snd (QueryRow sel p)) = users p.
Proof.
  intros Hund. unfold QueryRow. pose proof (begin_frame p Hund) as Hb.
  destruct (begin p) as [[msg|] p']; cbn [snd] in *; [exact Hb|].
  destruct (find sel (users p')); exact Hb.
Qed.

Lemma scanOne_frame (q : pgResult User * Pool) :
  snd (scanOne q) = snd q.
Proof. destruct q as [[r|[| |msg]] p]; reflexivity. Qed.

Lemma GetByEmail_frame (email : string) (p : Pool) :
  undisturbed (script p) -> users (snd (GetByEmail email p)) = users p.
Proof.
  intros Hund. unfold GetByEmail. rewrite scanOne_frame.
  exact (QueryRow_frame _ p Hund).
Qed.

Lemma GetByID_frame (id : string) (p : Pool) :
  undisturbed (script p) -> users (snd (GetByID id p)) = users p.
Proof.
  intros Hund. unfold GetByID. rewrite scanOne_frame.
  exact (QueryRow_frame _ p Hund).
Qed.

Lemma List_frame (filter : UserFilter) (p : Pool) :
  undisturbed (script p) -> users (snd (postgres.List filter p)) = users p.
Proof.
  intros Hund. unfold postgres.List, Query.
  pose proof (begin_frame p Hund) as Hb.
  destruct (begin p) as [[msg|] p']; cbn [snd] in *; exact Hb.
Qed.

Section Frame.
Context `{bcrypt.Hasher} `{jwt.Library}.
Variable tokens : token.JWTManager.

(** C10.  [sanitizeUser] returns the address of a new record, the copy with
    the password hash cleared, and changes no record of the heap, the one it
    was given included.  [Login], [VerifyToken], [Get] and [List] leave the
    rows of the store as they are (no commit of another request
    intervening), password hashes included. *)
Theorem sanitize_preserves_stored_account :
  (forall (h : gmap positive User) (l : positive) (v : User),
     h !! l = Some v ->
     exists copy,
       mem.sanitizeUser (Some l) h
         = Some (Some copy, <[copy := auth.sanitizeUser v]> h) /\
       h !! copy = None /\ copy <> l /\
       (forall k, k <> copy ->
          (<[copy := auth.sanitizeUser v]> h) !! k = h !! k) /\
       (<[copy := auth.sanitizeUser v]> h) !! l = Some v) /\
  (forall now creds p,
     undisturbed (script p) ->
     users (snd (auth.Login tokens now creds p)) = users p) /\
  (forall now tok p,
     undisturbed (script p) ->
     users (snd (auth.VerifyToken tokens now tok p)) = users p) /\
  (forall id p,
     undisturbed (script p) -> users (snd (user.Get id p)) = users p) /\
  (forall filter p,
     undisturbed (script p) -> users (snd (user.List filter p)) = users p).
Proof.
  split; [|split; [|split; [|split]]].
  - intros h l v Hl. exists (fresh (dom h)).
    assert (Hfresh : h !! fresh (dom h) = None).
    { apply not_elem_of_dom. apply is_fresh. }
    assert (Hne : fresh (dom h) <> l) by (intros Heq; congruence).
    split; [|split; [exact Hfresh|split; [exact Hne|split]]].
    + unfold mem.sanitizeUser. rewrite Hl. rewrite alter_insert_eq. reflexivity.
    + intros k Hk. apply lookup_insert_ne. congruence.
    + rewrite lookup_insert_ne by exact Hne. exact Hl.
  - intros now creds p Hund. unfold auth.Login.
    pose proof (GetByEmail_frame
                  (TrimSpace (ToLower (cred_Email creds))) p Hund) as Hg.
    repeat case_match; cbn [snd] in *; try reflexivity; exact Hg.
  - intros now tok p Hund. unfold auth.VerifyToken.
    destruct (token.Validate tokens now tok) as [id|e]; [|reflexivity].
    pose proof (GetByID_frame id p Hund) as Hg.
    repeat case_match; cbn [snd] in *; exact Hg.
  - intros id p Hund. unfold user.Get.
    pose proof (GetByID_frame (TrimSpace id) p Hund) as Hg.
    repeat case_match; cbn [snd] in *; try reflexivity; exact Hg.
  - intros filter p Hund. unfold user.List.
    destruct (if negb (isEmpty (TrimSpace (ToLower (user.Filter_Role filter))))
              then _ else _) as [domainFilter|err]; [|reflexivity].
    pose proof (List_frame domainFilter p Hund) as Hg.
    repeat case_match; cbn [snd] in *; exact Hg.
Qed.

End Frame.

(** ** Role escalation *)

Lemma unique_email (t : list User) (x y : User) :
  NoDup (map Email t) -> In x t -> In y t -> Email x = Email y -> x = y.
Proof.
  induction t as [|r t IH]; intros Hnd Hx Hy Heq; [contradiction|].
  cbn [map] in Hnd. apply NoDup_cons in Hnd as [Hr Hnd].
  assert (Hmap : forall z, In z t -> Email z ∈ map Email t).
  { intros z Hz. apply list_elem_of_In, in_map. exact Hz. }
  destruct Hx as [<- | Hx], Hy as [<- | Hy].
  - reflexivity.
  - exfalso. apply Hr. rewrite Heq. apply Hmap. exact Hy.
  - exfalso. apply Hr. rewrite <- Heq. apply Hmap. exact Hx.
  - exact (IH Hnd Hx Hy Heq).
Qed.

Lemma find_sameID (t : list User) (id : string) (target : User) :
  In target t -> ID target = id ->
  exists row, find (sameID id) t = Some row /\ In row t /\ ID row = id.
Proof.
  intros Hin Hid.
  destruct (find (sameID id) t) as [row|] eqn:Hfind.
  - exists row. apply find_some in Hfind as [Hrow Hsame].
    unfold sameID in Hsame. apply bool_decide_eq_true in Hsame. auto.
  - exfalso. apply (find_none _ _ Hfind) in Hin. unfold sameID in Hin.
    apply bool_decide_eq_false in Hin. contradiction.
Qed.

Lemma Update_existing (u row : User) (p : Pool) :
  script p = [] -> NoDup (map Email (users p)) -> In row (users p) ->
  ID u = ID row -> Email u = Email row ->
  postgres.Update u p = (Ok tt, mkPool (map (setRow u) (users p)) []).
Proof.
  intros Hq Hnd Hin Hid Hemail. unfold postgres.Update, ExecUpdate.
  rewrite (begin_quiet p Hq).
  assert (Hhit : In row (List.filter (sameID (ID u)) (users p))).
  { apply filter_In. split; [exact Hin|]. unfold sameID.
    apply bool_decide_eq_true_2. symmetry. exact Hid. }
  destruct (List.filter (sameID (ID u)) (users p)) as [|hit hits];
    [contradiction|].
  cbn [length].
  rewrite (existsb_absent
             (fun r => negb (sameID (ID u) r) && sameEmail (Email u) r)).
  - rewrite Hq. reflexivity.
  - intros r Hr. destruct (sameID (ID u) r) eqn:Hsame; [reflexivity|].
    cbn [negb andb]. apply sameEmail_false. intros Heq.
    assert (r = row) as ->.
    { apply (unique_email (users p)); congruence. }
    unfold sameID in Hsame. apply bool_decide_eq_false in Hsame. congruence.
Qed.

Lemma admin_role_checked (role : string) :
  ToLower (TrimSpace role) = RoleAdmin ->
  isEmpty (TrimSpace role) = false /\
  user.ensureRole (TrimSpace role) true = Ok RoleAdmin.
Proof.
  intros Hadmin. split.
  - destruct (TrimSpace role); [discriminate Hadmin|reflexivity].
  - unfold user.ensureRole. rewrite Hadmin. reflexivity.
Qed.

(** C9.  A [PUT] or [PATCH] on [/users/me/role] asking for the role
    [admin], from a principal that is not an admin, is answered 403 and
    runs no statement on the store.  The same payload on
    [/admin/users/{id}/role], from a principal that is an admin and for the
    identifier of an account of the (quiet, consistent) store, is answered
    200 with the account, now an admin in the answer and in the store. *)
Theorem role_escalation_guard
    (now : Z) (method role userID header1 header2 : string)
    (principal admin : User) (p : Pool) :
  method = "PUT" \/ method = "PATCH" ->
  ToLower (TrimSpace role) = RoleAdmin ->
  (Role principal <> RoleAdmin ->
   handleUserRole now
     (mkRequest method header1 (Payload role) (Some principal)) p
   = (writeError StatusForbidden
        "insufficient privileges to assign admin role", p)) /\
  (Role admin = RoleAdmin ->
   script p = [] -> consistent (users p) ->
   (exists row, In row (users p) /\ ID row = ID principal) ->
   TrimSpace userID = ID principal -> ID principal <> "" ->
   exists u p',
     handleAdminUserRole now userID
       (mkRequest method header2 (Payload role) (Some admin)) p
     = (writeJSON StatusOK (userValue u), p') /\
     ID u = ID principal /\ Role u = RoleAdmin /\
     exists row', In row' (users p') /\
       ID row' = ID principal /\ Role row' = RoleAdmin).
Proof.
  intros Hmethod Hadmin.
  destruct (admin_role_checked role Hadmin) as [Hnonempty Hensure].
  assert (Hget : isMethod (mkRequest method header1 (Payload role)
                             (Some principal)) ["GET"] = false
                 /\ isMethod (mkRequest method header2 (Payload role)
                                (Some admin)) ["GET"] = false).
  { destruct Hmethod as [-> | ->]; split; reflexivity. }
  assert (Hput : isMethod (mkRequest method header1 (Payload role)
                             (Some principal)) ["PUT"; "PATCH"] = true
                 /\ isMethod (mkRequest method header2 (Payload role)
                                (Some admin)) ["PUT"; "PATCH"] = true).
  { destruct Hmethod as [-> | ->]; split; reflexivity. }
  destruct Hget as [Hget1 Hget2], Hput as [Hput1 Hput2].
  split.
  - intros Hnot. unfold handleUserRole.
    cbn [currentUserFromContext ctxUser]. rewrite Hget1, Hput1.
    cbn [Body]. rewrite Hnonempty, Hadmin.
    rewrite bool_decide_eq_true_2 by reflexivity.
    rewrite bool_decide_eq_false_2 by exact Hnot. reflexivity.
  - intros Hrole Hq [_ Hemails] (target & Hin & Htarget) Hid Hne.
    destruct (find_sameID (users p) (ID principal) target Hin Htarget)
      as (row & Hfind & Hrow & Hrowid).
    set (updated := mkUser (ID row) (Email row) (Name row) RoleAdmin
                           (PasswordHash row) (CreatedAt row) now).
    exists (user.sanitizeUser updated),
           (mkPool (map (setRow updated) (users p)) []).
    split; [|split; [exact Hrowid|split; [reflexivity|]]].
    + unfold handleAdminUserRole. rewrite Hget2, Hput2.
      unfold requireAdmin. cbn [currentUserFromContext ctxUser Body].
      rewrite bool_decide_eq_true_2 by exact Hrole. cbn [negb].
      rewrite Hnonempty. unfold user.Update. rewrite Hid.
      rewrite (isEmpty_false _ Hne).
      unfold GetByID. rewrite (QueryRow_quiet _ p Hq), Hfind.
      cbn [scanOne user.setEmail user.setName user.setRole
           user.Update_Email user.Update_Name user.Update_Role].
      rewrite Hensure.
      cbn [ID Email Name Role PasswordHash CreatedAt UpdatedAt].
      fold updated.
      rewrite (Update_existing updated row p Hq Hemails Hrow);
        reflexivity.
    + exists (setRow updated row). split; [|split].
      * cbn [users]. apply in_map. exact Hrow.
      * unfold setRow, sameID. cbn [ID updated].
        rewrite bool_decide_eq_true_2 by reflexivity. exact Hrowid.
      * unfold setRow, sameID. cbn [ID updated].
        rewrite bool_decide_eq_true_2 by reflexivity. reflexivity.
Qed.

(** *** The guard cannot be bypassed *)

(** The role the service stores is [admin] exactly when the handler's
    normalized role is [admin]. *)
Lemma ensureRole_admin (role : string) :
  user.ensureRole (TrimSpace role) true = Ok RoleAdmin <->
  ToLower (TrimSpace role) = RoleAdmin.
Proof.
  unfold user.ensureRole. rewrite ensureRole_trimmed. split.
  - destruct (isEmpty (ToLower (TrimSpace role))); [discriminate|].
    destruct (bool_decide (ToLower (TrimSpace role) = RoleUser)
              || bool_decide (ToLower (TrimSpace role) = RoleAdmin));
      [|discriminate].
    intros [= ->]. reflexivity.
  - intros ->. reflexivity.
Qed.

Lemma requireAdmin_denies (r : Request) (principal : User) :
  ctxUser r = Some principal -> Role principal <> RoleAdmin ->
  requireAdmin r
    = Some (writeError StatusForbidden "admin privileges required").
Proof.
  intros Hctx Hnot. unfold requireAdmin, currentUserFromContext.
  rewrite Hctx, bool_decide_eq_false_2 by exact Hnot. reflexivity.
Qed.

Lemma begin_undisturbed (p : Pool) :
  undisturbed (script p) ->
  users (snd (begin p)) = users p /\ undisturbed (script (snd (begin p))).
Proof.
  intros Hund. split; [exact (begin_frame p Hund)|].
  unfold begin. destruct (script p) as [|[msg|t] s] eqn:Hs; cbn [snd script].
  - rewrite Hs. intros t [].
  - intros t Hin. apply (Hund t). right. exact Hin.
  - intros t' Hin. apply (Hund t'). right. exact Hin.
Qed.

Lemma GetByID_undisturbed (id : string) (p : Pool) :
  undisturbed (script p) ->
  users (snd (GetByID id p)) = users p /\
  undisturbed (script (snd (GetByID id p))).
Proof.
  intros Hund. unfold GetByID. rewrite scanOne_frame. unfold QueryRow.
  destruct (begin_undisturbed p Hund) as [Hrows Hrest].
  destruct (begin p) as [[msg|] p']; cbn [snd] in *; [auto|].
  destruct (find (sameID id) (users p')); auto.
Qed.

Lemma Update_rows (u : User) (p : Pool) :
  undisturbed (script p) ->
  forall row, In row (users (snd (postgres.Update u p))) ->
    In row (users p) \/ Role row = Role u.
Proof.
  intros Hund row. unfold postgres.Update, ExecUpdate.
  destruct (begin_undisturbed p Hund) as [Hrows _].
  destruct (begin p) as [[msg|] p']; cbn [snd] in Hrows;
    [cbn; rewrite Hrows; auto|].
  destruct (List.filter (sameID (ID u)) (users p')) as [|hit hits];
    [cbn; rewrite Hrows; auto|].
  destruct (existsb (fun r => negb (sameID (ID u) r)
                              && sameEmail (Email u) r) (users p'));
    [cbn; rewrite Hrows; auto|].
  cbn [length snd users]. intros Hin.
  apply in_map_iff in Hin as (r & <- & Hr). unfold setRow.
  destruct (sameID (ID u) r); [right; reflexivity|].
  left. rewrite <- Hrows. exact Hr.
Qed.

(** X19.  Whatever the request, [handleUserRole] for a principal that is
    not an admin adds no admin to the store: every row with the role
    [admin] after the call was a row of the store before it (no commit of
    another request intervening). *)
Lemma self_role_update_grants_no_admin
    (now : Z) (r : Request) (p : Pool) (principal : User) :
  ctxUser r = Some principal -> Role principal <> RoleAdmin ->
  undisturbed (script p) ->
  forall row, In row (users (snd (handleUserRole now r p))) ->
    Role row = RoleAdmin -> In row (users p).
Proof.
  intros Hctx Hnot Hund row. unfold handleUserRole, currentUserFromContext.
  rewrite Hctx.
  destruct (isMethod r ["GET"]); [auto|].
  destruct (isMethod r ["PUT"; "PATCH"]); [|auto].
  destruct (Body r) as [| |role]; [auto|auto|].
  destruct (isEmpty (TrimSpace role)); [auto|].
  rewrite (bool_decide_eq_false_2 _ Hnot). cbn [negb]. rewrite andb_true_r.
  destruct (bool_decide (ToLower (TrimSpace role) = RoleAdmin)) eqn:Hguard;
    [auto|].
  apply bool_decide_eq_false in Hguard.
  assert (Hsvc : forall row, In row (users (snd
             (user.Update now (ID principal)
                (user.mkUpdateInput None None (Some (TrimSpace role))) p))) ->
             Role row = RoleAdmin -> In row (users p)).
  { clear row. intros row. unfold user.Update.
    destruct (isEmpty (TrimSpace (ID principal))); [auto|].
    destruct (GetByID_undisturbed (TrimSpace (ID principal)) p Hund)
      as [Hrows Hrest].
    destruct (GetByID (TrimSpace (ID principal)) p) as [[found|err] p1];
      cbn [snd] in Hrows, Hrest; [|cbn [snd]; rewrite Hrows; auto].
    cbn [user.setEmail user.setName user.setRole
         user.Update_Email user.Update_Name user.Update_Role].
    destruct (user.ensureRole (TrimSpace role) true) as [stored|err]
      eqn:Hensure; [|cbn [snd]; rewrite Hrows; auto].
    cbn [ID Email Name Role PasswordHash CreatedAt UpdatedAt].
    set (updated := mkUser _ _ _ stored _ _ now).
    pose proof (Update_rows updated p1 Hrest row) as Hupd.
    destruct (postgres.Update updated p1) as [[[]|err] p2];
      cbn [snd] in *; intros Hin Hadmin;
      (destruct (Hupd Hin) as [Hold | Hnew]; [rewrite <- Hrows; exact Hold|]);
      exfalso; apply Hguard, ensureRole_admin;
      rewrite Hensure; f_equal; rewrite <- Hadmin; exact (eq_sym Hnew). }
  destruct (user.Update now (ID principal)
              (user.mkUpdateInput None None (Some (TrimSpace role))) p)
    as [[u|err] p'] eqn:Hupdate; cbn [snd] in Hsvc.
  - exact (Hsvc row).
  - repeat case_match; exact (Hsvc row).
Qed.

(** ** The role of a registered account *)

Section Registered.
Context `{bcrypt.Hasher}.

(** What a successful [Register] returns: the identifier drawn for the
    call, both timestamps at the clock reading of the call, no password
    hash, and the role left at the zero value of [UserRole]. *)
Lemma Register_returns
    (now : Z) (uuid salt email password name : string) (p p' : Pool) (u : User) :
  auth.Register now uuid salt email password name p = (Ok u, p') ->
  ID u = uuid /\ CreatedAt u = now /\ UpdatedAt u = now /\
  PasswordHash u = "" /\ Role u = "".
Proof.
  unfold auth.Register. intros Hret.
  repeat (case_match; try discriminate); simplify_eq. repeat split.
Qed.

End Registered.

Lemma sanitizeUser_agree (u : User) : user.sanitizeUser u = auth.sanitizeUser u.
Proof. reflexivity. Qed.

(** * Further properties of the code *)

(** ** The repository: insert, look up, delete *)

Lemma existsb_none (sel : User -> bool) (t : list User) :
  existsb sel t = false -> forall r, In r t -> sel r = false.
Proof.
  intros Hnone r Hin. destruct (sel r) eqn:Hsel; [|reflexivity].
  rewrite <- Hnone. symmetry. apply existsb_exists. exists r. auto.
Qed.

Lemma Create_quiet (u : User) (p : Pool) :
  script p = [] ->
  Create u p =
    if existsb (fun r => sameID (ID u) r || sameEmail (Email u) r) (users p)
    then (Err ErrEmailExists, p)
    else (Ok tt, mkPool (users p ++ [u]) []).
Proof.
  intros Hq. unfold Create, ExecInsert. rewrite (begin_quiet p Hq).
  destruct (existsb _ (users p)); [reflexivity|]. rewrite Hq. reflexivity.
Qed.

Lemma GetByID_found (id : string) (p : Pool) (user : User) :
  script p = [] -> find (sameID id) (users p) = Some user ->
  GetByID id p = (Ok user, p).
Proof.
  intros Hq Hfind. unfold GetByID. rewrite (QueryRow_quiet _ p Hq).
  rewrite Hfind. reflexivity.
Qed.

(** X1.  On a quiet store, a user that [Create] has inserted is the one
    [GetByID] returns for its identifier and [GetByEmail] for its email;
    the table has grown by that row only. *)
Theorem create_then_lookup (u : User) (p p' : Pool) :
  script p = [] ->
  Create u p = (Ok tt, p') ->
  users p' = (users p ++ [u])%list /\
  GetByID (ID u) p' = (Ok u, p') /\
  GetByEmail (Email u) p' = (Ok u, p').
Proof.
  intros Hq. rewrite (Create_quiet u p Hq).
  destruct (existsb _ (users p)) eqn:Hclash; [discriminate|].
  intros [= <-]. pose proof (existsb_none _ _ Hclash) as Hnone.
  split; [reflexivity|split].
  - apply GetByID_found; [reflexivity|]. cbn [users].
    apply find_appended.
    + intros r Hin. apply Hnone in Hin. apply orb_false_iff in Hin. tauto.
    + unfold sameID. apply bool_decide_eq_true_2. reflexivity.
  - apply GetByEmail_found; [reflexivity|]. cbn [users].
    apply find_appended.
    + intros r Hin. apply Hnone in Hin. apply orb_false_iff in Hin. tauto.
    + unfold sameEmail. apply bool_decide_eq_true_2. reflexivity.
Qed.

(** X2.  On a quiet store, [Create] fails exactly when a row already has
    the identifier or the email of the user; the failure is
    [ErrEmailExists] in both cases and the store is left as it was. *)
Theorem create_conflict (u : User) (p : Pool) :
  script p = [] ->
  ((exists r, In r (users p) /\ (ID r = ID u \/ Email r = Email u)) <->
   Create u p = (Err ErrEmailExists, p)) /\
  ((forall r, In r (users p) -> ID r <> ID u /\ Email r <> Email u) <->
   exists p', Create u p = (Ok tt, p')).
Proof.
  intros Hq. rewrite (Create_quiet u p Hq).
  destruct (existsb _ (users p)) eqn:Hclash.
  - apply existsb_exists in Hclash as (r & Hin & Hr).
    apply orb_true_iff in Hr. unfold sameID, sameEmail in Hr.
    rewrite !bool_decide_eq_true in Hr.
    split; split.
    + reflexivity.
    + intros _. exists r. auto.
    + intros Hnone. destruct (Hnone r Hin) as [Hid Hemail]. tauto.
    + intros [p' Hok]. discriminate Hok.
  - pose proof (existsb_none _ _ Hclash) as Hnone.
    assert (Hfree : forall r, In r (users p) ->
              ID r <> ID u /\ Email r <> Email u).
    { intros r Hin. apply Hnone in Hin. apply orb_false_iff in Hin.
      unfold sameID, sameEmail in Hin. rewrite !bool_decide_eq_false in Hin.
      exact Hin. }
    split; split.
    + intros (r & Hin & Hr). destruct (Hfree r Hin). tauto.
    + discriminate.
    + intros _. eexists. reflexivity.
    + intros _. exact Hfree.
Qed.

Lemma filter_all (sel : User -> bool) (t : list User) :
  (forall r, In r t -> sel r = true) -> List.filter sel t = t.
Proof.
  induction t as [|r t IH]; intros Hall; [reflexivity|]. cbn [List.filter].
  rewrite (Hall r (or_introl eq_refl)). f_equal. apply IH.
  intros r' Hin. apply Hall. right. exact Hin.
Qed.

Lemma filter_none (sel : User -> bool) (t : list User) :
  (forall r, In r t -> sel r = false) -> List.filter sel t = [].
Proof.
  induction t as [|r t IH]; intros Hall; [reflexivity|]. cbn [List.filter].
  rewrite (Hall r (or_introl eq_refl)). apply IH.
  intros r' Hin. apply Hall. right. exact Hin.
Qed.

(** X3.  On a quiet store, [Delete] of an identifier some row has removes
    every row with that identifier and no other: [GetByID] then answers
    [ErrUserNotFound].  [Delete] of an identifier no row has answers
    [ErrUserNotFound] and leaves the store as it was. *)
Theorem delete_then_lookup (id : string) (p : Pool) :
  script p = [] ->
  ((exists r, In r (users p) /\ ID r = id) ->
   exists p',
     Delete id p = (Ok tt, p') /\
     GetByID id p' = (Err ErrUserNotFound, p') /\
     forall r, In r (users p') <-> In r (users p) /\ ID r <> id) /\
  ((forall r, In r (users p) -> ID r <> id) ->
   Delete id p = (Err ErrUserNotFound, p)).
Proof.
  intros Hq. unfold Delete, ExecDelete. rewrite (begin_quiet p Hq). split.
  - intros (r & Hin & Hr).
    assert (Hhit : In r (List.filter (sameID id) (users p))).
    { apply filter_In. split; [exact Hin|]. unfold sameID.
      apply bool_decide_eq_true_2. exact Hr. }
    destruct (List.filter (sameID id) (users p)) as [|hit hits];
      [contradiction|].
    cbn [length]. eexists. split; [reflexivity|].
    assert (Hleft : forall r', In r' (List.filter
                      (fun r => negb (sameID id r)) (users p)) <->
                    In r' (users p) /\ ID r' <> id).
    { intros r'. rewrite filter_In. unfold sameID.
      rewrite negb_true_iff, bool_decide_eq_false. reflexivity. }
    split.
    + apply GetByID_missing; [exact Hq|]. cbn [users].
      intros r' Hin'. apply Hleft in Hin'. tauto.
    + exact Hleft.
  - intros Hnone.
    rewrite (filter_none (sameID id)); cbn [length].
    + rewrite filter_all.
      * destruct p as [rows events]. cbn in *. reflexivity.
      * intros r Hin. rewrite (sameID_false _ _ (Hnone r Hin)). reflexivity.
    + intros r Hin. apply sameID_false. apply Hnone. exact Hin.
Qed.

(** ** The repository keeps the constraints of the table *)

Lemma NoDup_map_filter {A : Type} (f : User -> A) (sel : User -> bool)
    (t : list User) :
  NoDup (map f t) -> NoDup (map f (List.filter sel t)).
Proof.
  induction t as [|r t IH]; intros Hnd; [exact Hnd|].
  cbn [map] in Hnd. apply NoDup_cons in Hnd as [Hr Hnd].
  cbn [List.filter]. destruct (sel r); [|exact (IH Hnd)].
  cbn [map]. apply NoDup_cons. split; [|exact (IH Hnd)].
  intros Hin. apply Hr. apply list_elem_of_In in Hin.
  apply list_elem_of_In. apply in_map_iff in Hin as (r' & <- & Hin).
  apply filter_In in Hin as [Hin _]. apply in_map. exact Hin.
Qed.

Lemma NoDup_map_snoc {A : Type} (f : User -> A) (t : list User) (u : User) :
  NoDup (map f t) -> (forall r, In r t -> f r <> f u) ->
  NoDup (map f (t ++ [u])).
Proof.
  intros Hnd Hnew. rewrite map_app. apply NoDup_app.
  split; [exact Hnd|]. split; [|cbn [map]; apply NoDup_singleton].
  intros x Hx Hu. cbn [map] in Hu. apply list_elem_of_singleton in Hu.
  apply list_elem_of_In, in_map_iff in Hx as (r & <- & Hin).
  exact (Hnew r Hin Hu).
Qed.

Lemma setRow_ID (u : User) (t : list User) :
  map ID (map (setRow u) t) = map ID t.
Proof.
  rewrite map_map. apply map_ext. intros r. unfold setRow.
  destruct (sameID (ID u) r); reflexivity.
Qed.

Lemma setRow_others (u : User) (t : list User) :
  (forall r, In r t -> ID r <> ID u) -> map (setRow u) t = t.
Proof.
  intros Hother. rewrite <- (map_id t) at 2. apply map_ext_in.
  intros r Hin. unfold setRow. rewrite (sameID_false _ _ (Hother r Hin)).
  reflexivity.
Qed.

Lemma setRow_emails (u : User) (t : list User) :
  NoDup (map ID t) -> NoDup (map Email t) ->
  (forall r, In r t -> ID r <> ID u -> Email r <> Email u) ->
  NoDup (map Email (map (setRow u) t)).
Proof.
  induction t as [|r t IH]; intros Hids Hemails Hfree; [constructor|].
  cbn [map] in *. apply NoDup_cons in Hids as [Hid Hids].
  apply NoDup_cons in Hemails as [Hemail Hemails].
  assert (Hfree' : forall r', In r' t -> ID r' <> ID u -> Email r' <> Email u).
  { intros r' Hin. apply Hfree. right. exact Hin. }
  apply NoDup_cons. unfold setRow at 1, sameID.
  destruct (bool_decide (ID r = ID u)) eqn:Hsame.
  - apply bool_decide_eq_true in Hsame.
    assert (Hrest : forall r', In r' t -> ID r' <> ID u).
    { intros r' Hin Heq. apply Hid. rewrite Hsame, <- Heq.
      apply list_elem_of_In, in_map. exact Hin. }
    rewrite (setRow_others u t Hrest). split; [|exact Hemails].
    cbn [Email]. intros Hin.
    apply list_elem_of_In, in_map_iff in Hin as (r' & Heq & Hin).
    exact (Hfree' r' Hin (Hrest r' Hin) Heq).
  - apply bool_decide_eq_false in Hsame. split; [|exact (IH Hids Hemails Hfree')].
    intros Hin. apply list_elem_of_In, in_map_iff in Hin as (r'' & Heq & Hin).
    apply in_map_iff in Hin as (r' & <- & Hin).
    unfold setRow in Heq. destruct (sameID (ID u) r'); cbn [Email] in Heq.
    + exact (Hfree r (or_introl eq_refl) Hsame (eq_sym Heq)).
    + apply Hemail. rewrite <- Heq. apply list_elem_of_In, in_map. exact Hin.
Qed.

Lemma setPassword_keys (id hashed : string) (at_ : Z) (t : list User) :
  map ID (map (setPassword id hashed at_) t) = map ID t /\
  map Email (map (setPassword id hashed at_) t) = map Email t.
Proof.
  split; rewrite map_map; apply map_ext; intros r; unfold setPassword;
    destruct (sameID id r); reflexivity.
Qed.

Lemma find_setPassword (id hashed : string) (at_ : Z) (t : list User)
    (row : User) :
  NoDup (map ID t) -> In row t -> ID row = id ->
  find (sameID id) (map (setPassword id hashed at_) t)
  = Some (mkUser (ID row) (Email row) (Name row) (Role row) hashed
                 (CreatedAt row) at_).
Proof.
  induction t as [|r t IH]; intros Hids Hin Hrow; [contradiction|].
  cbn [map] in Hids. apply NoDup_cons in Hids as [Hr Hids].
  cbn [map find].
  assert (Hkey : sameID id (setPassword id hashed at_ r) = sameID id r).
  { unfold setPassword. destruct (sameID id r) eqn:Hsame; [|exact Hsame].
    exact Hsame. }
  rewrite Hkey. destruct (sameID id r) eqn:Hsame.
  - unfold sameID in Hsame. apply bool_decide_eq_true in Hsame.
    destruct Hin as [-> | Hin].
    + unfold setPassword, sameID.
      rewrite bool_decide_eq_true_2 by exact Hsame. reflexivity.
    + exfalso. apply Hr. rewrite Hsame, <- Hrow.
      apply list_elem_of_In, in_map. exact Hin.
  - destruct Hin as [-> | Hin].
    + unfold sameID in Hsame. apply bool_decide_eq_false in Hsame.
      contradiction.
    + exact (IH Hids Hin Hrow).
Qed.

(** X5.  On a quiet store whose identifiers are pairwise different,
    [UpdatePassword] for the identifier of a row replaces the password hash
    and the update time of that row and nothing else: [GetByID] returns the
    row with these two fields changed, and the rows of other identifiers are
    as before.  For an identifier no row has it answers
    [ErrUserNotFound]. *)
Theorem update_password_only (id hashed : string) (at_ : Z) (p : Pool) :
  script p = [] ->
  (forall row, In row (users p) -> ID row = id ->
   NoDup (map ID (users p)) ->
   exists p',
     UpdatePassword id hashed at_ p = (Ok tt, p') /\
     GetByID id p'
       = (Ok (mkUser (ID row) (Email row) (Name row) (Role row) hashed
                     (CreatedAt row) at_), p') /\
     forall r, ID r <> id -> (In r (users p') <-> In r (users p))) /\
  ((forall r, In r (users p) -> ID r <> id) ->
   fst (UpdatePassword id hashed at_ p) = Err ErrUserNotFound).
Proof.
  intros Hq. unfold UpdatePassword, ExecUpdatePassword.
  rewrite (begin_quiet p Hq). split.
  - intros row Hin Hrow Hids.
    assert (Hhit : In row (List.filter (sameID id) (users p))).
    { apply filter_In. split; [exact Hin|]. unfold sameID.
      apply bool_decide_eq_true_2. exact Hrow. }
    destruct (List.filter (sameID id) (users p)) as [|hit hits];
      [contradiction|].
    cbn [length]. eexists. split; [reflexivity|]. split.
    + apply GetByID_found; [exact Hq|]. cbn [users].
      exact (find_setPassword id hashed at_ (users p) row Hids Hin Hrow).
    + intros r Hne. cbn [users]. rewrite in_map_iff. split.
      * intros (r' & <- & Hin'). unfold setPassword in *.
        destruct (sameID id r') eqn:Hsame; [|exact Hin'].
        cbn [ID] in Hne. unfold sameID in Hsame.
        apply bool_decide_eq_true in Hsame. contradiction.
      * intros Hin'. exists r. split; [|exact Hin'].
        unfold setPassword. rewrite (sameID_false _ _ Hne). reflexivity.
  - intros Hnone. rewrite (filter_none (sameID id)); [reflexivity|].
    intros r Hin. apply sameID_false. apply Hnone. exact Hin.
Qed.

(** ** The token manager *)

Section Tokens.
Context `{jwt.Library}.

(** What [Validate] of a manager answers for a token another manager (or
    the same) has generated. *)
Lemma Validate_generated (m1 m2 : token.JWTManager) (now now' : Z)
    (userID tok : string) :
  token.secret m1 = token.secret m2 ->
  token.Generate m1 now userID = Ok tok ->
  token.Validate m2 now' tok =
    if now' <? jwt.NewNumericDate (now + token.expiration m1)
    then Ok userID
    else Err (errorsNew "token has invalid claims: token is expired").
Proof.
  unfold token.Generate, jwt.SignedString. intros Hsecret [= <-].
  unfold token.Validate, jwt.ParseWithClaims.
  rewrite jwt.decode_encode. cbn [jwt.alg jwt.claims jwt.signature].
  rewrite HS256_registered. unfold jwt.Verify.
  cbn [jwt.alg jwt.claims jwt.signature]. rewrite Hsecret.
  rewrite bool_decide_eq_true_2 by reflexivity.
  unfold jwt.validate, jwt.expired, jwt.notValidYet.
  cbn [jwt.ExpiresAt jwt.NotBefore].
  destruct (now' <? jwt.NewNumericDate (now + token.expiration m1));
    reflexivity.
Qed.

Lemma NewNumericDate_bounds (t : Z) :
  jwt.NewNumericDate t <= t < jwt.NewNumericDate t + jwt.second.
Proof.
  unfold jwt.NewNumericDate, jwt.second.
  pose proof (Z.div_mod t 1000000000 ltac:(lia)) as Hdm.
  pose proof (Z.mod_pos_bound t 1000000000 ltac:(lia)) as Hmod. lia.
Qed.

(** X6.  A token of the manager is accepted, with its subject, exactly
    while the clock is below its expiry, the issue time plus the lifetime
    truncated to the second: it is accepted for at least the lifetime less
    one second after it was issued and never once the lifetime has passed;
    with a lifetime of zero or less it is never accepted from its issue
    on.  The error is then the parser's, an invalid-claims error wrapping
    the expiry. *)
Theorem token_lifetime (tokens : token.JWTManager) (now now' : Z)
    (userID tok : string) :
  token.Generate tokens now userID = Ok tok ->
  (token.Validate tokens now' tok = Ok userID <->
   now' < jwt.NewNumericDate (now + token.expiration tokens)) /\
  (now' < now + token.expiration tokens - jwt.second ->
   token.Validate tokens now' tok = Ok userID) /\
  (now + token.expiration tokens <= now' ->
   token.Validate tokens now' tok = Err (errorsNew "token has invalid claims: token is expired")) /\
  (token.expiration tokens <= 0 -> now <= now' ->
   token.Validate tokens now' tok = Err (errorsNew "token has invalid claims: token is expired")).
Proof.
  intros Hgen.
  rewrite (Validate_generated tokens tokens now now' userID tok eq_refl Hgen).
  pose proof (NewNumericDate_bounds (now + token.expiration tokens)) as Hb.
  destruct (now' <? jwt.NewNumericDate (now + token.expiration tokens))
    eqn:Hlive.
  - apply Z.ltb_lt in Hlive. repeat split; try reflexivity; intros; lia.
  - apply Z.ltb_ge in Hlive. repeat split; try reflexivity;
      try discriminate; intros; lia.
Qed.

(** X7.  [Validate] looks at neither the issuer nor the lifetime of its
    own manager: a token generated by a manager with the same secret,
    whatever its issuer, is accepted until the expiry it carries. *)
Theorem validate_ignores_issuer (m1 m2 : token.JWTManager) (now now' : Z)
    (userID tok : string) :
  token.secret m1 = token.secret m2 ->
  token.Generate m1 now userID = Ok tok ->
  now' < jwt.NewNumericDate (now + token.expiration m1) ->
  token.Validate m2 now' tok = Ok userID.
Proof.
  intros Hsecret Hgen Hlive.
  rewrite (Validate_generated m1 m2 now now' userID tok Hsecret Hgen).
  apply Z.ltb_lt in Hlive. rewrite Hlive. reflexivity.
Qed.

Lemma HMAC_registered (name : string) :
  In name ["HS256"; "HS384"; "HS512"] ->
  jwt.GetSigningMethod name = Some (jwt.SigningMethodHMAC name).
Proof. intros [<- | [<- | [<- | []]]]; reflexivity. Qed.

Lemma HMAC_only (name : string) (m : jwt.SigningMethod) :
  jwt.GetSigningMethod name = Some m ->
  (exists n, m = jwt.SigningMethodHMAC n) ->
  m = jwt.SigningMethodHMAC name /\ In name ["HS256"; "HS384"; "HS512"].
Proof.
  unfold jwt.GetSigningMethod. intros Hm [n ->].
  destruct (bool_decide (name ∈ ["HS256"; "HS384"; "HS512"])) eqn:Hin.
  - injection Hm as <-. split; [reflexivity|].
    apply bool_decide_eq_true in Hin. apply list_elem_of_In. exact Hin.
  - repeat (destruct (bool_decide _) in Hm; [discriminate|]). discriminate.
Qed.

(** X8.  [Validate] returns a subject exactly for the strings that decode to
    a token whose [alg] is HS256, HS384 or HS512, whose signature is the MAC
    of its content under the secret of the manager, whose [exp], if any, is
    above the clock and whose [nbf], if any, is not; the subject is the
    [uid] claim.  Issuer, subject, audience and issue time play no part. *)
Theorem validate_accepts_iff (tokens : token.JWTManager) (now : Z)
    (tok userID : string) :
  token.Validate tokens now tok = Ok userID <->
  exists t,
    jwt.decode tok = Some t /\
    In (jwt.alg t) ["HS256"; "HS384"; "HS512"] /\
    jwt.signature t
      = jwt.hmac (jwt.alg t) (token.secret tokens) (jwt.alg t) (jwt.claims t) /\
    (forall exp, jwt.ExpiresAt (jwt.claims t) = Some exp -> now < exp) /\
    (forall nbf, jwt.NotBefore (jwt.claims t) = Some nbf -> nbf <= now) /\
    jwt.UserID (jwt.claims t) = userID.
Proof.
  unfold token.Validate, jwt.ParseWithClaims. split.
  - destruct (jwt.decode tok) as [t|]; [|discriminate]. intros Hok.
    exists t. split; [reflexivity|].
    destruct (jwt.GetSigningMethod (jwt.alg t)) as [m|] eqn:Hm;
      [|discriminate].
    destruct m as [name|name|name|name| |]; try discriminate.
    destruct (HMAC_only _ _ Hm (ex_intro _ name eq_refl)) as [[= ->] Hin].
    unfold jwt.Verify in Hok.
    destruct (bool_decide (jwt.signature t = _)) eqn:Hsig; [|discriminate].
    apply bool_decide_eq_true in Hsig.
    unfold jwt.validate, jwt.expired, jwt.notValidYet in Hok.
    split; [exact Hin|]. split; [exact Hsig|].
    destruct (jwt.ExpiresAt (jwt.claims t)) as [exp|] eqn:Hexp,
             (jwt.NotBefore (jwt.claims t)) as [nbf|] eqn:Hnbf;
      repeat match type of Hok with
        | context [?a <? ?b] => destruct (Z.ltb_spec a b)
        end;
      cbn in Hok; try discriminate; injection Hok as Hok;
      (split; [intros ? [= <-]; lia|]); (split; [intros ? [= <-]; lia|]);
      exact Hok.
  - intros (t & -> & Hin & Hsig & Hexp & Hnbf & <-).
    rewrite (HMAC_registered _ Hin). unfold jwt.Verify.
    rewrite bool_decide_eq_true_2 by exact Hsig.
    unfold jwt.validate, jwt.expired, jwt.notValidYet.
    destruct (jwt.ExpiresAt (jwt.claims t)) as [exp|] eqn:Hexp',
             (jwt.NotBefore (jwt.claims t)) as [nbf|] eqn:Hnbf';
      try (specialize (Hexp _ eq_refl)); try (specialize (Hnbf _ eq_refl));
      repeat match goal with
        | |- context [?a <? ?b] => destruct (Z.ltb_spec a b)
        end;
      cbn; try reflexivity; lia.
Qed.

End Tokens.

(** ** The authentication service *)

Lemma lowerByte_idempotent (c : ascii) : lowerByte (lowerByte c) = lowerByte c.
Proof. destruct c as [[] [] [] [] [] [] [] []]; reflexivity. Qed.

Lemma ToLower_idempotent (s : string) : ToLower (ToLower s) = ToLower s.
Proof.
  induction s as [|c s IH]; [reflexivity|]. cbn [ToLower].
  rewrite lowerByte_idempotent, IH. reflexivity.
Qed.

(** Normalizing an email twice is normalizing it once. *)
Lemma normalized_email_fixed (email : string) :
  TrimSpace (ToLower (TrimSpace (ToLower email))) = TrimSpace (ToLower email).
Proof.
  rewrite (TrimSpace_ToLower (TrimSpace (ToLower email))).
  rewrite TrimSpace_idempotent, <- TrimSpace_ToLower, ToLower_idempotent.
  reflexivity.
Qed.

Lemma GetByEmail_undisturbed (email : string) (p : Pool) :
  undisturbed (script p) ->
  users (snd (GetByEmail email p)) = users p /\
  undisturbed (script (snd (GetByEmail email p))).
Proof.
  intros Hund. unfold GetByEmail. rewrite scanOne_frame. unfold QueryRow.
  destruct (begin_undisturbed p Hund) as [Hrows Hrest].
  destruct (begin p) as [[msg|] p']; cbn [snd] in *; [auto|].
  destruct (find (sameEmail email) (users p')); auto.
Qed.

Lemma Create_rows (u : User) (p : Pool) :
  undisturbed (script p) ->
  match Create u p with
  | (Ok _, p') => users p' = (users p ++ [u])%list
  | (Err _, p') => users p' = users p
  end.
Proof.
  intros Hund. unfold Create, ExecInsert.
  destruct (begin_undisturbed p Hund) as [Hrows _].
  destruct (begin p) as [[msg|] p']; cbn [snd] in Hrows; [exact Hrows|].
  destruct (existsb _ (users p')); cbn [isUniqueViolation users];
    [exact Hrows|]. rewrite Hrows. reflexivity.
Qed.

Section Registration.
Context `{bcrypt.Hasher} `{jwt.Library}.
Variable tokens : token.JWTManager.

(** X9.  With no commit of another request intervening, [Register], for
    an email, a password and a name of ASCII bytes, stores all or nothing:
    when it fails, for whatever reason, the rows of the store are as before;
    when it succeeds, exactly one row has been added, with the normalized
    email, the trimmed name, the identifier and the clock reading of the
    call, and a digest against which the trimmed password verifies, and the
    account returned is that row without its digest. *)
Theorem register_all_or_nothing
    (now : Z) (uuid salt email password name : string) (p : Pool) :
  isASCII email = true -> isASCII password = true -> isASCII name = true ->
  undisturbed (script p) ->
  match auth.Register now uuid salt email password name p with
  | (Ok u, p') =>
      exists hashed,
        bcrypt.GenerateFromPassword salt (TrimSpace password) = Ok hashed /\
        bcrypt.CompareHashAndPassword hashed (TrimSpace password) = true /\
        users p'
          = (users p ++ [auth.registered now uuid hashed email name])%list /\
        u = auth.sanitizeUser (auth.registered now uuid hashed email name)
  | (Err _, p') => users p' = users p
  end.
Proof.
  intros _ _ _ Hund. unfold auth.Register.
  destruct (isEmpty (TrimSpace (ToLower email))); [reflexivity|].
  destruct (isEmpty (TrimSpace password)); [reflexivity|].
  destruct (GetByEmail_undisturbed (TrimSpace (ToLower email)) p Hund)
    as [Hrows Hrest].
  destruct (GetByEmail (TrimSpace (ToLower email)) p) as [[found|err] p1];
    cbn [snd] in Hrows, Hrest; [exact Hrows|].
  destruct (negb (errorsIs err ErrUserNotFound)); [exact Hrows|].
  destruct (bcrypt.GenerateFromPassword salt (TrimSpace password))
    as [hashed|err'] eqn:Hhash; [|exact Hrows].
  fold (auth.registered now uuid hashed email name).
  pose proof (Create_rows (auth.registered now uuid hashed email name) p1
                Hrest) as Hcreate.
  destruct (Create (auth.registered now uuid hashed email name) p1)
    as [[[]|err'] p2].
  - exists hashed. split; [reflexivity|].
    split; [exact (bcrypt.compare_generated _ _ _ Hhash)|].
    split; [rewrite Hcreate, Hrows; reflexivity|reflexivity].
  - rewrite Hcreate. exact Hrows.
Qed.

(** X10.  Emails are compared in their normalized form: on a quiet store,
    once [Register] has succeeded for an email, [Register] for any email
    with the same normalized form (another letter case, spaces around) and
    a password that is not blank fails with [ErrEmailExists] and stores
    nothing.  The input of both calls is of ASCII bytes. *)
Theorem register_twice
    (now1 now2 : Z)
    (uuid1 salt1 email1 password1 name1 : string)
    (uuid2 salt2 email2 password2 name2 : string)
    (p p1 : Pool) (u : User) :
  isASCII email1 = true -> isASCII password1 = true -> isASCII name1 = true ->
  isASCII email2 = true -> isASCII password2 = true ->
  script p = [] ->
  auth.Register now1 uuid1 salt1 email1 password1 name1 p = (Ok u, p1) ->
  TrimSpace (ToLower email2) = TrimSpace (ToLower email1) ->
  TrimSpace password2 <> "" ->
  auth.Register now2 uuid2 salt2 email2 password2 name2 p1
    = (Err ErrEmailExists, p1).
Proof.
  intros _ _ _ _ _ Hq Hfirst Hsame Hpw.
  assert (Hstored : script p1 = [] /\ TrimSpace (ToLower email1) <> "" /\
            exists row, In row (users p1) /\
              Email row = TrimSpace (ToLower email1)).
  { unfold auth.Register in Hfirst.
    destruct (isEmpty (TrimSpace (ToLower email1))) eqn:Hempty;
      [discriminate|].
    destruct (isEmpty (TrimSpace password1)); [discriminate|].
    unfold GetByEmail in Hfirst. rewrite (QueryRow_quiet _ p Hq) in Hfirst.
    destruct (find _ (users p)); cbn [scanOne] in Hfirst; [discriminate|].
    cbn in Hfirst.
    destruct (bcrypt.GenerateFromPassword salt1 (TrimSpace password1))
      as [hashed|err]; [|discriminate].
    rewrite (Create_quiet _ p Hq) in Hfirst.
    destruct (existsb _ (users p)); [discriminate|].
    injection Hfirst as _ <-. split; [reflexivity|]. split.
    - intros Heq. rewrite Heq in Hempty. discriminate Hempty.
    - eexists. split; [apply in_or_app; right; left; reflexivity|].
      reflexivity. }
  destruct Hstored as (Hq1 & Hne & row & Hin & Hrow).
  unfold auth.Register. rewrite Hsame.
  rewrite (isEmpty_false _ Hne), (isEmpty_false _ Hpw).
  destruct (find (sameEmail (TrimSpace (ToLower email1))) (users p1))
    as [found|] eqn:Hfind.
  - rewrite (GetByEmail_found _ p1 found Hq1 Hfind). reflexivity.
  - exfalso. apply (find_none _ _ Hfind) in Hin. unfold sameEmail in Hin.
    apply bool_decide_eq_false in Hin. contradiction.
Qed.

(** X11.  [Register] and [Login] read the email and the password only
    through their normalized forms: the lower-cased, trimmed email and the
    trimmed password give the same result as the raw input. *)
Theorem credentials_normalized
    (now : Z) (uuid salt email password name : string) (p : Pool) :
  auth.Register now uuid salt email password name p
    = auth.Register now uuid salt (TrimSpace (ToLower email))
        (TrimSpace password) name p /\
  auth.Login tokens now (mkCredentials email password) p
    = auth.Login tokens now
        (mkCredentials (TrimSpace (ToLower email)) (TrimSpace password)) p.
Proof.
  unfold auth.Register, auth.Login. cbn [cred_Email cred_Password].
  rewrite normalized_email_fixed, TrimSpace_idempotent. split; reflexivity.
Qed.

(** X12.  On a quiet store, the account [VerifyToken] returns is a row of
    the store as it is now, without its digest: the row whose identifier is
    the subject of the token.  The store is left as it was. *)
Theorem verify_token_current_account
    (now : Z) (tok : string) (p p' : Pool) (u : User) :
  script p = [] ->
  auth.VerifyToken tokens now tok p = (Ok u, p') ->
  p' = p /\
  exists row,
    In row (users p) /\
    token.Validate tokens now tok = Ok (ID row) /\
    u = auth.sanitizeUser row.
Proof.
  intros Hq. unfold auth.VerifyToken.
  destruct (token.Validate tokens now tok) as [id|err]; [|discriminate].
  unfold GetByID. rewrite (QueryRow_quiet _ p Hq).
  destruct (find (sameID id) (users p)) as [row|] eqn:Hfind;
    cbn [scanOne]; [|discriminate].
  intros [= <- <-]. split; [reflexivity|].
  apply find_some in Hfind as [Hin Hid]. unfold sameID in Hid.
  apply bool_decide_eq_true in Hid. exists row. rewrite Hid. auto.
Qed.

End Registration.

(** ** The administration service *)

Lemma Delete_rows (id : string) (p : Pool) :
  undisturbed (script p) ->
  forall r, In r (users (snd (Delete id p))) -> In r (users p).
Proof.
  intros Hund r. unfold Delete, ExecDelete.
  destruct (begin_undisturbed p Hund) as [Hrows _].
  destruct (begin p) as [[msg|] p']; cbn [snd] in Hrows;
    [cbn; rewrite Hrows; auto|].
  destruct (length (List.filter (sameID id) (users p'))); cbn [snd users];
    intros Hin; apply filter_In in Hin as [Hin _]; rewrite <- Hrows;
    exact Hin.
Qed.

Lemma ensureRole_enumerated (raw : string) (role : UserRole) :
  user.ensureRole raw true = Ok role -> role = RoleUser \/ role = RoleAdmin.
Proof.
  unfold user.ensureRole.
  destruct (isEmpty (TrimSpace (ToLower raw))); [intros [= <-]; auto|].
  destruct (bool_decide (TrimSpace (ToLower raw) = RoleUser)) eqn:Huser.
  - apply bool_decide_eq_true in Huser. cbn [orb]. intros [= <-]. auto.
  - destruct (bool_decide (TrimSpace (ToLower raw) = RoleAdmin)) eqn:Hadmin;
      cbn [orb]; [|discriminate].
    apply bool_decide_eq_true in Hadmin. intros [= <-]. auto.
Qed.

Section Administration.
Context `{bcrypt.Hasher}.

(** X13.  The administration service keeps roles within the two of the
    domain: with no commit of another request intervening, if every row of
    the store has the role [user] or [admin], so has every row after
    [Create], [Update] and [Delete], whatever the input and the outcome. *)
Theorem administration_keeps_roles (p : Pool) :
  undisturbed (script p) ->
  Forall (fun r => Role r = RoleUser \/ Role r = RoleAdmin) (users p) ->
  (forall now uuid salt input,
     Forall (fun r => Role r = RoleUser \/ Role r = RoleAdmin)
            (users (snd (user.Create now uuid salt input p)))) /\
  (forall now id input,
     Forall (fun r => Role r = RoleUser \/ Role r = RoleAdmin)
            (users (snd (user.Update now id input p)))) /\
  (forall id,
     Forall (fun r => Role r = RoleUser \/ Role r = RoleAdmin)
            (users (snd (user.Delete id p)))).
Proof.
  intros Hund Hroles. split; [|split].
  - intros now uuid salt input. unfold user.Create.
    destruct (isEmpty (TrimSpace (ToLower (user.Create_Email input))));
      [exact Hroles|].
    destruct (isEmpty (TrimSpace (user.Create_Password input)));
      [exact Hroles|].
    destruct (user.ensureRole (user.Create_Role input) true)
      as [role|err] eqn:Hrole; [|exact Hroles].
    destruct (GetByEmail_undisturbed
                (TrimSpace (ToLower (user.Create_Email input))) p Hund)
      as [Hrows Hrest].
    destruct (GetByEmail _ p) as [[found|err] p1];
      cbn [snd] in Hrows, Hrest; [cbn [snd]; rewrite Hrows; exact Hroles|].
    destruct (negb (errorsIs err ErrUserNotFound));
      [cbn [snd]; rewrite Hrows; exact Hroles|].
    destruct (bcrypt.GenerateFromPassword salt _) as [hashed|err'];
      [|cbn [snd]; rewrite Hrows; exact Hroles].
    match goal with |- context [postgres.Create ?u p1] =>
      pose proof (Create_rows u p1 Hrest) as Hcreate;
      destruct (postgres.Create u p1) as [[[]|err'] p2]
    end; cbn [snd]; rewrite Hcreate, Hrows; [|exact Hroles].
    apply Forall_app. split; [exact Hroles|].
    constructor; [|constructor]. cbn [Role].
    exact (ensureRole_enumerated _ _ Hrole).
  - intros now id input. unfold user.Update.
    destruct (isEmpty (TrimSpace id)); [exact Hroles|].
    destruct (GetByID_undisturbed (TrimSpace id) p Hund) as [Hrows Hrest].
    destruct (GetByID (TrimSpace id) p) as [[found|err] p1] eqn:Hget;
      cbn [snd] in Hrows, Hrest; [|cbn [snd]; rewrite Hrows; exact Hroles].
    assert (Hfound : Role found = RoleUser \/ Role found = RoleAdmin).
    { unfold GetByID, QueryRow in Hget.
      destruct (begin_undisturbed p Hund) as [Hb _].
      destruct (begin p) as [[msg|] p0]; cbn [snd] in Hb; [discriminate|].
      destruct (find (sameID (TrimSpace id)) (users p0)) eqn:Hfind;
        cbn [scanOne] in Hget; [|discriminate].
      injection Hget as -> <-. apply find_some in Hfind as [Hin _].
      rewrite Hb in Hin. rewrite Forall_forall in Hroles.
      apply Hroles. apply list_elem_of_In. exact Hin. }
    destruct (user.setEmail input found) as [withEmail|err] eqn:Hemail;
      [|cbn [snd]; rewrite Hrows; exact Hroles].
    assert (Hwith : Role withEmail = Role found).
    { unfold user.setEmail in Hemail.
      destruct (user.Update_Email input); [|injection Hemail as <-; auto].
      destruct (isEmpty _); [discriminate|]. injection Hemail as <-.
      reflexivity. }
    destruct (user.setRole input (user.setName input withEmail))
      as [withRole|err] eqn:Hset;
      [|cbn [snd]; rewrite Hrows; exact Hroles].
    assert (Hnew : Role withRole = RoleUser \/ Role withRole = RoleAdmin).
    { unfold user.setRole in Hset. destruct (user.Update_Role input) as [r|].
      - destruct (user.ensureRole r true) as [role|err] eqn:Hrole;
          [|discriminate].
        injection Hset as <-. exact (ensureRole_enumerated _ _ Hrole).
      - injection Hset as <-. unfold user.setName.
        destruct (user.Update_Name input); cbn [Role]; rewrite Hwith;
          exact Hfound. }
    match goal with |- context [postgres.Update ?u p1] =>
      pose proof (Update_rows u p1 Hrest) as Hupd;
      destruct (postgres.Update u p1) as [[[]|err] p2]
    end; cbn [snd] in *; apply Forall_forall; intros r Hin;
      apply list_elem_of_In in Hin;
      (destruct (Hupd r Hin) as [Hold | Hrole];
       [rewrite Forall_forall in Hroles; apply Hroles;
        apply list_elem_of_In; rewrite <- Hrows; exact Hold
       |rewrite Hrole; exact Hnew]).
  - intros id. unfold user.Delete.
    destruct (isEmpty (TrimSpace id)); [exact Hroles|].
    apply Forall_forall. intros r Hin. apply list_elem_of_In in Hin.
    apply (Delete_rows _ p Hund) in Hin. rewrite Forall_forall in Hroles.
    apply Hroles. apply list_elem_of_In. exact Hin.
Qed.

End Administration.

Lemma unique_id (t : list User) (x y : User) :
  NoDup (map ID t) -> In x t -> In y t -> ID x = ID y -> x = y.
Proof.
  induction t as [|r t IH]; intros Hnd Hx Hy Heq; [contradiction|].
  cbn [map] in Hnd. apply NoDup_cons in Hnd as [Hr Hnd].
  assert (Hmap : forall z, In z t -> ID z ∈ map ID t).
  { intros z Hz. apply list_elem_of_In, in_map. exact Hz. }
  destruct Hx as [<- | Hx], Hy as [<- | Hy].
  - reflexivity.
  - exfalso. apply Hr. rewrite Heq. apply Hmap. exact Hy.
  - exfalso. apply Hr. rewrite <- Heq. apply Hmap. exact Hx.
  - exact (IH Hnd Hx Hy Heq).
Qed.

Lemma Update_frame (u : User) (p : Pool) :
  undisturbed (script p) ->
  map ID (users (snd (postgres.Update u p))) = map ID (users p) /\
  map PasswordHash (users (snd (postgres.Update u p)))
    = map PasswordHash (users p) /\
  map CreatedAt (users (snd (postgres.Update u p)))
    = map CreatedAt (users p).
Proof.
  intros Hund. unfold postgres.Update, ExecUpdate.
  destruct (begin_undisturbed p Hund) as [Hrows _].
  destruct (begin p) as [[msg|] p']; cbn [snd] in Hrows;
    [cbn; rewrite Hrows; auto|].
  destruct (List.filter (sameID (ID u)) (users p')) as [|hit hits];
    [cbn; rewrite Hrows; auto|].
  destruct (existsb _ (users p')); [cbn; rewrite Hrows; auto|].
  cbn [length snd users]. rewrite <- Hrows.
  repeat split; rewrite map_map; apply map_ext; intros r; unfold setRow;
    destruct (sameID (ID u) r); reflexivity.
Qed.

(** X14.  [Update] of the administration service, whatever its input and
    its outcome, adds no row, removes none, and changes no identifier, no
    password hash and no creation time (no commit of another request
    intervening). *)
Theorem update_keeps_identity_and_digest
    (now : Z) (id : string) (input : user.UpdateInput) (p : Pool) :
  undisturbed (script p) ->
  map ID (users (snd (user.Update now id input p))) = map ID (users p) /\
  map PasswordHash (users (snd (user.Update now id input p)))
    = map PasswordHash (users p) /\
  map CreatedAt (users (snd (user.Update now id input p)))
    = map CreatedAt (users p).
Proof.
  intros Hund. unfold user.Update.
  destruct (isEmpty (TrimSpace id)); [auto|].
  destruct (GetByID_undisturbed (TrimSpace id) p Hund) as [Hrows Hrest].
  destruct (GetByID (TrimSpace id) p) as [[found|err] p1];
    cbn [snd] in Hrows, Hrest; [|cbn [snd]; rewrite Hrows; auto].
  destruct (user.setEmail input found) as [withEmail|err];
    [|cbn [snd]; rewrite Hrows; auto].
  destruct (user.setRole input (user.setName input withEmail))
    as [withRole|err]; [|cbn [snd]; rewrite Hrows; auto].
  match goal with |- context [postgres.Update ?u p1] =>
    pose proof (Update_frame u p1 Hrest) as Hframe;
    destruct (postgres.Update u p1) as [[[]|err] p2]
  end; cbn [snd] in *; rewrite <- Hrows; exact Hframe.
Qed.

(** The row with its update time set. *)
Lemma Update_touch (now : Z) (row : User) (t : list User) :
  NoDup (map ID t) -> In row t ->
  map (setRow (mkUser (ID row) (Email row) (Name row) (Role row)
                      (PasswordHash row) (CreatedAt row) now)) t
  = map (fun r => if sameID (ID row) r
                  then mkUser (ID r) (Email r) (Name r) (Role r)
                              (PasswordHash r) (CreatedAt r) now
                  else r) t.
Proof.
  intros Hids Hin. apply map_ext_in. intros r Hr. unfold setRow. cbn [ID].
  destruct (sameID (ID row) r) eqn:Hsame; [|reflexivity].
  unfold sameID in Hsame. apply bool_decide_eq_true in Hsame.
  rewrite (unique_id t r row Hids Hr Hin Hsame). reflexivity.
Qed.

(** X15.  On a quiet, consistent store, [Update] with no field given, for
    the identifier of a row, succeeds and changes the update time of that
    row only: email, name and role stay as they are. *)
Theorem update_without_fields (now : Z) (id : string) (row : User) (p : Pool) :
  script p = [] -> consistent (users p) ->
  In row (users p) -> ID row = TrimSpace id -> TrimSpace id <> "" ->
  user.Update now id (user.mkUpdateInput None None None) p
  = (Ok (mkUser (ID row) (Email row) (Name row) (Role row) ""
                (CreatedAt row) now),
     mkPool (map (fun r => if sameID (ID row) r
                           then mkUser (ID r) (Email r) (Name r) (Role r)
                                       (PasswordHash r) (CreatedAt r) now
                           else r) (users p)) []).
Proof.
  intros Hq [Hids Hemails] Hin Hid Hne. unfold user.Update.
  rewrite (isEmpty_false _ Hne).
  destruct (find_sameID (users p) (TrimSpace id) row Hin Hid)
    as (found & Hfind & Hfound & Hfid).
  assert (found = row) as ->.
  { apply (unique_id (users p)); congruence. }
  rewrite (GetByID_found _ p row Hq Hfind).
  cbn [user.setEmail user.setName user.setRole
       user.Update_Email user.Update_Name user.Update_Role].
  cbn [ID Email Name Role PasswordHash CreatedAt UpdatedAt].
  rewrite (Update_existing
             (mkUser (ID row) (Email row) (Name row) (Role row)
                     (PasswordHash row) (CreatedAt row) now)
             row p Hq Hemails Hin eq_refl eq_refl).
  rewrite (Update_touch now row (users p) Hids Hin). reflexivity.
Qed.

(** X16.  [Update] does not look the new email up; the store refuses it:
    on a quiet store, changing the email of an account to the normalized
    email of another account fails with [ErrEmailExists] and leaves the
    store as it was. *)
Theorem update_email_taken
    (now : Z) (id email : string) (name : option string)
    (row other : User) (p : Pool) :
  script p = [] ->
  find (sameID (TrimSpace id)) (users p) = Some row ->
  TrimSpace id <> "" ->
  In other (users p) -> ID other <> ID row ->
  Email other = TrimSpace (ToLower email) -> Email other <> "" ->
  user.Update now id (user.mkUpdateInput (Some email) name None) p
  = (Err ErrEmailExists, p).
Proof.
  intros Hq Hfind Hne Hother Hdiff Hemail Hnonempty. unfold user.Update.
  rewrite (isEmpty_false _ Hne), (GetByID_found _ p row Hq Hfind).
  cbn [user.setEmail user.Update_Email]. rewrite <- Hemail.
  rewrite (isEmpty_false _ Hnonempty).
  cbn [user.setRole user.Update_Role].
  apply find_some in Hfind as [Hin Hid].
  unfold postgres.Update, ExecUpdate. rewrite (begin_quiet p Hq).
  assert (Hsame : ID (user.setName (user.mkUpdateInput (Some email) name None)
                        (mkUser (ID row) (Email other) (Name row) (Role row)
                                (PasswordHash row) (CreatedAt row)
                                (UpdatedAt row))) = ID row).
  { unfold user.setName. destruct name; reflexivity. }
  assert (Hmail : Email (user.setName
                           (user.mkUpdateInput (Some email) name None)
                        (mkUser (ID row) (Email other) (Name row) (Role row)
                                (PasswordHash row) (CreatedAt row)
                                (UpdatedAt row))) = Email other).
  { unfold user.setName. destruct name; reflexivity. }
  cbn [ID Email]. rewrite Hsame, Hmail.
  assert (Hhit : In row (List.filter (sameID (ID row)) (users p))).
  { apply filter_In. split; [exact Hin|]. unfold sameID.
    apply bool_decide_eq_true_2. reflexivity. }
  destruct (List.filter (sameID (ID row)) (users p)) as [|hit hits];
    [contradiction|].
  assert (Hclash : existsb (fun r => negb (sameID (ID row) r)
                                     && sameEmail (Email other) r)
                           (users p) = true).
  { apply existsb_exists. exists other. split; [exact Hother|].
    rewrite (sameID_false _ _ Hdiff). unfold sameEmail.
    rewrite bool_decide_eq_true_2 by reflexivity. reflexivity. }
  rewrite Hclash. reflexivity.
Qed.

Lemma insertDesc_Permutation (u : User) (l : list User) :
  Permutation (insertDesc u l) (u :: l).
Proof.
  induction l as [|r l IH]; [reflexivity|]. cbn [insertDesc].
  destruct (CreatedAt r <? CreatedAt u); [reflexivity|].
  rewrite IH. apply perm_swap.
Qed.

Lemma orderByCreatedAtDesc_Permutation (l : list User) :
  Permutation (orderByCreatedAtDesc l) l.
Proof.
  induction l as [|r l IH]; [reflexivity|].
  cbn [orderByCreatedAtDesc fold_right].
  fold (orderByCreatedAtDesc l). rewrite insertDesc_Permutation, IH.
  reflexivity.
Qed.

Lemma insertDesc_sorted (u : User) (l : list User) :
  StronglySorted (fun a b => CreatedAt b <= CreatedAt a) l ->
  StronglySorted (fun a b => CreatedAt b <= CreatedAt a) (insertDesc u l).
Proof.
  induction l as [|r l IH]; intros Hs; cbn [insertDesc].
  - repeat constructor.
  - apply StronglySorted_inv in Hs as [Hs Hr].
    destruct (Z.ltb_spec (CreatedAt r) (CreatedAt u)) as [Hlt | Hge].
    + constructor; [constructor; assumption|]. constructor; [lia|].
      rewrite Forall_forall in Hr |- *. intros x Hx.
      specialize (Hr x Hx). cbn in Hr. lia.
    + constructor; [exact (IH Hs)|].
      rewrite Forall_forall in Hr |- *. intros x Hx.
      apply list_elem_of_In in Hx.
      apply (Permutation_in _ (insertDesc_Permutation u l)) in Hx.
      destruct Hx as [<- | Hx]; [exact Hge|].
      apply Hr. apply list_elem_of_In. exact Hx.
Qed.

Lemma orderByCreatedAtDesc_sorted (l : list User) :
  StronglySorted (fun a b => CreatedAt b <= CreatedAt a)
                 (orderByCreatedAtDesc l).
Proof.
  induction l as [|r l IH]; [constructor|].
  cbn [orderByCreatedAtDesc fold_right]. apply insertDesc_sorted. exact IH.
Qed.

Lemma sanitized_sorted (l : list User) :
  StronglySorted (fun a b => CreatedAt b <= CreatedAt a) l ->
  StronglySorted (fun a b => CreatedAt b <= CreatedAt a)
                 (map user.sanitizeUser l).
Proof.
  induction l as [|r l IH]; intros Hs; [constructor|].
  apply StronglySorted_inv in Hs as [Hs Hr]. cbn [map].
  constructor; [exact (IH Hs)|].
  rewrite Forall_forall in Hr |- *. intros x Hx.
  apply list_elem_of_In, in_map_iff in Hx as (y & <- & Hy).
  apply (Hr y). apply list_elem_of_In. exact Hy.
Qed.

Lemma List_quiet (filter : UserFilter) (p : Pool) :
  script p = [] ->
  postgres.List filter p =
    (Ok (orderByCreatedAtDesc
           (if isEmpty (filter_Role filter) then users p
            else List.filter
                   (fun r => bool_decide (Role r = filter_Role filter))
                   (users p))), p).
Proof.
  intros Hq. unfold postgres.List, Query. rewrite (begin_quiet p Hq).
  reflexivity.
Qed.

(** X17.  On a quiet store, [List] returns the accounts without their
    digests, the most recently created first: all of them when the filter
    is empty once normalized, those of the role when it is [user] or
    [admin] in any letter case.  For any other filter of ASCII bytes it
    answers [ErrInvalidRole]. *)
Theorem list_sorted_and_filtered (filter : user.Filter) (p : Pool) :
  script p = [] ->
  (TrimSpace (ToLower (user.Filter_Role filter)) = "" ->
   exists l,
     user.List filter p = (Ok l, p) /\
     Permutation l (map user.sanitizeUser (users p)) /\
     StronglySorted (fun a b => CreatedAt b <= CreatedAt a) l) /\
  (forall role,
     TrimSpace (ToLower (user.Filter_Role filter)) = role ->
     role = RoleUser \/ role = RoleAdmin ->
     exists l,
       user.List filter p = (Ok l, p) /\
       Permutation l
         (map user.sanitizeUser
            (List.filter (fun r => bool_decide (Role r = role)) (users p))) /\
       StronglySorted (fun a b => CreatedAt b <= CreatedAt a) l) /\
  (isASCII (user.Filter_Role filter) = true ->
   TrimSpace (ToLower (user.Filter_Role filter)) <> "" ->
   TrimSpace (ToLower (user.Filter_Role filter)) <> RoleUser ->
   TrimSpace (ToLower (user.Filter_Role filter)) <> RoleAdmin ->
   user.List filter p = (Err ErrInvalidRole, p)).
Proof.
  intros Hq. unfold user.List. split; [|split].
  - intros ->. cbn [isEmpty negb]. rewrite (List_quiet _ p Hq).
    cbn [filter_Role isEmpty]. eexists. split; [reflexivity|].
    rewrite sanitizeUsers_map. split.
    + apply Permutation_map, orderByCreatedAtDesc_Permutation.
    + apply sanitized_sorted, orderByCreatedAtDesc_sorted.
  - intros role -> Hrole.
    assert (Hensure : isEmpty role = false /\
                      user.ensureRole role false = Ok role).
    { destruct Hrole as [-> | ->]; split; reflexivity. }
    destruct Hensure as [Hne Hensure]. rewrite Hne, Hensure. cbn [negb].
    rewrite (List_quiet _ p Hq). cbn [filter_Role]. rewrite Hne.
    eexists. split; [reflexivity|]. rewrite sanitizeUsers_map. split.
    + apply Permutation_map, orderByCreatedAtDesc_Permutation.
    + apply sanitized_sorted, orderByCreatedAtDesc_sorted.
  - intros _ Hne Huser Hadmin. rewrite (isEmpty_false _ Hne). cbn [negb].
    unfold user.ensureRole. rewrite normalized_email_fixed.
    rewrite (isEmpty_false _ Hne).
    rewrite (bool_decide_eq_false_2 _ Huser).
    rewrite (bool_decide_eq_false_2 _ Hadmin). reflexivity.
Qed.

(** ** The HTTP layer *)

Lemma ToLower_app (a b : string) : ToLower (a ++ b) = ToLower a ++ ToLower b.
Proof.
  induction a as [|c a IH]; [reflexivity|].
  change (String c a ++ b) with (String c (a ++ b)). cbn [ToLower].
  rewrite IH. reflexivity.
Qed.

Lemma prefix_app (a b : string) : String.prefix a (a ++ b) = true.
Proof.
  induction a as [|c a IH]; [destruct b; reflexivity|].
  change (String c a ++ b) with (String c (a ++ b)). cbn [String.prefix].
  destruct (ascii_dec c c); [exact IH|contradiction].
Qed.

Lemma sliceFrom_app (a b : string) : sliceFrom (String.length a) (a ++ b) = b.
Proof.
  induction a as [|c a IH]; [reflexivity|].
  change (String c a ++ b) with (String c (a ++ b)). exact IH.
Qed.

(** X18.  [extractBearerToken] of [Bearer ], in any letter case, followed
    by a token of ASCII bytes is the token without the spaces around it;
    and whatever the header, what it returns has no space at either end. *)
Theorem bearer_token_extracted (scheme tok header : string) :
  (ToLower scheme = "bearer " -> isASCII tok = true ->
   extractBearerToken (scheme ++ tok) = TrimSpace tok) /\
  TrimSpace (extractBearerToken header) = extractBearerToken header.
Proof.
  split.
  - intros Hscheme _. unfold extractBearerToken.
    assert (Hlen : String.length scheme = 7%nat).
    { rewrite <- ToLower_length, Hscheme. reflexivity. }
    assert (Hne : isEmpty (scheme ++ tok) = false).
    { destruct scheme; [discriminate Hlen|reflexivity]. }
    rewrite Hne. unfold HasPrefix. rewrite ToLower_app, Hscheme.
    rewrite prefix_app. cbn [negb]. rewrite <- Hlen, sliceFrom_app.
    reflexivity.
  - unfold extractBearerToken. destruct (isEmpty header); [reflexivity|].
    destruct (negb (HasPrefix (ToLower header) "bearer ")); [reflexivity|].
    apply TrimSpace_idempotent.
Qed.

Section Gate.
Context `{jwt.Library}.
Variable tokens : token.JWTManager.


End Gate.

(** X22.  [DELETE] on [/admin/users/{id}/role], from an admin, for the
    identifier of a row of a quiet, consistent store, reads no body and sets
    the role of that row back to [user]: the answer is 200 with the
    account, and the store holds the row with that role and the update
    time of the call. *)
Theorem admin_delete_resets_role
    (now : Z) (userID : string) (r : Request) (p : Pool) (admin row : User) :
  Method r = "DELETE" ->
  ctxUser r = Some admin -> Role admin = RoleAdmin ->
  script p = [] -> consistent (users p) ->
  In row (users p) -> ID row = TrimSpace userID -> TrimSpace userID <> "" ->
  handleAdminUserRole now userID r p
  = (writeJSON StatusOK
       (userValue (mkUser (ID row) (Email row) (Name row) RoleUser ""
                          (CreatedAt row) now)),
     mkPool (map (setRow (mkUser (ID row) (Email row) (Name row) RoleUser
                                 (PasswordHash row) (CreatedAt row) now))
                 (users p)) []).
Proof.
  intros Hmethod Hctx Hadmin Hq [Hids Hemails] Hin Hid Hne.
  unfold handleAdminUserRole, isMethod. rewrite Hmethod.
  rewrite (bool_decide_eq_false_2 ("DELETE" ∈ ["GET"])) by
    (rewrite list_elem_of_In; cbn [In]; intros [Heq | []]; discriminate Heq).
  rewrite (bool_decide_eq_false_2 ("DELETE" ∈ ["PUT"; "PATCH"])) by
    (rewrite list_elem_of_In; cbn [In];
     intros [Heq | [Heq | []]]; discriminate Heq).
  rewrite (bool_decide_eq_true_2 ("DELETE" ∈ ["DELETE"])) by
    (apply list_elem_of_In; left; reflexivity).
  unfold requireAdmin, currentUserFromContext. rewrite Hctx.
  rewrite (bool_decide_eq_true_2 _ Hadmin). cbn [negb].
  unfold user.Update. rewrite (isEmpty_false _ Hne).
  destruct (find_sameID (users p) (TrimSpace userID) row Hin Hid)
    as (found & Hfind & Hfound & Hfid).
  assert (found = row) as ->.
  { apply (unique_id (users p)); congruence. }
  rewrite (GetByID_found _ p row Hq Hfind).
  cbn [user.setEmail user.setName user.setRole
       user.Update_Email user.Update_Name user.Update_Role].
  change (user.ensureRole RoleUser true) with (Ok RoleUser : result UserRole).
  cbn [ID Email Name Role PasswordHash CreatedAt UpdatedAt].
  rewrite (Update_existing
             (mkUser (ID row) (Email row) (Name row) RoleUser
                     (PasswordHash row) (CreatedAt row) now)
             row p Hq Hemails Hin eq_refl eq_refl).
  reflexivity.
Qed.

(** ** The administration routes *)

Lemma requireAdmin_closed (r : Request) :
  (forall u, ctxUser r = Some u -> Role u <> RoleAdmin) ->
  exists w, requireAdmin r = Some w /\
    (status w = StatusUnauthorized \/ status w = StatusForbidden).
Proof.
  intros Hnot. unfold requireAdmin, currentUserFromContext.
  destruct (ctxUser r) as [u|];
    [|eexists; split; [reflexivity|left; reflexivity]].
  rewrite (bool_decide_eq_false_2 _ (Hnot u eq_refl)).
  eexists. split; [reflexivity|right; reflexivity].
Qed.

Lemma handleAdminUserRole_closed (now : Z) (id : string) (r : Request)
    (p : Pool) :
  (forall u, ctxUser r = Some u -> Role u <> RoleAdmin) ->
  snd (handleAdminUserRole now id r p) = p /\
  (status (fst (handleAdminUserRole now id r p)) = StatusUnauthorized \/
   status (fst (handleAdminUserRole now id r p)) = StatusForbidden \/
   status (fst (handleAdminUserRole now id r p)) = StatusMethodNotAllowed).
Proof.
  intros Hnot. destruct (requireAdmin_closed r Hnot) as (w & Hw & Hstatus).
  unfold handleAdminUserRole. rewrite Hw.
  repeat (destruct (isMethod r _)); cbn [fst snd];
    (split; [reflexivity|]); try tauto; right; right; reflexivity.
Qed.

Section AdminRoutes.
Context `{bcrypt.Hasher}.

(** X20.  The administration routes are closed to everyone but admins:
    for a request with no principal or with a principal that is not an
    admin, [handleAdminUsers], [handleAdminUserByID] and
    [handleAdminUserRole] answer with an error status (401 or 403 once the
    method and the path are accepted) and run no statement on the store,
    whatever the method, the path and the body. *)
Theorem admin_routes_closed
    (now : Z) (uuid salt id : string) (r : AdminRequest) (p : Pool) :
  (forall u, ctxUser (base r) = Some u -> Role u <> RoleAdmin) ->
  (snd (handleAdminUsers now uuid salt r p) = p /\
   In (code (fst (handleAdminUsers now uuid salt r p)))
      [StatusUnauthorized; StatusForbidden; StatusMethodNotAllowed]) /\
  (snd (handleAdminUserByID now r p) = p /\
   In (code (fst (handleAdminUserByID now r p)))
      [StatusBadRequest; StatusNotFound;
       StatusUnauthorized; StatusForbidden; StatusMethodNotAllowed]) /\
  (snd (handleAdminUserRole now id (base r) p) = p /\
   In (status (fst (handleAdminUserRole now id (base r) p)))
      [StatusUnauthorized; StatusForbidden; StatusMethodNotAllowed]).
Proof.
  intros Hnot.
  destruct (requireAdmin_closed (base r) Hnot) as (w & Hw & Hstatus).
  assert (Hrole : forall id',
            snd (handleAdminUserRole now id' (base r) p) = p /\
            In (status (fst (handleAdminUserRole now id' (base r) p)))
               [StatusUnauthorized; StatusForbidden; StatusMethodNotAllowed]).
  { intros id'.
    destruct (handleAdminUserRole_closed now id' (base r) p Hnot)
      as [Hp Hs].
    split; [exact Hp|]. cbn [In]. intuition congruence. }
  split; [|split].
  - unfold handleAdminUsers. rewrite Hw.
    repeat (destruct (isMethod (base r) _)); cbn [fst snd replyOf code];
      (split; [reflexivity|]); cbn [In]; try (intuition congruence);
      right; right; left; reflexivity.
  - unfold handleAdminUserByID.
    destruct (isEmpty (Trim _ _)); [split; [reflexivity|left; reflexivity]|].
    destruct (isEmpty (TrimSpace (hd _ _)));
      [split; [reflexivity|left; reflexivity]|].
    destruct (tl (Split _ _)) as [|segment rest].
    + rewrite Hw.
      repeat (destruct (isMethod (base r) _)); cbn [fst snd replyOf code];
        (split; [reflexivity|]); cbn [In]; try (intuition congruence);
        do 4 right; left; reflexivity.
    + destruct (bool_decide (TrimSpace segment = "role"));
        [|split; [reflexivity|right; left; reflexivity]].
      match goal with |- context [handleAdminUserRole now ?i (base r) p] =>
        destruct (Hrole i) as [Hp Hs];
        destruct (handleAdminUserRole now i (base r) p) as [w' p'']
      end.
      cbn [fst snd replyOf code] in *. split; [exact Hp|].
      cbn [In] in *. intuition congruence.
  - exact (Hrole id).
Qed.

End AdminRoutes.

(** *** Paths *)

Lemma TrimPrefix_app (a b : string) : TrimPrefix (a ++ b) a = b.
Proof.
  unfold TrimPrefix, HasPrefix. rewrite prefix_app. apply sliceFrom_app.
Qed.

Lemma trimmed_leading (s : string) : TrimSpace s = s -> leadingSpace s = false.
Proof.
  intros <-. apply TrimRightSpace_leading, TrimLeftSpace_leading.
Qed.

Lemma isEmpty_app (a b : string) : isEmpty b = false -> isEmpty (a ++ b) = false.
Proof. destruct a; [intros Hb; exact Hb|reflexivity]. Qed.

Lemma TrimRightSpace_app (a b : string) :
  TrimRightSpace b = b -> isEmpty b = false -> TrimRightSpace (a ++ b) = a ++ b.
Proof.
  intros Hb Hne. induction a as [|c a IH]; [exact Hb|].
  change (String c a ++ b) with (String c (a ++ b)). cbn [TrimRightSpace].
  rewrite IH, (isEmpty_app a b Hne), andb_false_r. reflexivity.
Qed.

Lemma TrimSpace_app (a b : string) :
  TrimSpace a = a -> isEmpty a = false ->
  TrimRightSpace b = b -> isEmpty b = false ->
  TrimSpace (a ++ b) = a ++ b.
Proof.
  intros Ha Hne Hb Hbne. unfold TrimSpace.
  rewrite (TrimLeftSpace_fixed (a ++ b)).
  - apply TrimRightSpace_app; assumption.
  - pose proof (trimmed_leading a Ha) as Hlead.
    destruct a; [discriminate Hne|exact Hlead].
Qed.

Lemma inCutset_slash (c : ascii) :
  c <> "/"%char -> inCutset "/" c = false.
Proof.
  intros Hne. unfold inCutset. cbn [list_ascii_of_string existsb].
  rewrite orb_false_r. apply Ascii.eqb_neq. exact Hne.
Qed.

Lemma TrimRight_app (a b cutset : string) :
  TrimRight b cutset = b -> isEmpty b = false ->
  TrimRight (a ++ b) cutset = a ++ b.
Proof.
  intros Hb Hne. induction a as [|c a IH]; [exact Hb|].
  change (String c a ++ b) with (String c (a ++ b)). cbn [TrimRight].
  rewrite IH, (isEmpty_app a b Hne), andb_false_r. reflexivity.
Qed.

Lemma TrimRight_clean (a : string) :
  (forall c, In c (list_ascii_of_string a) -> c <> "/"%char) ->
  TrimRight a "/" = a.
Proof.
  induction a as [|c a IH]; intros Hclean; [reflexivity|].
  cbn [TrimRight]. rewrite (inCutset_slash c).
  - rewrite IH; [reflexivity|]. intros c' Hin. apply Hclean. right. exact Hin.
  - apply Hclean. left. reflexivity.
Qed.

Lemma TrimLeft_clean (a b : string) :
  isEmpty a = false ->
  (forall c, In c (list_ascii_of_string a) -> c <> "/"%char) ->
  TrimLeft (a ++ b) "/" = a ++ b.
Proof.
  destruct a as [|c a]; [discriminate|]. intros _ Hclean.
  change (String c a ++ b) with (String c (a ++ b)). cbn [TrimLeft].
  rewrite (inCutset_slash c); [reflexivity|]. apply Hclean. left. reflexivity.
Qed.

Lemma TrimLeft_clean_all (a : string) :
  (forall c, In c (list_ascii_of_string a) -> c <> "/"%char) ->
  TrimLeft a "/" = a.
Proof.
  destruct a as [|c a]; [reflexivity|]. intros Hclean. cbn [TrimLeft].
  rewrite (inCutset_slash c); [reflexivity|]. apply Hclean. left. reflexivity.
Qed.

Lemma Split_clean (a : string) (sep : ascii) :
  (forall c, In c (list_ascii_of_string a) -> c <> sep) ->
  Split a sep = [a].
Proof.
  induction a as [|c a IH]; intros Hclean; [reflexivity|]. cbn [Split].
  assert (Hc : Ascii.eqb c sep = false).
  { apply Ascii.eqb_neq. apply Hclean. left. reflexivity. }
  rewrite Hc, IH; [reflexivity|].
  intros c' Hin. apply Hclean. right. exact Hin.
Qed.

Lemma Split_app (a b : string) (sep : ascii) :
  (forall c, In c (list_ascii_of_string a) -> c <> sep) ->
  Split (a ++ String sep b) sep = a :: Split b sep.
Proof.
  induction a as [|c a IH]; intros Hclean.
  - change ("" ++ String sep b) with (String sep b). cbn [Split].
    rewrite Ascii.eqb_refl. reflexivity.
  - change (String c a ++ String sep b) with (String c (a ++ String sep b)).
    cbn [Split].
    assert (Hc : Ascii.eqb c sep = false).
    { apply Ascii.eqb_neq. apply Hclean. left. reflexivity. }
    rewrite Hc, IH; [reflexivity|].
    intros c' Hin. apply Hclean. right. exact Hin.
Qed.

(** X23.  For an identifier of ASCII bytes with no slash in it and no space
    around it, [handleAdminUserByID] passes the path [/admin/users/{id}/role] on to
    [handleAdminUserRole] with that identifier, and on [/admin/users/{id}]
    a [GET] from an admin answers with what [Get] of the service returns
    for that identifier.  The bare path [/admin/users/] is answered 400
    with no statement run. *)
Theorem admin_path_routing (now : Z) (r : AdminRequest) (p : Pool) (id : string) :
  isASCII id = true -> TrimSpace id = id -> id <> "" ->
  (forall c, In c (list_ascii_of_string id) -> c <> "/"%char) ->
  (Path r = "/admin/users/" ++ id ++ "/role" ->
   handleAdminUserByID now r p
   = (replyOf (fst (handleAdminUserRole now id (base r) p)),
      snd (handleAdminUserRole now id (base r) p))) /\
  (Path r = "/admin/users/" ++ id ->
   Method (base r) = "GET" -> requireAdmin (base r) = None ->
   handleAdminUserByID now r p
   = match user.Get id p with
     | (Ok user, p') => (replyOf (writeJSON StatusOK (userValue user)), p')
     | (Err err, p') =>
         (replyOf (writeError
                     (if errorsIs err ErrUserNotFound
                      then StatusNotFound else StatusBadRequest)
                     (Error err)), p')
     end) /\
  (Path r = "/admin/users/" ->
   handleAdminUserByID now r p
   = (replyOf (writeError StatusBadRequest "user id required"), p)).
Proof.
  intros _ Htrim Hne Hclean.
  assert (Hnonempty : isEmpty id = false) by exact (isEmpty_false _ Hne).
  split; [|split].
  - intros Hpath. unfold handleAdminUserByID. rewrite Hpath, TrimPrefix_app.
    rewrite (TrimSpace_app id "/role" Htrim Hnonempty eq_refl eq_refl).
    unfold Trim. rewrite (TrimLeft_clean id "/role" Hnonempty Hclean).
    rewrite (TrimRight_app id "/role" "/" eq_refl eq_refl).
    rewrite (isEmpty_app id "/role" eq_refl).
    change (id ++ "/role") with (id ++ String "/" "role").
    rewrite (Split_app id "role" "/" Hclean). cbn [hd tl].
    rewrite Htrim, Hnonempty.
    change (Split "role" "/") with ["role"].
    change (bool_decide (TrimSpace "role" = "role")) with true. cbn iota.
    destruct (handleAdminUserRole now id (base r) p). reflexivity.
  - intros Hpath Hget Hadmin. unfold handleAdminUserByID.
    rewrite Hpath, TrimPrefix_app, Htrim. unfold Trim.
    rewrite (TrimLeft_clean_all id Hclean).
    rewrite (TrimRight_clean id Hclean), Hnonempty.
    rewrite (Split_clean id "/" Hclean). cbn [hd tl].
    rewrite Htrim, Hnonempty. unfold isMethod. rewrite Hget.
    rewrite (bool_decide_eq_true_2 ("GET" ∈ ["GET"])) by
      (apply list_elem_of_In; left; reflexivity).
    rewrite Hadmin.
    destruct (user.Get id p) as [[u|err] p']; [reflexivity|].
    destruct (errorsIs err ErrUserNotFound); reflexivity.
  - intros Hpath. unfold handleAdminUserByID. rewrite Hpath. reflexivity.
Qed.

(** ** The CORS middleware *)

Lemma isOriginAllowed_spec (origin : string) (allowed : list string) :
  cors.isOriginAllowed origin allowed = true <->
  In "*" allowed \/
  exists candidate, In candidate allowed /\ ToLower candidate = ToLower origin.
Proof.
  induction allowed as [|candidate rest IH]; cbn [cors.isOriginAllowed In].
  - split; [discriminate|]. intros [[] | (c & [] & _)].
  - destruct (bool_decide (candidate = "*")) eqn:Hstar.
    + apply bool_decide_eq_true in Hstar. split; [auto|reflexivity].
    + apply bool_decide_eq_false in Hstar. unfold EqualFold.
      destruct (bool_decide (ToLower candidate = ToLower origin)) eqn:Hfold.
      * apply bool_decide_eq_true in Hfold. split; [|reflexivity].
        intros _. right. exists candidate. auto.
      * apply bool_decide_eq_false in Hfold. rewrite IH. split.
        -- intros [Hin | (c & Hin & Hc)]; [auto|]. right. exists c. auto.
        -- intros [[Heq | Hin] | (c & [Heq | Hin] & Hc)].
           ++ contradiction.
           ++ auto.
           ++ subst c. contradiction.
           ++ right. exists c. auto.
Qed.

(** X24.  For an origin and allowed origins of ASCII bytes, [withCORS]
    answers an [OPTIONS] request itself, with 204, and serves every other
    request through the next handler.  Starting from no header, the
    response carries [Access-Control-Allow-Origin] in two cases
    only: the origin of the request, when it is not empty and the list has
    [*] or that origin in some letter case; or [*], when the request has no
    origin and the list is exactly [*]. *)
Theorem cors_origin_policy {A : Type} (next : gmap string string -> A)
    (allowed : list string) (origin method : string) :
  isASCII origin = true ->
  Forall (fun candidate => isASCII candidate = true) allowed ->
  exists headers : gmap string string,
    cors.withCORS next allowed origin method ∅
      = (if bool_decide (method = "OPTIONS") then cors.wrote 204 headers
         else cors.served (next headers)) /\
    (forall v, headers !! "Access-Control-Allow-Origin" = Some v <->
       (v = origin /\ origin <> "" /\
        (In "*" allowed \/
         exists candidate,
           In candidate allowed /\ ToLower candidate = ToLower origin)) \/
       (v = "*" /\ origin = "" /\ allowed = ["*"])).
Proof.
  intros _ _. unfold cors.withCORS. eexists. split; [reflexivity|]. intros v.
  rewrite lookup_insert_ne by discriminate.
  rewrite lookup_insert_ne by discriminate.
  destruct (isEmpty origin) eqn:Hempty; cbn [negb andb].
  - apply isEmpty_true in Hempty. subst origin.
    destruct (bool_decide (allowed = ["*"])) eqn:Honly.
    + apply bool_decide_eq_true in Honly. rewrite lookup_insert_eq. split.
      * intros [= <-]. right. auto.
      * intros [(_ & Hne & _) | (-> & _)]; [contradiction|reflexivity].
    + apply bool_decide_eq_false in Honly. rewrite lookup_empty. split.
      * discriminate.
      * intros [(_ & Hne & _) | (_ & _ & Heq)]; contradiction.
  - assert (Hne : origin <> "").
    { intros ->. discriminate Hempty. }
    destruct (cors.isOriginAllowed origin allowed) eqn:Hallowed.
    + apply isOriginAllowed_spec in Hallowed.
      rewrite lookup_insert_ne by discriminate. rewrite lookup_insert_eq.
      split.
      * intros [= <-]. left. auto.
      * intros [(-> & _) | (_ & Heq & _)]; [reflexivity|contradiction].
    + assert (Hnot : ~ (In "*" allowed \/
                exists candidate, In candidate allowed /\
                  ToLower candidate = ToLower origin)).
      { rewrite <- isOriginAllowed_spec, Hallowed. discriminate. }
      assert (Hlist : allowed <> ["*"]).
      { intros ->. apply Hnot. left. left. reflexivity. }
      rewrite (bool_decide_eq_false_2 _ Hlist), lookup_empty. split.
      * discriminate.
      * intros [(_ & _ & Hin) | (_ & Heq & _)]; contradiction.
Qed.

(** ** Configuration *)

Lemma splitCSV_loop (pieces acc : list string) :
  fold_left
    (fun parts part =>
       if negb (isEmpty (TrimSpace part))
       then (parts ++ [TrimSpace part])%list else parts)
    pieces acc
  = (acc ++ List.filter (fun part => negb (isEmpty part))
                        (map TrimSpace pieces))%list.
Proof.
  revert acc. induction pieces as [|piece pieces IH]; intros acc.
  - cbn. rewrite app_nil_r. reflexivity.
  - cbn [fold_left map List.filter]. rewrite IH.
    destruct (negb (isEmpty (TrimSpace piece))); [|reflexivity].
    rewrite <- app_assoc. reflexivity.
Qed.

Lemma TrimLeftSpace_bytes (s : string) (c : ascii) :
  In c (list_ascii_of_string (TrimLeftSpace s)) ->
  In c (list_ascii_of_string s).
Proof.
  induction s as [|c' s IH]; [auto|]. cbn [TrimLeftSpace].
  destruct (asciiSpace c'); [|auto]. intros Hin. right. exact (IH Hin).
Qed.

Lemma TrimRightSpace_bytes (s : string) (c : ascii) :
  In c (list_ascii_of_string (TrimRightSpace s)) ->
  In c (list_ascii_of_string s).
Proof.
  induction s as [|c' s IH]; [auto|]. cbn [TrimRightSpace].
  destruct (asciiSpace c' && isEmpty (TrimRightSpace s)); [intros []|].
  cbn [list_ascii_of_string In]. intros [Heq | Hin]; [auto|].
  right. exact (IH Hin).
Qed.

Lemma TrimSpace_bytes (s : string) (c : ascii) :
  In c (list_ascii_of_string (TrimSpace s)) -> In c (list_ascii_of_string s).
Proof.
  intros Hin. apply TrimLeftSpace_bytes, TrimRightSpace_bytes. exact Hin.
Qed.

Lemma Split_pieces (s : string) (sep : ascii) :
  Forall (fun piece => ~ In sep (list_ascii_of_string piece)) (Split s sep).
Proof.
  induction s as [|c s IH]; cbn [Split].
  - constructor; [intros []|constructor].
  - destruct (Ascii.eqb_spec c sep) as [Heq | Hne].
    + constructor; [intros []|exact IH].
    + destruct (Split s sep) as [|piece pieces];
        [constructor; [|constructor]|].
      * cbn. intros [Heq | []]. contradiction.
      * apply Forall_cons in IH as [Hpiece Hrest]. constructor; [|exact Hrest].
        cbn [list_ascii_of_string In]. intros [Heq | Hin]; contradiction.
Qed.

(** X25.  [splitCSV] of a value of ASCII bytes returns the pieces between
    the commas, trimmed, those that are blank left out, in their order, and
    the single entry [*] when none is left.  Whatever the value, the list is
    never empty, and no entry is empty, has a space at either end or has a
    comma in it. *)
Theorem splitCSV_entries (value : string) :
  (isASCII value = true ->
   config.splitCSV value
   = match List.filter (fun part => negb (isEmpty part))
                       (map TrimSpace (Split value ","%char)) with
     | [] => ["*"]
     | part :: parts => part :: parts
     end) /\
  config.splitCSV value <> [] /\
  Forall (fun part => part <> "" /\ TrimSpace part = part /\
                      ~ In ","%char (list_ascii_of_string part))
         (config.splitCSV value).
Proof.
  unfold config.splitCSV. rewrite splitCSV_loop. cbn [app].
  destruct (List.filter _ (map TrimSpace (Split value ","))) as [|part parts]
    eqn:Hparts; (split; [reflexivity|]).
  - split; [discriminate|]. constructor; [|constructor].
    split; [discriminate|]. split; [reflexivity|].
    cbn. intros [Heq | []]. discriminate Heq.
  - split; [discriminate|]. rewrite <- Hparts. apply Forall_forall.
    intros x Hx. apply list_elem_of_In, filter_In in Hx as [Hx Hne].
    apply in_map_iff in Hx as (piece & <- & Hpiece).
    split; [|split].
    + intros Heq. rewrite Heq in Hne. discriminate Hne.
    + apply TrimSpace_idempotent.
    + intros Hin. apply TrimSpace_bytes in Hin.
      pose proof (Split_pieces value ","%char) as Hclean.
      rewrite Forall_forall in Hclean.
      exact (Hclean piece (proj2 (list_elem_of_In _ _) Hpiece) Hin).
Qed.

Lemma prefix_split (a s : string) :
  String.prefix a s = true -> s = a ++ sliceFrom (String.length a) s.
Proof.
  revert s. induction a as [|c a IH]; intros s; [reflexivity|].
  destruct s as [|c' s]; [discriminate|]. cbn [String.prefix].
  destruct (ascii_dec c c') as [<- | _]; [|discriminate].
  intros Hp. cbn [String.length sliceFrom].
  change (String c a ++ sliceFrom (String.length a) s)
    with (String c (a ++ sliceFrom (String.length a) s)).
  rewrite <- (IH s Hp). reflexivity.
Qed.

Lemma TrimRightSpace_tail (c : ascii) (s : string) :
  TrimRightSpace (String c s) = String c s -> TrimRightSpace s = s.
Proof.
  cbn [TrimRightSpace].
  destruct (asciiSpace c && isEmpty (TrimRightSpace s)); [discriminate|].
  intros [= Heq]. exact Heq.
Qed.

Lemma TrimRightSpace_suffix (a b : string) :
  TrimRightSpace (a ++ b) = a ++ b -> TrimRightSpace b = b.
Proof.
  induction a as [|c a IH]; [auto|].
  change (String c a ++ b) with (String c (a ++ b)).
  intros Heq. apply IH, (TrimRightSpace_tail c). exact Heq.
Qed.

Lemma TrimRightSpace_TrimSpace (s : string) : TrimSpace s = s -> TrimRightSpace s = s.
Proof. intros <-. unfold TrimSpace. apply TrimRightSpace_idempotent. Qed.

Lemma coerced_scheme (rest : string) :
  TrimSpace ("postgresql://" ++ rest) = "postgresql://" ++ rest ->
  TrimSpace ("postgres://" ++ rest) = "postgres://" ++ rest.
Proof.
  intros Htrim. apply TrimRightSpace_TrimSpace, TrimRightSpace_suffix in Htrim.
  destruct rest as [|c rest]; [reflexivity|].
  unfold TrimSpace. rewrite TrimLeftSpace_fixed by reflexivity.
  apply TrimRightSpace_app; [exact Htrim|reflexivity].
Qed.

Lemma coerce_trimmed (r : string) :
  TrimSpace r = r ->
  (config.coerceDatabaseURL r = "" \/
   HasPrefix (config.coerceDatabaseURL r) "postgres://" = true) /\
  HasPrefix (config.coerceDatabaseURL r) "postgresql://" = false /\
  TrimSpace (config.coerceDatabaseURL r) = config.coerceDatabaseURL r.
Proof.
  intros Htrim. unfold config.coerceDatabaseURL. rewrite Htrim.
  destruct (isEmpty r) eqn:Hempty; [auto|].
  unfold config.normalisePostgresScheme.
  destruct (HasPrefix r "postgresql://") eqn:Hlong.
  - rewrite orb_true_r. unfold HasPrefix in Hlong.
    apply prefix_split in Hlong. unfold TrimPrefix, HasPrefix.
    remember (sliceFrom (String.length "postgresql://") r) as rest eqn:Hrest.
    clear Hrest Hempty. subst r. rewrite prefix_app.
    split; [right; apply prefix_app|]. split; [|exact (coerced_scheme rest Htrim)].
    vm_compute. reflexivity.
  - rewrite orb_false_r.
    destruct (HasPrefix r "postgres://") eqn:Hshort; [|auto].
    split; [right; exact Hshort|]. split; [exact Hlong|exact Htrim].
Qed.

Lemma coerce_TrimSpace (raw : string) :
  config.coerceDatabaseURL (TrimSpace raw) = config.coerceDatabaseURL raw.
Proof.
  unfold config.coerceDatabaseURL. rewrite TrimSpace_idempotent. reflexivity.
Qed.

Lemma coerce_fixed (r : string) :
  TrimSpace r = r -> HasPrefix r "postgres://" = true ->
  config.coerceDatabaseURL r = r.
Proof.
  intros Htrim Hshort. unfold config.coerceDatabaseURL. rewrite Htrim, Hshort.
  destruct r as [|c r]; [discriminate Hshort|]. cbn [isEmpty orb].
  unfold config.normalisePostgresScheme.
  destruct (HasPrefix (String c r) "postgresql://") eqn:Hlong; [|reflexivity].
  unfold HasPrefix in *. apply prefix_split in Hlong. rewrite Hlong in Hshort.
  discriminate Hshort.
Qed.

(** X26.  What [coerceDatabaseURL] returns is empty or starts with
    [postgres://], never with [postgresql://]; it has no space at either
    end, and the function leaves it as it is. *)
Theorem coerce_database_url (raw : string) :
  let url := config.coerceDatabaseURL raw in
  (url = "" \/ HasPrefix url "postgres://" = true) /\
  HasPrefix url "postgresql://" = false /\
  TrimSpace url = url /\
  config.coerceDatabaseURL url = url.
Proof.
  cbn zeta. rewrite <- (coerce_TrimSpace raw).
  destruct (coerce_trimmed (TrimSpace raw) (TrimSpace_idempotent raw))
    as (Hscheme & Hlong & Htrim).
  repeat split; try assumption.
  destruct Hscheme as [-> | Hshort]; [reflexivity|].
  apply coerce_fixed; assumption.
Qed.

(** *** The [.env] file *)




Lemma TrimLeftSpace_plain (key : string) :
  Forall (fun c => asciiSpace c = false) (list_ascii_of_string key) ->
  TrimLeftSpace key = key.
Proof.
  destruct key as [|c key]; [reflexivity|]. cbn [list_ascii_of_string].
  intros Hkey. apply Forall_cons in Hkey as [Hc _]. cbn [TrimLeftSpace].
  rewrite Hc. reflexivity.
Qed.

Lemma TrimRightSpace_cons (c : ascii) (s : string) :
  asciiSpace c = false -> TrimRightSpace s = s ->
  TrimRightSpace (String c s) = String c s.
Proof. intros Hc Hs. cbn [TrimRightSpace]. rewrite Hc, Hs. reflexivity. Qed.

Lemma TrimRightSpace_plain (key : string) :
  Forall (fun c => asciiSpace c = false) (list_ascii_of_string key) ->
  TrimRightSpace key = key.
Proof.
  induction key as [|c key IH]; [reflexivity|]. cbn [list_ascii_of_string].
  intros Hkey. apply Forall_cons in Hkey as [Hc Hkey].
  apply TrimRightSpace_cons; auto.
Qed.

Lemma TrimSpace_plain (key : string) :
  Forall (fun c => asciiSpace c = false) (list_ascii_of_string key) ->
  TrimSpace key = key.
Proof.
  intros Hkey. unfold TrimSpace. rewrite (TrimLeftSpace_plain key Hkey).
  exact (TrimRightSpace_plain key Hkey).
Qed.

Lemma Cut_app (key rest : string) (sep : ascii) :
  Forall (fun c => c <> sep) (list_ascii_of_string key) ->
  Cut (key ++ String sep rest) sep = (key, rest, true).
Proof.
  induction key as [|c key IH]; cbn [list_ascii_of_string]; intros Hkey.
  - change ("" ++ String sep rest) with (String sep rest). cbn [Cut].
    rewrite Ascii.eqb_refl. reflexivity.
  - apply Forall_cons in Hkey as [Hc Hkey].
    change (String c key ++ String sep rest)
      with (String c (key ++ String sep rest)).
    cbn [Cut]. rewrite (proj2 (Ascii.eqb_neq c sep) Hc), (IH Hkey).
    reflexivity.
Qed.

Lemma prefix_within (p key rest : string) (sep : ascii) :
  Forall (fun c => c <> sep) (list_ascii_of_string p) ->
  String.prefix p (key ++ String sep rest) = true ->
  String.prefix p key = true.
Proof.
  revert key. induction p as [|a p IH]; intros key Hp; [destruct key; reflexivity|].
  cbn [list_ascii_of_string] in Hp. apply Forall_cons in Hp as [Ha Hp].
  destruct key as [|c key].
  - change ("" ++ String sep rest) with (String sep rest). cbn [String.prefix].
    destruct (ascii_dec a sep); [contradiction|discriminate].
  - change (String c key ++ String sep rest)
      with (String c (key ++ String sep rest)).
    cbn [String.prefix]. destruct (ascii_dec a c); [|discriminate].
    apply IH. exact Hp.
Qed.

Lemma hasByte_false (c : ascii) (s : string) :
  Forall (fun c' => c' <> c) (list_ascii_of_string s) ->
  config.hasByte c s = false.
Proof.
  unfold config.hasByte.
  induction (list_ascii_of_string s) as [|c' l IH]; [reflexivity|].
  intros Hl. apply Forall_cons in Hl as [Hc Hl]. cbn [existsb].
  rewrite (IH Hl), orb_false_r. apply Ascii.eqb_neq. congruence.
Qed.

Lemma list_ascii_app (a b : string) :
  list_ascii_of_string (a ++ b)
  = (list_ascii_of_string a ++ list_ascii_of_string b)%list.
Proof.
  induction a as [|c a IH]; [reflexivity|].
  change (String c a ++ b) with (String c (a ++ b)).
  cbn [list_ascii_of_string app]. rewrite IH. reflexivity.
Qed.

Lemma assignment_right_trimmed (key value : string) :
  TrimSpace value = value ->
  TrimRightSpace (key ++ String "=" value) = key ++ String "=" value.
Proof.
  intros Hvalue. apply TrimRightSpace_app; [|reflexivity].
  apply TrimRightSpace_cons; [reflexivity|].
  apply TrimRightSpace_TrimSpace. exact Hvalue.
Qed.

Lemma assignment_trimmed (key value : string) :
  Forall (fun c => asciiSpace c = false) (list_ascii_of_string key) ->
  TrimSpace value = value ->
  TrimSpace (key ++ String "=" value) = key ++ String "=" value.
Proof.
  intros Hkey Hvalue. unfold TrimSpace. rewrite TrimLeftSpace_fixed.
  - exact (assignment_right_trimmed key value Hvalue).
  - destruct key as [|c k]; [reflexivity|].
    cbn [list_ascii_of_string] in Hkey.
    apply Forall_cons in Hkey as [Hc _].
    change (String c k ++ String "=" value)
      with (String c (k ++ String "=" value)).
    exact Hc.
Qed.

Lemma assignment_not_export (key value : string) :
  Forall (fun c => asciiSpace c = false) (list_ascii_of_string key) ->
  HasPrefix (key ++ String "=" value) "export " = false.
Proof.
  intros Hkey. unfold HasPrefix.
  destruct (String.prefix "export " (key ++ String "=" value)) eqn:Hp;
    [|reflexivity].
  apply prefix_within in Hp.
  - apply prefix_split in Hp.
    rewrite Hp, list_ascii_app, Forall_app in Hkey. destruct Hkey as [Hkey _].
    cbn in Hkey. repeat (apply Forall_cons in Hkey as [? Hkey]). discriminate.
  - cbn. repeat (constructor; [discriminate|]). constructor.
Qed.

Lemma assignment_not_comment (key value : string) :
  key <> "" -> HasPrefix key "#" = false ->
  HasPrefix (key ++ String "=" value) "#" = false.
Proof.
  intros Hne Hc. destruct key as [|c k]; [contradiction|].
  change (String c k ++ String "=" value)
    with (String c (k ++ String "=" value)).
  unfold HasPrefix in *. cbn [String.prefix] in *.
  destruct (ascii_dec "#" c); [|reflexivity].
  destruct k; discriminate Hc.
Qed.

Lemma Forall_plain (key : string) :
  Forall (fun c => asciiSpace c = false /\ c <> "="%char /\ c <> "000"%char)
         (list_ascii_of_string key) ->
  Forall (fun c => asciiSpace c = false) (list_ascii_of_string key) /\
  Forall (fun c => c <> "="%char) (list_ascii_of_string key) /\
  Forall (fun c => c <> "000"%char) (list_ascii_of_string key).
Proof.
  intros Hkey. repeat split; (eapply Forall_impl; [exact Hkey|]); cbn; tauto.
Qed.

Lemma unquote_quoted (quote : ascii) (inner : string) :
  quote = "034"%char \/ quote = "'"%char ->
  config.unquote (String quote (inner ++ String quote "")) = inner.
Proof.
  intros Hquote.
  assert (Hlast : forall c s, config.lastByte c (s ++ String quote "") = quote).
  { intros c s. revert c. induction s as [|c' s IH]; intros c; [reflexivity|].
    change (String c' s ++ String quote "") with (String c' (s ++ String quote "")).
    cbn [config.lastByte]. apply IH. }
  assert (Hdrop : forall s, config.dropLast (s ++ String quote "") = s).
  { induction s as [|c' s IH]; [reflexivity|].
    change (String c' s ++ String quote "") with (String c' (s ++ String quote "")).
    cbn [config.dropLast]. rewrite IH.
    destruct s; reflexivity. }
  destruct inner as [|c inner].
  - destruct Hquote as [-> | ->]; reflexivity.
  - change (String c inner ++ String quote "")
      with (String c (inner ++ String quote "")).
    cbn [config.unquote]. rewrite Hlast.
    replace (Ascii.eqb quote "034" && Ascii.eqb quote "034"
             || Ascii.eqb quote "'" && Ascii.eqb quote "'") with true
      by (destruct Hquote as [-> | ->]; reflexivity).
    exact (Hdrop (String c inner)).
Qed.

(** X28.  A line [KEY=value] of the [.env] file, with or without [export]
    before it, sets the variable [KEY], over the value it had, to the value
    without the quotes around it.  Name and value are of ASCII bytes; the
    name has no space, [=] or NUL byte in it and does not start with [#];
    the value has no space at either end.  Taking the quotes off a quoted string gives the string as it
    is between them. *)
Theorem dotenv_assignment (n : nat) (key value : string)
    (env : gmap string string) :
  isASCII key = true -> isASCII value = true ->
  key <> "" ->
  Forall (fun c => asciiSpace c = false /\ c <> "="%char /\ c <> "000"%char)
         (list_ascii_of_string key) ->
  HasPrefix key "#" = false ->
  TrimSpace value = value ->
  config.hasByte "000"%char (config.unquote value) = false ->
  config.loadLine n (key ++ "=" ++ value) env
    = inr (<[key := config.unquote value]> env) /\
  config.loadLine n ("export " ++ key ++ "=" ++ value) env
    = inr (<[key := config.unquote value]> env) /\
  forall quote inner,
    quote = "034"%char \/ quote = "'"%char ->
    config.unquote (String quote inner ++ String quote "") = inner.
Proof.
  intros _ _ Hnamed Hplain Hcomment Hvalue Hnul.
  destruct (Forall_plain key Hplain) as (Hspace & Hequals & Hkeynul).
  change ("=" ++ value) with (String "=" value).
  assert (Hset : config.Setenv key (config.unquote value) env
                 = Some (<[key := config.unquote value]> env)).
  { unfold config.Setenv.
    rewrite (isEmpty_false key Hnamed), (hasByte_false _ _ Hequals),
      (hasByte_false _ _ Hkeynul), Hnul.
    reflexivity. }
  assert (Hbare : config.loadLine n (key ++ String "=" value) env
                  = inr (<[key := config.unquote value]> env)).
  { unfold config.loadLine.
    rewrite (assignment_trimmed key value Hspace Hvalue),
      (assignment_not_comment key value Hnamed Hcomment),
      (assignment_not_export key value Hspace).
    rewrite isEmpty_app by reflexivity. cbn [orb].
    rewrite (Cut_app key value "="%char Hequals). cbn [negb].
    rewrite (TrimSpace_plain key Hspace), Hvalue,
      (isEmpty_false key Hnamed), Hset.
    reflexivity. }
  split; [exact Hbare|]. split.
  - unfold config.loadLine.
    assert (Hline : TrimSpace ("export " ++ key ++ String "=" value)
                    = "export " ++ key ++ String "=" value).
    { unfold TrimSpace. rewrite TrimLeftSpace_fixed by reflexivity.
      apply TrimRightSpace_app;
        [exact (assignment_right_trimmed key value Hvalue)|].
      apply isEmpty_app. reflexivity. }
    rewrite Hline. unfold HasPrefix at 1 2.
    rewrite prefix_app, TrimPrefix_app,
      (assignment_trimmed key value Hspace Hvalue).
    replace (isEmpty _ || String.prefix "#" _) with false by reflexivity.
    rewrite (Cut_app key value "="%char Hequals). cbn [negb].
    rewrite (TrimSpace_plain key Hspace), Hvalue,
      (isEmpty_false key Hnamed), Hset.
    reflexivity.
  - intros quote inner Hquote.
    change (String quote inner ++ String quote "")
      with (String quote (inner ++ String quote "")).
    exact (unquote_quoted quote inner Hquote).
Qed.

(** *** [Load] *)

Lemma getEnv_fallback (env : gmap string string) (key fallback : string) :
  config.getEnv env key fallback
  = if isEmpty (config.Getenv env key) then fallback
    else config.Getenv env key.
Proof.
  unfold config.getEnv, config.Getenv.
  destruct (env !! key) as [[|c val]|]; reflexivity.
Qed.

Lemma getEnv_set (env : gmap string string) (key fallback : string) :
  fallback <> "" -> config.getEnv env key fallback <> "".
Proof.
  intros Hfallback. rewrite getEnv_fallback.
  destruct (isEmpty (config.Getenv env key)) eqn:Hempty; [exact Hfallback|].
  intros Heq. rewrite Heq in Hempty. discriminate Hempty.
Qed.

Lemma splitCSV_set (value : string) : config.splitCSV value <> [].
Proof.
  unfold config.splitCSV. destruct (fold_left _ _ _); discriminate.
Qed.

Section Load.

Variable ParseDuration : string -> option Z.
Variable Atoi : string -> option Z.
Variable ReadFile : string -> option string.
Variable dsnString : string -> string -> string -> string -> string -> string
                     -> string.

(** X29.  When [Load] succeeds, the [.env] file has been read without
    error and the configuration is complete: the JWT secret is the value of
    [JWT_SECRET] and is not empty, the database URL, the port and the
    issuer are not empty, and there is at least one allowed origin.  A
    [DATABASE_URL] that is a PostgreSQL URL is the database URL, whatever
    the other variables are. *)
Theorem load_complete (file : config.DotEnv) (env env' : gmap string string)
    (cfg : config.Config) :
  config.Load ParseDuration Atoi ReadFile dsnString file env = (Ok cfg, env') ->
  config.loadDotEnv file env = (None, env') /\
  config.JWTSecret cfg = config.Getenv env' "JWT_SECRET" /\
  config.JWTSecret cfg <> "" /\
  config.DatabaseURL cfg <> "" /\
  config.HTTPPort cfg <> "" /\
  config.JWTIssuer cfg <> "" /\
  config.AllowedOrigins cfg <> [] /\
  (config.coerceDatabaseURL (config.Getenv env' "DATABASE_URL") <> "" ->
   config.DatabaseURL cfg
   = config.coerceDatabaseURL (config.Getenv env' "DATABASE_URL")).
Proof.
  unfold config.Load.
  destruct (config.loadDotEnv file env) as [[err|] env1]; [discriminate|].
  cbn [config.DatabaseURL config.JWTSecret].
  destruct (isEmpty (config.resolveDatabaseURL ReadFile dsnString env1))
    eqn:Hurl; [discriminate|].
  destruct (isEmpty (config.getEnv env1 "JWT_SECRET" "")) eqn:Hsecret;
    [discriminate|].
  intros [= <- <-].
  cbn [config.DatabaseURL config.JWTSecret config.HTTPPort config.JWTIssuer
       config.AllowedOrigins].
  split; [reflexivity|]. split.
  { rewrite getEnv_fallback in Hsecret |- *.
    destruct (isEmpty (config.Getenv env1 "JWT_SECRET"));
      [discriminate Hsecret|reflexivity]. }
  split. { intros Heq. rewrite Heq in Hsecret. discriminate Hsecret. }
  split. { intros Heq. rewrite Heq in Hurl. discriminate Hurl. }
  split.
  { destruct (isEmpty (config.getEnv env1 "HTTP_PORT" "")) eqn:Hport.
    - apply getEnv_set. discriminate.
    - intros Heq. rewrite Heq in Hport. discriminate Hport. }
  split. { apply getEnv_set. discriminate. }
  split. { apply splitCSV_set. }
  intros Hcoerced. unfold config.resolveDatabaseURL.
  cbn [config.urlKeys map config.firstCoerced].
  destruct (isEmpty (config.Getenv env1 "DATABASE_URL")) eqn:Hempty.
  - apply isEmpty_true in Hempty. rewrite Hempty in Hcoerced.
    contradiction Hcoerced. reflexivity.
  - cbn [negb]. rewrite (isEmpty_false _ Hcoerced). reflexivity.
Qed.

End Load.

(** ** The services on sample data *)

Import sample.

Example normalized_email :
  TrimSpace (ToLower "  A@Example.com ") = "a@example.com".
Proof. reflexivity. Qed.

Example bearer_any_case :
  extractBearerToken "BeArEr   abc.def.ghi  " = "abc.def.ghi".
Proof. reflexivity. Qed.

Example bearer_other_scheme : extractBearerToken "Basic abc" = "".
Proof. reflexivity. Qed.

Example bearer_no_space : extractBearerToken "Bearer" = "".
Proof. reflexivity. Qed.

Example ensureRole_default : user.ensureRole "" true = Ok RoleUser.
Proof. reflexivity. Qed.

Example ensureRole_any_case : user.ensureRole " Admin " true = Ok RoleAdmin.
Proof. reflexivity. Qed.

Example ensureRole_unknown : user.ensureRole "root" true = Err ErrInvalidRole.
Proof. reflexivity. Qed.

Example numeric_date_truncates :
  jwt.NewNumericDate t1 = t0 /\ jwt.NewNumericDate (- 1) = - jwt.second.
Proof. split; reflexivity. Qed.

(** A lifetime below a second can end before the token is issued: the
    expiry is truncated to the second. *)
Example short_lifetime_expired_at_issue :
  exists tok,
    token.Generate (token.NewJWTManager "signing-secret" 100000000 "backoffice")
      t1 "id-1" = Ok tok /\
    token.Validate (token.NewJWTManager "signing-secret" 100000000 "backoffice")
      t1 tok = Err (errorsNew "token has invalid claims: token is expired").
Proof. eexists. split; [reflexivity|]. vm_compute. reflexivity. Qed.

(** A token that names the method [none] and carries no signature. *)
Example unsigned_token_rejected :
  token.Validate tokens t1
    (jwt.encode
       (jwt.mkToken "none"
          (jwt.mkClaims "id-0" "backoffice" "" [] None None None "") ""))
  = Err (errorsNew ("token is unverifiable: error while executing keyfunc: "
                    ++ "unexpected signing method")).
Proof. vm_compute. reflexivity. Qed.

(** A token signed under another secret. *)
Example foreign_token_rejected :
  exists tok,
    token.Generate (token.NewJWTManager "other-secret" (12 * hour) "backoffice")
      t1 "id-0" = Ok tok /\
    token.Validate tokens t2 tok
      = Err (errorsNew "token signature is invalid: signature is invalid").
Proof. eexists. split; [reflexivity|]. vm_compute. reflexivity. Qed.

Example list_most_recent_first :
  fst (user.List (user.mkFilter "")
         (mkPool [root; mkUser "id-1" "a@example.com" "Ann" "user" "h" t2 t2] []))
  = Ok [mkUser "id-1" "a@example.com" "Ann" "user" "" t2 t2;
        auth.sanitizeUser root].
Proof. reflexivity. Qed.

(** C3 (the code departs from it).  [Register] of
    ["A@Example.com"], ["secret1"], ["Ann"] on an empty store succeeds; the
    account it returns and the row it stores have the identifier of the
    call and both timestamps at the clock reading, but their role is the
    empty string, not [user].  [Create] of the administration service, on
    the same input with no role given, stores the role [user]. *)
Theorem register_leaves_role_unset :
  exists (u row : User) (p : Pool),
    auth.Register sample.t0 "id-1" "salt" "A@Example.com" "secret1" "Ann"
      (mkPool [] []) = (Ok u, p) /\
    users p = [row] /\
    ID u = "id-1" /\ CreatedAt u = sample.t0 /\ UpdatedAt u = sample.t0 /\
    Role u = "" /\ Role row = "" /\ Role u <> RoleUser /\
    exists (u' : User) (p' : Pool),
      user.Create sample.t0 "id-1" "salt"
        (user.mkCreateInput "A@Example.com" "Ann" "secret1" "")
        (mkPool [] []) = (Ok u', p') /\
      Role u' = RoleUser /\ map Role (users p') = [RoleUser].
Proof.
  eexists _, _, _. split; [vm_compute; reflexivity|].
  repeat split; try discriminate.
  eexists _, _. split; [vm_compute; reflexivity|]. split; reflexivity.
Qed.


(** C2 on sample data: [ann]'s token, still eleven hours from its expiry,
    after the administration service has deleted her account. *)
Lemma verify_token_invalid_witness :
  (token.Validate tokens t2 annToken = Ok (TrimSpace "id-1") /\
   user.Delete "id-1" (mkPool [root; ann] []) = (Ok tt, mkPool [root] [])) /\
  auth.VerifyToken tokens t2 annToken (mkPool [root] [])
    = (Err ErrTokenInvalid, mkPool [root] []).
Proof.
  assert (Hvalid : token.Validate tokens t2 annToken = Ok (TrimSpace "id-1"))
    by (vm_compute; reflexivity).
  assert (Hdel : user.Delete "id-1" (mkPool [root; ann] [])
                 = (Ok tt, mkPool [root] []))
    by (vm_compute; reflexivity).
  split; [auto|].
  apply (verify_token_invalid tokens t2 annToken (mkPool [root] [])).
  right. right. exists "id-1", (mkPool [root; ann] []). auto.
Defined.


(** C5 on sample data: [ann]'s token, signed by the manager, thirteen hours
    after it was issued. *)
Lemma validate_rejects_witness :
  (exists t exp,
     jwt.decode annToken = Some t /\
     jwt.signature t
       = jwt.hmac (jwt.alg t) (token.secret tokens) (jwt.alg t) (jwt.claims t) /\
     jwt.ExpiresAt (jwt.claims t) = Some exp /\ exp <= t1 + 13 * hour) /\
  exists err, token.Validate tokens (t1 + 13 * hour) annToken = Err err.
Proof.
  assert (Hexpired : exists t exp,
            jwt.decode annToken = Some t /\
            jwt.signature t
              = jwt.hmac (jwt.alg t) (token.secret tokens) (jwt.alg t)
                         (jwt.claims t) /\
            jwt.ExpiresAt (jwt.claims t) = Some exp /\ exp <= t1 + 13 * hour).
  { eexists _, _. split; [vm_compute; reflexivity|].
    split; [reflexivity|]. split; [reflexivity|].
    vm_compute. discriminate. }
  split; [exact Hexpired|].
  destruct Hexpired as (t & exp & Hdec & _ & Hexp & Hpast).
  apply (validate_rejects tokens (t1 + 13 * hour) annToken).
  right. exists t. split; [exact Hdec|]. right. right. exists exp. auto.
Defined.



(** C7 on sample data: the account [Login] returns for [ann]. *)
Lemma outward_accounts_sanitized_witness :
  fst (auth.Login tokens t1 (mkCredentials "a@example.com" "secret1")
         (mkPool [root; ann] []))
    = Ok (annToken, auth.sanitizeUser ann) /\
  PasswordHash (auth.sanitizeUser ann) = "".
Proof.
  assert (Hlogin : fst (auth.Login tokens t1
                          (mkCredentials "a@example.com" "secret1")
                          (mkPool [root; ann] []))
                   = Ok (annToken, auth.sanitizeUser ann))
    by (vm_compute; reflexivity).
  split; [exact Hlogin|].
  exact (proj1 (proj2 (outward_accounts_sanitized tokens)) t1
           (mkCredentials "a@example.com" "secret1") (mkPool [root; ann] [])
           annToken (auth.sanitizeUser ann) Hlogin).
Defined.

(** C8 on sample data: a header with the prefix and only spaces after it;
    [VerifyToken] is the service's, the next handler is [handleUserRole]. *)
Lemma middleware_rejects_without_bearer_witness :
  TrimSpace (sliceFrom 7 "bEARER   ") = "" /\
  authMiddleware (auth.VerifyToken tokens t2) (handleUserRole t2)
    (mkRequest "GET" "bEARER   " DecodeEOF None) (mkPool [root; ann] [])
  = (writeError StatusUnauthorized "authorization token required",
     mkPool [root; ann] []).
Proof.
  assert (Hblank : TrimSpace (sliceFrom 7 "bEARER   ") = "")
    by (vm_compute; reflexivity).
  split; [exact Hblank|].
  apply (middleware_rejects_without_bearer
           (auth.VerifyToken tokens t2) (handleUserRole t2)
           (mkRequest "GET" "bEARER   " DecodeEOF None)
           (mkPool [root; ann] [])).
  right. right. exact Hblank.
Defined.

(** C9 on sample data: [ann] asks for [Admin] on her own role and is
    refused; [root] sends the same payload for [ann]'s identifier and [ann]
    becomes an admin. *)
Lemma role_escalation_guard_witness :
  (ToLower (TrimSpace " Admin ") = RoleAdmin /\
   Role (auth.sanitizeUser ann) <> RoleAdmin /\
   Role (auth.sanitizeUser root) = RoleAdmin /\
   consistent [root; ann]) /\
  handleUserRole t2
    (mkRequest "PATCH" "" (Payload " Admin ") (Some (auth.sanitizeUser ann)))
    (mkPool [root; ann] [])
  = (writeError StatusForbidden
       "insufficient privileges to assign admin role",
     mkPool [root; ann] []) /\
  exists u p',
    handleAdminUserRole t2 "id-1"
      (mkRequest "PATCH" "" (Payload " Admin ")
         (Some (auth.sanitizeUser root)))
      (mkPool [root; ann] [])
    = (writeJSON StatusOK (userValue u), p') /\
    ID u = "id-1" /\ Role u = RoleAdmin /\
    exists row', In row' (users p') /\
      ID row' = "id-1" /\ Role row' = RoleAdmin.
Proof.
  assert (Hrole : ToLower (TrimSpace " Admin ") = RoleAdmin)
    by (vm_compute; reflexivity).
  assert (Hnot : Role (auth.sanitizeUser ann) <> RoleAdmin)
    by (vm_compute; discriminate).
  assert (Hadmin : Role (auth.sanitizeUser root) = RoleAdmin)
    by reflexivity.
  assert (Hcons : consistent [root; ann]).
  { split; cbn [map]; repeat constructor;
      rewrite ?list_elem_of_In; cbn [In];
      intros Hin; repeat destruct Hin as [Hin | Hin]; discriminate || auto. }
  split; [auto|].
  destruct (role_escalation_guard t2 "PATCH" " Admin " "id-1" "" ""
              (auth.sanitizeUser ann) (auth.sanitizeUser root)
              (mkPool [root; ann] []) (or_intror eq_refl) Hrole)
    as [Hself Hpath].
  split; [exact (Hself Hnot)|].
  apply (Hpath Hadmin eq_refl Hcons).
  - exists ann. split; [right; left; reflexivity|reflexivity].
  - vm_compute; reflexivity.
  - vm_compute; discriminate.
Defined.

(** C10 on sample data: sanitizing the record at address 1 of a heap that
    holds [ann] there. *)
Lemma sanitize_preserves_stored_account_witness :
  ({[1%positive := ann]} : gmap positive User) !! 1%positive = Some ann /\
  exists copy,
    mem.sanitizeUser (Some 1%positive) {[1%positive := ann]}
      = Some (Some copy,
              <[copy := auth.sanitizeUser ann]> {[1%positive := ann]}) /\
    (<[copy := auth.sanitizeUser ann]>
       ({[1%positive := ann]} : gmap positive User)) !! 1%positive
      = Some ann.
Proof.
  assert (Hat : ({[1%positive := ann]} : gmap positive User) !! 1%positive
                = Some ann)
    by (vm_compute; reflexivity).
  split; [exact Hat|].
  destruct (proj1 (sanitize_preserves_stored_account tokens)
              {[1%positive := ann]} 1%positive ann Hat)
    as (copy & Hcopy & _ & _ & _ & Hkept).
  exists copy. split; [exact Hcopy|exact Hkept].
Defined.

(** ** The further properties on sample data *)

Lemma sample_consistent : consistent [root; ann].
Proof.
  split; cbn [map]; repeat constructor;
    rewrite ?list_elem_of_In; cbn [In];
    intros Hin; repeat destruct Hin as [Hin | Hin]; discriminate || auto.
Qed.

Lemma sample_undisturbed (t : list User) : undisturbed (script (mkPool t [])).
Proof. intros t' []. Qed.

(** X1 on sample data: [ann] is inserted beside [root]. *)
Lemma create_then_lookup_witness :
  Create ann (mkPool [root] []) = (Ok tt, mkPool [root; ann] []) /\
  users (mkPool [root; ann] []) = (users (mkPool [root] []) ++ [ann])%list /\
  GetByID (ID ann) (mkPool [root; ann] []) = (Ok ann, mkPool [root; ann] []) /\
  GetByEmail (Email ann) (mkPool [root; ann] [])
    = (Ok ann, mkPool [root; ann] []).
Proof.
  assert (Hcreate : Create ann (mkPool [root] [])
                    = (Ok tt, mkPool [root; ann] []))
    by (vm_compute; reflexivity).
  split; [exact Hcreate|].
  exact (create_then_lookup ann (mkPool [root] []) (mkPool [root; ann] [])
           eq_refl Hcreate).
Defined.

(** X2 on sample data: [ann] is inserted a second time. *)
Lemma create_conflict_witness :
  Create ann (mkPool [root; ann] [])
  = (Err ErrEmailExists, mkPool [root; ann] []).
Proof.
  apply (proj1 (proj1 (create_conflict ann (mkPool [root; ann] []) eq_refl))).
  exists ann. split; [right; left; reflexivity|left; reflexivity].
Defined.

(** X3 on sample data: [ann] is deleted. *)
Lemma delete_then_lookup_witness :
  exists p',
    Delete "id-1" (mkPool [root; ann] []) = (Ok tt, p') /\
    GetByID "id-1" p' = (Err ErrUserNotFound, p') /\
    forall r, In r (users p') <->
              In r (users (mkPool [root; ann] [])) /\ ID r <> "id-1".
Proof.
  apply (proj1 (delete_then_lookup "id-1" (mkPool [root; ann] []) eq_refl)).
  exists ann. split; [right; left; reflexivity|reflexivity].
Defined.

(** X5 on sample data: a new digest for [ann]. *)
Lemma update_password_only_witness :
  exists p',
    UpdatePassword "id-1" "saltnew" t2 (mkPool [root; ann] []) = (Ok tt, p') /\
    GetByID "id-1" p'
      = (Ok (mkUser (ID ann) (Email ann) (Name ann) (Role ann) "saltnew"
                    (CreatedAt ann) t2), p') /\
    forall r, ID r <> "id-1" ->
              (In r (users p') <-> In r (users (mkPool [root; ann] []))).
Proof.
  apply (proj1 (update_password_only "id-1" "saltnew" t2
                  (mkPool [root; ann] []) eq_refl) ann).
  - right; left; reflexivity.
  - reflexivity.
  - exact (proj1 sample_consistent).
Defined.

(** X6 on sample data: [ann]'s token an hour after its issue. *)
Lemma token_lifetime_witness :
  token.Generate tokens t1 "id-1" = Ok annToken /\
  (token.Validate tokens t2 annToken = Ok "id-1" <->
   t2 < jwt.NewNumericDate (t1 + token.expiration tokens)) /\
  (t2 < t1 + token.expiration tokens - jwt.second ->
   token.Validate tokens t2 annToken = Ok "id-1").
Proof.
  assert (Hgen : token.Generate tokens t1 "id-1" = Ok annToken)
    by (vm_compute; reflexivity).
  split; [exact Hgen|].
  destruct (token_lifetime tokens t1 t2 "id-1" annToken Hgen)
    as (Hiff & Hlive & _).
  split; [exact Hiff|exact Hlive].
Defined.

(** X7 on sample data: a token of a manager with the secret of [tokens] and
    another issuer. *)
Lemma validate_ignores_issuer_witness :
  exists tok,
    token.Generate (token.NewJWTManager "signing-secret" hour "elsewhere")
      t1 "id-1" = Ok tok /\
    token.Validate tokens (t1 + 1) tok = Ok "id-1".
Proof.
  eexists. split; [vm_compute; reflexivity|].
  apply (validate_ignores_issuer
           (token.NewJWTManager "signing-secret" hour "elsewhere") tokens
           t1 (t1 + 1) "id-1").
  - reflexivity.
  - vm_compute; reflexivity.
  - vm_compute; reflexivity.
Defined.

(** X9 on sample data: [ann] registers on an empty store. *)
Lemma register_all_or_nothing_witness :
  match auth.Register t0 "id-1" "salt" "A@Example.com" " secret1 " "Ann"
          (mkPool [] []) with
  | (Ok u, p') =>
      exists hashed,
        bcrypt.GenerateFromPassword "salt" (TrimSpace " secret1 ") = Ok hashed /\
        bcrypt.CompareHashAndPassword hashed (TrimSpace " secret1 ") = true /\
        users p'
          = (users (mkPool [] [])
             ++ [auth.registered t0 "id-1" hashed "A@Example.com" "Ann"])%list /\
        u = auth.sanitizeUser
              (auth.registered t0 "id-1" hashed "A@Example.com" "Ann")
  | (Err _, p') => users p' = users (mkPool [] [])
  end.
Proof.
  exact (register_all_or_nothing t0 "id-1" "salt" "A@Example.com" " secret1 "
           "Ann" (mkPool [] []) eq_refl eq_refl eq_refl
           (sample_undisturbed [])).
Defined.

(** X10 on sample data: [ann]'s email in another letter case. *)
Lemma register_twice_witness :
  auth.Register t0 "id-1" "salt" "A@Example.com" "secret1" "Ann" (mkPool [] [])
    = (Ok (auth.sanitizeUser ann), mkPool [ann] []) /\
  auth.Register t1 "id-2" "pepper" " a@EXAMPLE.com " "other" "Anna"
    (mkPool [ann] [])
    = (Err ErrEmailExists, mkPool [ann] []).
Proof.
  assert (Hfirst : auth.Register t0 "id-1" "salt" "A@Example.com" "secret1"
                     "Ann" (mkPool [] [])
                   = (Ok (auth.sanitizeUser ann), mkPool [ann] []))
    by (vm_compute; reflexivity).
  split; [exact Hfirst|].
  apply (register_twice t0 t1 "id-1" "salt" "A@Example.com" "secret1" "Ann"
           "id-2" "pepper" " a@EXAMPLE.com " "other" "Anna"
           (mkPool [] []) (mkPool [ann] []) (auth.sanitizeUser ann)
           eq_refl eq_refl eq_refl eq_refl eq_refl eq_refl Hfirst).
  - vm_compute; reflexivity.
  - vm_compute; discriminate.
Defined.

(** X12 on sample data: [ann]'s token against the store of [root] and
    [ann]. *)
Lemma verify_token_current_account_witness :
  auth.VerifyToken tokens t2 annToken (mkPool [root; ann] [])
    = (Ok (auth.sanitizeUser ann), mkPool [root; ann] []) /\
  exists row,
    In row (users (mkPool [root; ann] [])) /\
    token.Validate tokens t2 annToken = Ok (ID row) /\
    auth.sanitizeUser ann = auth.sanitizeUser row.
Proof.
  assert (Hverify : auth.VerifyToken tokens t2 annToken (mkPool [root; ann] [])
                    = (Ok (auth.sanitizeUser ann), mkPool [root; ann] []))
    by (vm_compute; reflexivity).
  split; [exact Hverify|].
  exact (proj2 (verify_token_current_account tokens t2 annToken
                  (mkPool [root; ann] []) (mkPool [root; ann] [])
                  (auth.sanitizeUser ann) eq_refl Hverify)).
Defined.

(** X13 on sample data: an account created, with no role given, beside
    [root]. *)
Lemma administration_keeps_roles_witness :
  Forall (fun r => Role r = RoleUser \/ Role r = RoleAdmin)
         (users (snd (user.Create t1 "id-2" "salt"
                        (user.mkCreateInput "b@example.com" "Bob" "hunter2" "")
                        (mkPool [root] [])))).
Proof.
  assert (Hroles : Forall (fun r => Role r = RoleUser \/ Role r = RoleAdmin)
                           (users (mkPool [root] [])))
    by (constructor; [right; reflexivity|constructor]).
  apply (proj1 (administration_keeps_roles (mkPool [root] [])
                  (sample_undisturbed [root]) Hroles)).
Defined.

(** X14 on sample data: a new email and the role [admin] for [ann]. *)
Lemma update_keeps_identity_and_digest_witness :
  map ID (users (snd (user.Update t2 "id-1"
                        (user.mkUpdateInput (Some "x@example.com") None
                                            (Some "admin"))
                        (mkPool [root; ann] []))))
  = map ID (users (mkPool [root; ann] [])).
Proof.
  exact (proj1 (update_keeps_identity_and_digest t2 "id-1"
                  (user.mkUpdateInput (Some "x@example.com") None
                                      (Some "admin"))
                  (mkPool [root; ann] [])
                  (sample_undisturbed [root; ann]))).
Defined.

(** X15 on sample data: an update of [ann] with no field. *)
Lemma update_without_fields_witness :
  fst (user.Update t2 "id-1" (user.mkUpdateInput None None None)
         (mkPool [root; ann] []))
  = Ok (mkUser (ID ann) (Email ann) (Name ann) (Role ann) ""
               (CreatedAt ann) t2).
Proof.
  rewrite (update_without_fields t2 "id-1" ann (mkPool [root; ann] [])
             eq_refl sample_consistent).
  - reflexivity.
  - right; left; reflexivity.
  - reflexivity.
  - vm_compute; discriminate.
Defined.

(** X16 on sample data: [ann] asks for the email of [root]. *)
Lemma update_email_taken_witness :
  user.Update t2 "id-1"
    (user.mkUpdateInput (Some " ROOT@example.com") None None)
    (mkPool [root; ann] [])
  = (Err ErrEmailExists, mkPool [root; ann] []).
Proof.
  apply (update_email_taken t2 "id-1" " ROOT@example.com" None ann root
           (mkPool [root; ann] []) eq_refl).
  - vm_compute; reflexivity.
  - vm_compute; discriminate.
  - left; reflexivity.
  - vm_compute; discriminate.
  - vm_compute; reflexivity.
  - vm_compute; discriminate.
Defined.

(** X17 on sample data: the admins of the store of [root] and [ann]. *)
Lemma list_sorted_and_filtered_witness :
  exists l,
    user.List (user.mkFilter " Admin ") (mkPool [root; ann] [])
      = (Ok l, mkPool [root; ann] []) /\
    Permutation l
      (map user.sanitizeUser
         (List.filter (fun r => bool_decide (Role r = RoleAdmin))
                      (users (mkPool [root; ann] [])))) /\
    StronglySorted (fun a b => CreatedAt b <= CreatedAt a) l.
Proof.
  apply (proj1 (proj2 (list_sorted_and_filtered (user.mkFilter " Admin ")
                         (mkPool [root; ann] []) eq_refl)) RoleAdmin).
  - vm_compute; reflexivity.
  - right; reflexivity.
Defined.

(** X18 on sample data: the scheme in capitals. *)
Lemma bearer_token_extracted_witness :
  extractBearerToken ("BEARER " ++ " abc.def ") = TrimSpace " abc.def ".
Proof.
  apply (proj1 (bearer_token_extracted "BEARER " " abc.def " "")).
  - vm_compute; reflexivity.
  - reflexivity.
Defined.

(** X19 on sample data: [ann] sets her own role to [user]. *)
Lemma self_role_update_grants_no_admin_witness :
  Role (auth.sanitizeUser ann) <> RoleAdmin /\
  forall row,
    In row (users (snd (handleUserRole t2
                          (mkRequest "PATCH" "" (Payload "user")
                                     (Some (auth.sanitizeUser ann)))
                          (mkPool [root; ann] [])))) ->
    Role row = RoleAdmin -> In row (users (mkPool [root; ann] [])).
Proof.
  assert (Hnot : Role (auth.sanitizeUser ann) <> RoleAdmin)
    by (vm_compute; discriminate).
  split; [exact Hnot|].
  exact (self_role_update_grants_no_admin t2
           (mkRequest "PATCH" "" (Payload "user")
                      (Some (auth.sanitizeUser ann)))
           (mkPool [root; ann] []) (auth.sanitizeUser ann) eq_refl Hnot
           (sample_undisturbed [root; ann])).
Defined.

(** X20 on sample data: [ann], who is no admin, asks for the deletion of
    [root]. *)
Lemma admin_routes_closed_witness :
  snd (handleAdminUserByID t2
         (mkAdminRequest
            (mkRequest "DELETE" "" DecodeEOF (Some (auth.sanitizeUser ann)))
            "/admin/users/id-0" "" BodyEOF BodyEOF)
         (mkPool [root; ann] []))
  = mkPool [root; ann] [].
Proof.
  assert (Hprincipal : forall u,
            Some (auth.sanitizeUser ann) = Some u -> Role u <> RoleAdmin)
    by (intros u [= <-]; vm_compute; discriminate).
  apply (proj1 (proj1 (proj2
           (admin_routes_closed t2 "id-2" "salt" "id-0"
              (mkAdminRequest
                 (mkRequest "DELETE" "" DecodeEOF
                            (Some (auth.sanitizeUser ann)))
                 "/admin/users/id-0" "" BodyEOF BodyEOF)
              (mkPool [root; ann] []) Hprincipal)))).
Defined.


(** X22 on sample data: [root] resets the role of [ann]. *)
Lemma admin_delete_resets_role_witness :
  handleAdminUserRole t2 "id-1"
    (mkRequest "DELETE" "" DecodeEOF (Some (auth.sanitizeUser root)))
    (mkPool [root; ann] [])
  = (writeJSON StatusOK
       (userValue (mkUser (ID ann) (Email ann) (Name ann) RoleUser ""
                          (CreatedAt ann) t2)),
     mkPool (map (setRow (mkUser (ID ann) (Email ann) (Name ann) RoleUser
                                 (PasswordHash ann) (CreatedAt ann) t2))
                 (users (mkPool [root; ann] []))) []).
Proof.
  apply (admin_delete_resets_role t2 "id-1"
           (mkRequest "DELETE" "" DecodeEOF (Some (auth.sanitizeUser root)))
           (mkPool [root; ann] []) (auth.sanitizeUser root) ann
           eq_refl eq_refl eq_refl eq_refl sample_consistent).
  - right; left; reflexivity.
  - reflexivity.
  - vm_compute; discriminate.
Defined.

(** X23 on sample data: [root] reads [ann] through the path of her
    identifier. *)
Lemma admin_path_routing_witness :
  handleAdminUserByID t2
    (mkAdminRequest
       (mkRequest "GET" "" DecodeEOF (Some (auth.sanitizeUser root)))
       "/admin/users/id-1" "" BodyEOF BodyEOF)
    (mkPool [root; ann] [])
  = match user.Get "id-1" (mkPool [root; ann] []) with
    | (Ok user, p') => (replyOf (writeJSON StatusOK (userValue user)), p')
    | (Err err, p') =>
        (replyOf (writeError
                    (if errorsIs err ErrUserNotFound
                     then StatusNotFound else StatusBadRequest)
                    (Error err)), p')
    end.
Proof.
  assert (Hid : "id-1" <> "") by discriminate.
  assert (Hslash : forall c, In c (list_ascii_of_string "id-1") ->
                             c <> "/"%char).
  { intros c Hin. cbn in Hin.
    repeat destruct Hin as [<- | Hin]; try discriminate. contradiction. }
  apply (proj1 (proj2
           (admin_path_routing t2
              (mkAdminRequest
                 (mkRequest "GET" "" DecodeEOF (Some (auth.sanitizeUser root)))
                 "/admin/users/id-1" "" BodyEOF BodyEOF)
              (mkPool [root; ann] []) "id-1" eq_refl eq_refl Hid Hslash))).
  - reflexivity.
  - reflexivity.
  - reflexivity.
Defined.


(** X28 on sample data: a quoted secret with a space in it. *)
Lemma dotenv_assignment_witness :
  config.loadLine 1 ("JWT_SECRET" ++ "=" ++ "'a b'") ∅
  = inr (<["JWT_SECRET" := config.unquote "'a b'"]> ∅).
Proof.
  assert (Hnamed : "JWT_SECRET" <> "") by discriminate.
  assert (Hplain :
    Forall (fun c => asciiSpace c = false /\ c <> "="%char /\ c <> "000"%char)
           (list_ascii_of_string "JWT_SECRET")).
  { cbn [list_ascii_of_string].
    repeat (constructor; [split; [reflexivity|split; discriminate]|]).
    constructor. }
  apply (proj1 (dotenv_assignment 1 "JWT_SECRET" "'a b'" ∅ eq_refl eq_refl
                  Hnamed Hplain eq_refl eq_refl eq_refl)).
Defined.

(** X29 on sample data: a [.env] file with the two required variables and
    an empty environment. *)
Lemma load_complete_witness :
  config.Load (fun _ => None) (fun _ => None) (fun _ => None)
    (fun _ _ _ _ _ _ => "")
    (config.Lines ["DATABASE_URL=postgresql://u@h/db"; "JWT_SECRET=s"] None) ∅
  = (Ok (config.mkConfig "8080" "postgres://u@h/db" "s" "backoffice"
           (12 * config.hour) ["*"] 15 15 60),
     <["JWT_SECRET" := "s"]> (<["DATABASE_URL" := "postgresql://u@h/db"]> ∅)) /\
  config.JWTSecret
    (config.mkConfig "8080" "postgres://u@h/db" "s" "backoffice"
       (12 * config.hour) ["*"] 15 15 60) <> "".
Proof.
  assert (Hload :
    config.Load (fun _ => None) (fun _ => None) (fun _ => None)
      (fun _ _ _ _ _ _ => "")
      (config.Lines ["DATABASE_URL=postgresql://u@h/db"; "JWT_SECRET=s"] None) ∅
    = (Ok (config.mkConfig "8080" "postgres://u@h/db" "s" "backoffice"
             (12 * config.hour) ["*"] 15 15 60),
       <["JWT_SECRET" := "s"]> (<["DATABASE_URL" := "postgresql://u@h/db"]> ∅)))
    by (vm_compute; reflexivity).
  split; [exact Hload|].
  exact (proj1 (proj2 (proj2 (load_complete _ _ _ _ _ _ _ _ Hload)))).
Defined.

(** X24 on sample data: an origin in capitals against the allowed origin
    in small letters. *)
Lemma cors_origin_policy_witness :
  exists headers : gmap string string,
    cors.withCORS (fun sent => sent) ["https://app.example"]
      "https://APP.example" "GET" ∅
    = cors.served headers /\
    headers !! "Access-Control-Allow-Origin" = Some "https://APP.example".
Proof.
  assert (Hallowed : Forall (fun candidate => isASCII candidate = true)
                            ["https://app.example"])
    by (constructor; [reflexivity|constructor]).
  destruct (cors_origin_policy (fun sent => sent) ["https://app.example"]
              "https://APP.example" "GET" eq_refl Hallowed)
    as (headers & Hrun & Hheader).
  exists headers. split; [exact Hrun|].
  apply Hheader. left. split; [reflexivity|]. split; [discriminate|].
  right. exists "https://app.example". split; [left; reflexivity|].
  vm_compute; reflexivity.
Defined.

(** X25 on sample data: blank pieces between the commas. *)
Lemma splitCSV_entries_witness :
  isASCII " a, b ,,c " = true /\
  config.splitCSV " a, b ,,c " = ["a"; "b"; "c"].
Proof.
  assert (Hascii : isASCII " a, b ,,c " = true) by reflexivity.
  split; [exact Hascii|].
  rewrite (proj1 (splitCSV_entries " a, b ,,c ") Hascii).
  vm_compute; reflexivity.
Defined.
